(** * MXWriter (dlls/msxml3/mxwriter.c): a shallow embedding and its properties

    The writer is a SAX content handler that serialises document events
    into two growable byte buffers (UTF-16 and, for UTF-8 output, an encoded
    one) and pushes the bytes of the chosen buffer to an optional IStream.

    Conventions of the embedding:
    - C integers are [Z]; [u32] and [s32] write out the wrap-around of
      [unsigned int]/[ULONG] and [int].
    - A [WCHAR] is a [Z] (a 16-bit unit), a byte is a [Z] below 256.
    - A pointer to wide text is [option (list WCHAR)]; [None] is NULL.  The
      list is the memory the pointer addresses; the unit after the last
      element is the terminating NUL, so reading the head of the empty list
      yields 0.
    - The heap never fails: the out-of-memory returns are not modelled.
    - heap_alloc does not clear the memory it hands out.  Where the code
      reads a unit it never stored, that unit is a parameter [heap] of the
      definition: what the heap held there.
    - Reference counting, IDispatch and the content-handler methods that only
      answer E_NOTIMPL are left out: they do not touch the writer's data. *)

From Stdlib Require Import String Ascii.
From Stdlib Require Import ZArith List Bool Lia.
Import ListNotations.
Open Scope Z_scope.

(** ** Machine integers *)

Definition u32 (z : Z) : Z := z mod 2 ^ 32.
Definition s32 (z : Z) : Z := (z + 2 ^ 31) mod 2 ^ 32 - 2 ^ 31.
Definition INT_MAX : Z := 2 ^ 31 - 1.

Definition WCHAR := Z.
Definition byte := Z.
Definition LPCWSTR := option (list WCHAR).
Definition BSTR := option (list WCHAR).

Definition HRESULT := Z.
Definition S_OK : HRESULT := 0.
Definition E_NOTIMPL : HRESULT := -2147467263.     (* 0x80004001 *)
Definition E_POINTER : HRESULT := -2147467261.     (* 0x80004003 *)
Definition E_FAIL : HRESULT := -2147467259.        (* 0x80004005 *)
Definition E_OUTOFMEMORY : HRESULT := -2147024882. (* 0x8007000E *)
Definition E_INVALIDARG : HRESULT := -2147024809.  (* 0x80070057 *)
Definition FAILED (hr : HRESULT) : bool := hr <? 0.

Definition VARIANT_BOOL := Z.
Definition VARIANT_TRUE : VARIANT_BOOL := -1.
Definition VARIANT_FALSE : VARIANT_BOOL := 0.

(** Wide-character literals: the units of an ASCII string. *)
Definition W (s : string) : list WCHAR :=
  map (fun a => Z.of_nat (nat_of_ascii a)) (list_ascii_of_string s).

Definition deref (p : LPCWSTR) : list WCHAR :=
  match p with Some l => l | None => [] end.

(** ** Wide string primitives (wine/unicode.h) *)

Module Unicode.

(** The units before the first NUL: what a NUL-terminated read sees. *)
Fixpoint c_str (str : list WCHAR) : list WCHAR :=
  match str with
  | [] => []
  | c :: rest => if c =? 0 then [] else c :: c_str rest
  end.

(** Modelled from the spec: strlenW is declared in wine/unicode.h, which is
    not among the sources, and the spec does not describe it; it has the
    meaning of the C library's wcslen. *)
Definition strlenW (str : list WCHAR) : Z := Z.of_nat (length (c_str str)).

(** Modelled from the spec: strcmpW (wine/unicode.h, not among the sources,
    not described by the spec) has the meaning of wcscmp, an exact,
    case-sensitive comparison of NUL-terminated strings: advance both
    pointers while the unit of [str1] is not NUL and equals the unit of
    [str2]; return the difference of the units reached. *)
Fixpoint strcmpW (str1 str2 : list WCHAR) : Z :=
  match str1 with
  | [] => 0 - hd 0 str2
  | c1 :: rest1 =>
      if negb (c1 =? 0) && (c1 =? hd 0 str2) then strcmpW rest1 (tl str2)
      else c1 - hd 0 str2
  end.

(** Modelled from the spec: strncmpW (wine/unicode.h, not among the
    sources, not described by the spec) has the meaning of wcsncmp, which
    compares at most [n] units: the same loop, entered only while
    [--n > 0]; the fuel is the value of [n] after the first [--n], and a
    count of 0 or less compares nothing. *)
Fixpoint strncmpW_loop (n : nat) (str1 str2 : list WCHAR) : Z :=
  match n with
  | O => hd 0 str1 - hd 0 str2
  | S n' =>
      if negb (hd 0 str1 =? 0) && (hd 0 str1 =? hd 0 str2)
      then strncmpW_loop n' (tl str1) (tl str2)
      else hd 0 str1 - hd 0 str2
  end.

Definition strncmpW (str1 str2 : list WCHAR) (n : Z) : Z :=
  if n <=? 0 then 0 else strncmpW_loop (Z.to_nat (n - 1)) str1 str2.

End Unicode.
Import Unicode.

(** Modelled from the spec: SysAllocString and SysAllocStringLen belong to
    oleaut32, which is not among the sources; the first copies a
    NUL-terminated string, the second exactly [len] units. *)
Definition SysAllocString (s : list WCHAR) : BSTR := Some (c_str s).

(** Modelled from the spec: see SysAllocString. *)
Definition SysAllocStringLen (s : list WCHAR) (len : Z) : BSTR :=
  Some (firstn (Z.to_nat len) s).

(** ** The escaper: get_escaped_string *)

Module Escaper.

Definition ltW : list WCHAR := W "&lt;".
Definition ampW : list WCHAR := W "&amp;".
Definition quotW : list WCHAR := W "&quot;".
Definition gtW : list WCHAR := W "&gt;".

Definition default_alloc : Z := 100.
Definition grow_thresh : Z := 10.

(** The switch on the current unit in the loop body: the units stored at
    [ptr]. *)
Definition escape_unit (c : WCHAR) : list WCHAR :=
  if c =? 60 then ltW          (* '<' *)
  else if c =? 38 then ampW    (* '&' *)
  else if c =? 34 then quotW   (* the double quote *)
  else if c =? 62 then gtW     (* '>' *)
  else [c].

(** The locals of get_escaped_string when its loop exits: the rest of the
    input, the countdown [p], the allocated size and the units written
    ([ptr - ret] is the length of [e_out]). *)
Record escape_locals := mk_locals {
  e_str : list WCHAR;
  e_p : Z;
  e_conv_len : Z;
  e_out : list WCHAR
}.

(** The loop runs while the current unit is not NUL and [p] is not zero: it
    doubles the allocation when fewer than [grow_thresh] units are left,
    stores the unit or its entity, steps [str] and, unless the length is the
    sentinel -1, decrements [p]. *)
Fixpoint escape_loop (len : Z) (str : list WCHAR) (p conv_len : Z)
    (out : list WCHAR) : escape_locals :=
  match str with
  | [] => mk_locals str p conv_len out
  | c :: str' =>
      if (c =? 0) || (p =? 0) then mk_locals str p conv_len out
      else
        let conv_len' :=
          if Z.of_nat (length out) >? conv_len - grow_thresh
          then s32 (conv_len * 2) else conv_len in
        let p' := if len =? -1 then p else s32 (p - 1) in
        escape_loop len str' p' conv_len' (out ++ escape_unit c)
  end.

Definition escape_run (str : list WCHAR) (len : Z) : escape_locals :=
  let conv_len :=
    if len =? -1 then default_alloc else Z.max (s32 (2 * len)) default_alloc in
  escape_loop len str len conv_len [].

(** The result: the memory at [ret] and the value left in [*len].  The
    terminator is stored after a pre-increment of [ptr], one unit past the
    cursor: the unit at the cursor is never written and stays as the heap
    had it ([heap]); the NUL follows it.  A caller that passes the returned
    length on reads the units written only; a caller that reads up to the
    NUL meets [heap] first. *)
Definition get_escaped_string (heap : WCHAR) (str : list WCHAR) (len : Z)
  : list WCHAR * Z :=
  let st := escape_run str len in
  (e_out st ++ [heap; 0],
   if len =? -1 then len else s32 (Z.of_nat (length (e_out st)))).

(** Input units the loop stepped over ([str++]). *)
Definition escaped_consumed (str : list WCHAR) (len : Z) : nat :=
  (length str - length (e_str (escape_run str len)))%nat.

(** How often a unit occurs, and the length the entities add up to: 3 more
    per '<', 4 per '&', 5 per double quote, 3 per '>'. *)
Definition occurrences (c : WCHAR) (s : list WCHAR) : Z :=
  Z.of_nat (count_occ Z.eq_dec s c).

Definition escaped_length (s : list WCHAR) : Z :=
  Z.of_nat (length s) + 3 * occurrences 60 s + 4 * occurrences 38 s
  + 5 * occurrences 34 s + 3 * occurrences 62 s.

End Escaper.
Import Escaper.

(** ** EncodedBuffer and DualBuffer *)

Module Buffers.

(** [data] holds the bytes below [written]; the bytes above it are the
    terminator the writes keep in place and the unused allocation. *)
Record encoded_buffer := mk_encoded_buffer {
  data : list byte;
  allocated : Z;
  written : Z
}.

Record output_buffer := mk_output_buffer {
  utf16 : encoded_buffer;
  encoded : encoded_buffer;
  code_page : Z
}.

(** xmlCharEncoding of libxml2, as far as the writer meets it. *)
Inductive xmlCharEncoding :=
  | XML_CHAR_ENCODING_ERROR
  | XML_CHAR_ENCODING_NONE
  | XML_CHAR_ENCODING_UTF8
  | XML_CHAR_ENCODING_UTF16LE
  | XML_CHAR_ENCODING_UTF16BE.

Definition is_UTF8 (e : xmlCharEncoding) : bool :=
  match e with XML_CHAR_ENCODING_UTF8 => true | _ => false end.
Definition is_UTF16LE (e : xmlCharEncoding) : bool :=
  match e with XML_CHAR_ENCODING_UTF16LE => true | _ => false end.

Definition CP_UTF8 : Z := 65001.
Definition CP_NATIVE : Z := u32 (-1).   (* ~0: the buffer is already native *)

Definition utf16W : list WCHAR := W "UTF-16".
Definition utf8W : list WCHAR := W "UTF-8".
Definition emptyW : list WCHAR := [].

Definition get_encoding_name (encoding : xmlCharEncoding) : list WCHAR :=
  match encoding with
  | XML_CHAR_ENCODING_UTF8 => utf8W
  | XML_CHAR_ENCODING_UTF16LE => utf16W
  | _ => W "unknown"
  end.

Definition initial_len : Z := 8192.   (* 0x2000 *)

Definition init_encoded_buffer : encoded_buffer :=
  {| data := []; allocated := initial_len; written := 0 |}.

(** The buffer that memset leaves: no storage, nothing written. *)
Definition zero_encoded_buffer : encoded_buffer :=
  {| data := []; allocated := 0; written := 0 |}.

(** The second argument is what [*cp] held before the call. *)
Definition get_code_page (encoding : xmlCharEncoding) (cp : Z) : HRESULT * Z :=
  match encoding with
  | XML_CHAR_ENCODING_UTF8 => (S_OK, CP_UTF8)
  | XML_CHAR_ENCODING_UTF16LE => (S_OK, CP_NATIVE)
  | _ => (E_NOTIMPL, cp)
  end.

Definition alloc_output_buffer (encoding : xmlCharEncoding)
  : HRESULT * option output_buffer :=
  let '(hr, cp) := get_code_page encoding 0 in
  if negb (hr =? S_OK) then (hr, None)
  else
    (S_OK,
     Some {| utf16 := init_encoded_buffer;
             encoded := if cp =? CP_UTF8 then init_encoded_buffer
                        else zero_encoded_buffer;
             code_page := cp |}).

(** Grow if needed, plus 4 bytes so that the terminator fits. *)
Definition grow_buffer (buffer : encoded_buffer) (len : Z) : encoded_buffer :=
  if allocated buffer <? u32 (written buffer + len + 4) then
    let grown_size :=
      s32 (Z.max (u32 (2 * allocated buffer)) (u32 (allocated buffer + len))) in
    {| data := data buffer; allocated := u32 grown_size;
       written := written buffer |}
  else buffer.

Definition OutputBuffer_Native : Z := 1.     (* 0x001 *)
Definition OutputBuffer_Encoded : Z := 16.   (* 0x010 *)
Definition OutputBuffer_Both : Z := 256.     (* 0x100 *)

(** Little-endian bytes of wide text, and the wide text of such bytes. *)
Definition wchars_bytes (ws : list WCHAR) : list byte :=
  flat_map (fun c => [Z.land c 255; Z.land (Z.shiftr c 8) 255]) ws.

Fixpoint bytes_wchars (bs : list byte) : list WCHAR :=
  match bs with
  | lo :: hi :: rest => Z.lor lo (Z.shiftl hi 8) :: bytes_wchars rest
  | _ => []
  end.

Definition is_high_surrogate (c : WCHAR) : bool := (55296 <=? c) && (c <? 56320).
Definition is_low_surrogate (c : WCHAR) : bool := (56320 <=? c) && (c <? 57344).

(** Modelled from the spec: WideCharToMultiByte belongs to kernel32, which is
    not among the sources; for CP_UTF8 it converts the wide text to the
    target byte encoding: one to three bytes per unit, four per surrogate
    pair. *)
Fixpoint utf8_encode (ws : list WCHAR) : list byte :=
  match ws with
  | [] => []
  | c :: rest =>
      if c <? 128 then c :: utf8_encode rest
      else if c <? 2048 then
        (192 + Z.shiftr c 6) :: (128 + Z.land c 63) :: utf8_encode rest
      else
        let three :=
          [224 + Z.shiftr c 12; 128 + Z.land (Z.shiftr c 6) 63; 128 + Z.land c 63] in
        match rest with
        | d :: rest' =>
            if is_high_surrogate c && is_low_surrogate d then
              let v := 65536 + Z.shiftl (c - 55296) 10 + (d - 56320) in
              [240 + Z.shiftr v 18; 128 + Z.land (Z.shiftr v 12) 63;
               128 + Z.land (Z.shiftr v 6) 63; 128 + Z.land v 63]
              ++ utf8_encode rest'
            else three ++ utf8_encode rest
        | [] => three
        end
  end.

(** Modelled from the spec: WideCharToMultiByte (kernel32, not among the
    sources) for CP_UTF8.  The result is the bytes the conversion stores;
    its return value is their count.  A negative length converts up to and
    including the terminator; a NULL source or a zero length converts
    nothing. *)
Definition WideCharToMultiByte (data : LPCWSTR) (len : Z) : list byte :=
  match data with
  | None => []
  | Some l =>
      if len <? 0 then utf8_encode (c_str l) ++ [0]
      else utf8_encode (firstn (Z.to_nat len) l)
  end.

(** The HRESULT of the source is always S_OK and no caller reads it: the
    embedding returns the buffer alone. *)
Definition write_output_buffer_mode (buffer : output_buffer) (mode : Z)
    (src : LPCWSTR) (len : Z) : output_buffer :=
  let buffer1 :=
    if negb (Z.land mode (Z.lor OutputBuffer_Encoded OutputBuffer_Both) =? 0)
       && (code_page buffer =? CP_UTF8)
    then
      let bytes := WideCharToMultiByte src len in
      let count := Z.of_nat (length bytes) in
      let enc := grow_buffer (encoded buffer) count in
      let n := if len =? -1 then count - 1 else count in
      {| utf16 := utf16 buffer;
         encoded := {| data := data enc ++ firstn (Z.to_nat n) bytes;
                       allocated := allocated enc;
                       written := u32 (written enc + n) |};
         code_page := code_page buffer |}
    else buffer in
  if negb (Z.land mode (Z.lor OutputBuffer_Native OutputBuffer_Both) =? 0)
  then
    let units := if len =? -1 then strlenW (deref src) else len in
    if units =? 0 then buffer1
    else
      let count := s32 (units * 2) in
      let wide := grow_buffer (utf16 buffer1) count in
      {| utf16 := {| data := data wide
                       ++ wchars_bytes (firstn (Z.to_nat units) (deref src));
                     allocated := allocated wide;
                     written := u32 (written wide + count) |};
         encoded := encoded buffer1;
         code_page := code_page buffer1 |}
  else buffer1.

Definition write_output_buffer (buffer : output_buffer) (src : LPCWSTR)
    (len : Z) : output_buffer :=
  write_output_buffer_mode buffer OutputBuffer_Both src len.

(** The native buffer read back as a NUL-terminated wide string. *)
Definition utf16_text (buffer : output_buffer) : list WCHAR :=
  c_str (bytes_wchars (data (utf16 buffer))).

End Buffers.
Import Buffers.

(** ** The destination stream *)

(** IStream, as far as the writer uses it: Write answers with a result, the
    count of bytes it took and the stream afterwards.  A stream never takes
    more bytes than it is offered. *)
Class IStream (S : Type) := {
  IStream_Write : S -> list byte -> HRESULT * Z * S;
  IStream_Write_bound : forall (s : S) (bs : list byte),
    0 <= snd (fst (IStream_Write s bs)) <= Z.of_nat (length bs)
}.

(** A stream that stores everything it is offered, one entry per call. *)
#[export] Instance memory_stream : IStream (list (list byte)) := {
  IStream_Write := fun s bs => (S_OK, Z.of_nat (length bs), s ++ [bs]);
  IStream_Write_bound := fun s bs =>
    conj (Nat2Z.is_nonneg (length bs)) (Z.le_refl (Z.of_nat (length bs)))
}.

(** A stream that takes at most one byte per call. *)
Inductive short_stream := ShortStream (taken : list (list byte)).

#[export, refine] Instance short_stream_IStream : IStream short_stream := {
  IStream_Write := fun s bs =>
    match s with
    | ShortStream taken =>
        (S_OK, Z.of_nat (length (firstn 1 bs)), ShortStream (taken ++ [firstn 1 bs]))
    end
}.
Proof.
  intros [taken] bs. cbn [fst snd]. rewrite length_firstn. lia.
Defined.

(** ** The writer *)

Module Writer.

Inductive MXWRITER_PROPS :=
  | MXWriter_BOM
  | MXWriter_DisableEscaping
  | MXWriter_Indent
  | MXWriter_OmitXmlDecl
  | MXWriter_Standalone.

Definition MXWriter_LastProp : nat := 5.

Definition prop_index (p : MXWRITER_PROPS) : nat :=
  match p with
  | MXWriter_BOM => 0
  | MXWriter_DisableEscaping => 1
  | MXWriter_Indent => 2
  | MXWriter_OmitXmlDecl => 3
  | MXWriter_Standalone => 4
  end%nat.

Inductive MSXML_VERSION :=
  | MSXML_DEFAULT | MSXML2 | MSXML26 | MSXML3 | MSXML4 | MSXML6.

Definition is_MSXML6 (v : MSXML_VERSION) : bool :=
  match v with MSXML6 => true | _ => false end.

Section WithStream.

Context {S : Type} `{IStream S}.

Record mxwriter := mk_mxwriter {
  class_version : MSXML_VERSION;
  props : list VARIANT_BOOL;
  prop_changed : bool;
  encoding : xmlCharEncoding;
  version : BSTR;
  element : BSTR;      (* the pending element name, or NULL *)
  dest : option S;
  dest_written : Z;
  buffer : output_buffer
}.

Definition set_buffer (This : mxwriter) (b : output_buffer) : mxwriter :=
  mk_mxwriter (class_version This) (props This) (prop_changed This)
    (encoding This) (version This) (element This) (dest This)
    (dest_written This) b.

Definition set_element (This : mxwriter) (e : BSTR) : mxwriter :=
  mk_mxwriter (class_version This) (props This) (prop_changed This)
    (encoding This) (version This) e (dest This) (dest_written This)
    (buffer This).

Definition set_dest (This : mxwriter) (d : option S) : mxwriter :=
  mk_mxwriter (class_version This) (props This) (prop_changed This)
    (encoding This) (version This) (element This) d (dest_written This)
    (buffer This).

Definition set_dest_written (This : mxwriter) (n : Z) : mxwriter :=
  mk_mxwriter (class_version This) (props This) (prop_changed This)
    (encoding This) (version This) (element This) (dest This) n
    (buffer This).

Definition set_props (This : mxwriter) (ps : list VARIANT_BOOL) : mxwriter :=
  mk_mxwriter (class_version This) ps (prop_changed This) (encoding This)
    (version This) (element This) (dest This) (dest_written This)
    (buffer This).

Definition set_prop_changed (This : mxwriter) (c : bool) : mxwriter :=
  mk_mxwriter (class_version This) (props This) c (encoding This)
    (version This) (element This) (dest This) (dest_written This)
    (buffer This).

Definition set_encoding (This : mxwriter) (e : xmlCharEncoding) : mxwriter :=
  mk_mxwriter (class_version This) (props This) (prop_changed This) e
    (version This) (element This) (dest This) (dest_written This)
    (buffer This).

Definition set_version (This : mxwriter) (v : BSTR) : mxwriter :=
  mk_mxwriter (class_version This) (props This) (prop_changed This)
    (encoding This) v (element This) (dest This) (dest_written This)
    (buffer This).

(** [props[p]] and [props[p] = v]. *)
Definition get_prop (This : mxwriter) (p : MXWRITER_PROPS) : VARIANT_BOOL :=
  nth (prop_index p) (props This) 0.

Fixpoint store (i : nat) (v : VARIANT_BOOL) (l : list VARIANT_BOOL) {struct l}
  : list VARIANT_BOOL :=
  match l, i with
  | [], _ => []
  | _ :: rest, O => v :: rest
  | x :: rest, Datatypes.S i' => x :: store i' v rest
  end.

(** *** Prolog *)

Definition dquote : list WCHAR := [34].

Definition write_prolog_buffer (This : mxwriter) : mxwriter :=
  let versionW := W "<?xml version=" ++ dquote in
  let encodingW := W " encoding=" ++ dquote in
  let standaloneW := W " standalone=" ++ dquote in
  let yesW := W "yes" ++ dquote ++ W "?>" in
  let noW := W "no" ++ dquote ++ W "?>" in
  let crlfW := [13; 10] in
  (* version *)
  let b := write_output_buffer (buffer This) (Some versionW) 15 in
  let b := write_output_buffer b (version This) (-1) in
  let b := write_output_buffer b (Some dquote) 1 in
  (* encoding *)
  let b := write_output_buffer b (Some encodingW) 11 in
  (* always write UTF-16 to WCHAR buffer *)
  let b := write_output_buffer_mode b OutputBuffer_Native (Some utf16W) 6 in
  let b := write_output_buffer_mode b OutputBuffer_Encoded
             (Some (get_encoding_name (encoding This))) (-1) in
  let b := write_output_buffer b (Some dquote) 1 in
  (* standalone *)
  let b := write_output_buffer b (Some standaloneW) 13 in
  let b := if get_prop This MXWriter_Standalone =? VARIANT_TRUE
           then write_output_buffer b (Some yesW) 6
           else write_output_buffer b (Some noW) 5 in
  let b := write_output_buffer b (Some crlfW) 2 in
  set_buffer This b.

(** *** Flush and reset *)

(** The buffer whose bytes go to the stream. *)
Definition stream_buffer (This : mxwriter) : encoded_buffer :=
  if negb (is_UTF16LE (encoding This)) then encoded (buffer This)
  else utf16 (buffer This).

(** The guard of the sanity check. *)
Definition sanity_check_fails (This : mxwriter) : bool :=
  dest_written This >? written (stream_buffer This).

(** The bytes offered to IStream_Write: from [data + dest_written], as many
    as [written - dest_written]. *)
Definition pending_bytes (This : mxwriter) : list byte :=
  firstn (Z.to_nat (u32 (written (stream_buffer This) - dest_written This)))
         (skipn (Z.to_nat (dest_written This)) (data (stream_buffer This))).

Definition write_data_to_stream (This : mxwriter) : HRESULT * mxwriter :=
  match dest This with
  | None => (S_OK, This)
  | Some d =>
      if sanity_check_fails This then (E_FAIL, This)
      else if (dest_written This =? written (stream_buffer This))
              && negb (is_UTF8 (encoding This))
      then (S_OK, This)
      else
        let '(hr, taken, d') := IStream_Write d (pending_bytes This) in
        if FAILED hr then (hr, set_dest This (Some d'))
        else
          (hr, set_dest_written (set_dest This (Some d'))
                 (u32 (dest_written This + taken)))
  end.

Definition close_element_starttag (This : mxwriter) : mxwriter :=
  match element This with
  | None => This
  | Some _ => set_buffer This (write_output_buffer (buffer This) (Some (W ">")) 1)
  end.

Definition set_element_name (This : mxwriter) (name : LPCWSTR) (len : Z)
  : mxwriter :=
  set_element This
    (match name with Some n => SysAllocStringLen n len | None => None end).

Definition flush_output_buffer (This : mxwriter) : HRESULT * mxwriter :=
  let This := close_element_starttag This in
  let This := set_element_name This None 0 in
  write_data_to_stream This.

(** Frees the buffer data and reallocates with the default lengths. *)
Definition close_output_buffer (This : mxwriter) : mxwriter :=
  set_buffer This
    {| utf16 := init_encoded_buffer;
       encoded := init_encoded_buffer;
       code_page := snd (get_code_page (encoding This)
                                       (code_page (buffer This))) |}.

Definition reset_output_buffer (This : mxwriter) : mxwriter :=
  set_dest_written (close_output_buffer This) 0.

Definition writer_set_property (writer : mxwriter) (property : MXWRITER_PROPS)
    (value : VARIANT_BOOL) : HRESULT * mxwriter :=
  (S_OK,
   set_prop_changed
     (set_props writer (store (prop_index property) value (props writer)))
     true).

(** The getter, called with a non-NULL result pointer. *)
Definition writer_get_property (writer : mxwriter) (property : MXWRITER_PROPS)
  : HRESULT * VARIANT_BOOL :=
  (S_OK, get_prop writer property).

(** *** IMXWriter *)

(** The destination handed to put_output: empty, an object that answers
    the query for IStream, an object that does not, or any other type. *)
Inductive VARIANT :=
  | VT_EMPTY
  | VT_UNKNOWN_stream (stream : S)
  | VT_UNKNOWN_other
  | VT_other.

Definition mxwriter_put_output (This : mxwriter) (dst : VARIANT)
  : HRESULT * mxwriter :=
  let '(hr, This) := flush_output_buffer This in
  if FAILED hr then (hr, This)
  else
    match dst with
    | VT_EMPTY => (S_OK, reset_output_buffer (set_dest This None))
    | VT_UNKNOWN_stream stream =>
        (* Recreate the output buffer to make sure it's using the correct
           encoding. *)
        (S_OK, set_dest (reset_output_buffer This) (Some stream))
    | VT_UNKNOWN_other => (E_NOTIMPL, This)
    | VT_other => (E_NOTIMPL, This)
    end.

(** The result carries the BSTR stored in the VARIANT on success. *)
Definition mxwriter_get_output (This : mxwriter)
  : HRESULT * mxwriter * option (list WCHAR) :=
  match dest This with
  | None =>
      let '(hr, This) := flush_output_buffer This in
      if FAILED hr then (hr, This, None)
      else (S_OK, This, Some (utf16_text (buffer This)))
  | Some _ => (E_NOTIMPL, This, None)
  end.

(** Modelled from the spec: heap_strdupWtoA is declared in msxml_private.h,
    which is not among the sources; on the names that pass the comparison it
    copies the ASCII units up to the NUL. *)
Definition heap_strdupWtoA (s : list WCHAR) : list byte := c_str s.

Definition toupper (c : Z) : Z :=
  if (97 <=? c) && (c <=? 122) then c - 32 else c.

Fixpoint units_eqb (a b : list Z) : bool :=
  match a, b with
  | [], [] => true
  | x :: a', y :: b' => (x =? y) && units_eqb a' b'
  | _, _ => false
  end.

(** xmlParseCharEncoding belongs to libxml2; on the names the writer hands
    it, the name is upper-cased and looked up among the aliases. *)
Definition xmlParseCharEncoding (name : list byte) : xmlCharEncoding :=
  let upper := map toupper name in
  if units_eqb upper [] then XML_CHAR_ENCODING_NONE
  else if units_eqb upper (W "UTF-8") || units_eqb upper (W "UTF8")
  then XML_CHAR_ENCODING_UTF8
  else if units_eqb upper (W "UTF-16") || units_eqb upper (W "UTF16")
  then XML_CHAR_ENCODING_UTF16LE
  else XML_CHAR_ENCODING_ERROR.

(** The argument is the text of a non-NULL BSTR. *)
Definition mxwriter_put_encoding (This : mxwriter) (encoding : list WCHAR)
  : HRESULT * mxwriter :=
  (* FIXME: filter all supported encodings *)
  if (strcmpW encoding utf16W =? 0) || (strcmpW encoding utf8W =? 0) then
    let '(hr, This) := flush_output_buffer This in
    if FAILED hr then (hr, This)
    else
      let enc := heap_strdupWtoA encoding in
      let This := set_encoding This (xmlParseCharEncoding enc) in
      (S_OK, reset_output_buffer This)
  else (E_INVALIDARG, This).

(** xmlGetCharEncodingName of libxml2 for the two encodings that pass. *)
Definition bstr_from_xmlCharEncoding (enc : xmlCharEncoding) : HRESULT * BSTR :=
  match enc with
  | XML_CHAR_ENCODING_UTF16LE => (S_OK, Some (W "UTF-16"))
  | XML_CHAR_ENCODING_UTF8 => (S_OK, Some (W "UTF-8"))
  | _ => (E_NOTIMPL, None)
  end.

Definition mxwriter_get_encoding (This : mxwriter) : HRESULT * BSTR :=
  bstr_from_xmlCharEncoding (encoding This).

Definition mxwriter_put_byteOrderMark (This : mxwriter) (value : VARIANT_BOOL) :=
  writer_set_property This MXWriter_BOM value.

Definition mxwriter_put_indent (This : mxwriter) (value : VARIANT_BOOL) :=
  writer_set_property This MXWriter_Indent value.

Definition mxwriter_put_standalone (This : mxwriter) (value : VARIANT_BOOL) :=
  writer_set_property This MXWriter_Standalone value.

Definition mxwriter_put_omitXMLDeclaration (This : mxwriter)
    (value : VARIANT_BOOL) :=
  writer_set_property This MXWriter_OmitXmlDecl value.

Definition mxwriter_put_disableOutputEscaping (This : mxwriter)
    (value : VARIANT_BOOL) :=
  writer_set_property This MXWriter_DisableEscaping value.

Definition mxwriter_put_version (This : mxwriter) (ver : BSTR)
  : HRESULT * mxwriter :=
  match ver with
  | None => (E_INVALIDARG, This)
  | Some v => (S_OK, set_version This (SysAllocString v))
  end.

Definition mxwriter_get_version (This : mxwriter) : HRESULT * BSTR :=
  (S_OK, version This).

Definition mxwriter_flush (This : mxwriter) : HRESULT * mxwriter :=
  flush_output_buffer This.

(** *** ISAXContentHandler *)

Definition utf16BOM : list byte := [255; 254].

Definition mxwriter_saxcontent_startDocument (This : mxwriter)
  : HRESULT * mxwriter :=
  (* If properties have been changed since the last endDocument call the
     output buffer is reset. *)
  let This := if prop_changed This
              then set_prop_changed (reset_output_buffer This) false
              else This in
  if get_prop This MXWriter_OmitXmlDecl =? VARIANT_TRUE then (S_OK, This)
  else
    let This := write_prolog_buffer This in
    match dest This with
    | Some d =>
        if is_UTF16LE (encoding This)
           && (get_prop This MXWriter_BOM =? VARIANT_TRUE)
        then
          (* the result and the count of this Write call are ignored *)
          (S_OK, set_dest This (Some (snd (IStream_Write d utf16BOM))))
        else (S_OK, This)
    | None => (S_OK, This)
    end.

Definition mxwriter_saxcontent_endDocument (This : mxwriter)
  : HRESULT * mxwriter :=
  flush_output_buffer (set_prop_changed This false).

(** ISAXAttributes, as far as startElement calls it: each call gives its
    HRESULT and, for the two getters, the text and its length. *)
Record ISAXAttributes := mk_attributes {
  getLength : HRESULT * Z;
  getQName : Z -> HRESULT * LPCWSTR * Z;
  getValue : Z -> HRESULT * LPCWSTR * Z
}.

(** The body of the loop over the attributes; the fuel is [length - i].
    [heap i] is the unit the heap holds at the cursor of the escape buffer
    of attribute [i]. *)
Fixpoint write_attributes (heap : Z -> WCHAR) (attr : ISAXAttributes)
    (fuel : nat) (i : Z) (b : output_buffer) : HRESULT * output_buffer :=
  match fuel with
  | O => (S_OK, b)
  | Datatypes.S fuel' =>
      let '(hr, str, len) := getQName attr i in
      if FAILED hr then (hr, b)
      else
        (* space separator in front of every attribute *)
        let b := write_output_buffer b (Some (W " ")) 1 in
        let b := write_output_buffer b str len in
        let b := write_output_buffer b (Some (W "=" ++ dquote)) 2 in
        let '(hr, str, len) := getValue attr i in
        if FAILED hr then (hr, b)
        else
          let '(escaped, len) := get_escaped_string (heap i) (deref str) len in
          let b := write_output_buffer b (Some escaped) len in
          let b := write_output_buffer b (Some dquote) 1 in
          write_attributes heap attr fuel' (i + 1) b
  end.

Definition is_null (p : LPCWSTR) : bool :=
  match p with None => true | Some _ => false end.

(** The last argument is no argument of the method: it is the content of the
    heap the escape buffers of the call are taken from, see
    [write_attributes]. *)
Definition mxwriter_saxcontent_startElement (This : mxwriter)
    (namespaceUri : LPCWSTR) (nnamespaceUri : Z)
    (local_name : LPCWSTR) (nlocal_name : Z)
    (QName : LPCWSTR) (nQName : Z)
    (attr : option ISAXAttributes) (heap : Z -> WCHAR)
  : HRESULT * mxwriter :=
  if (is_null namespaceUri || is_null local_name || is_null QName)
     && negb (is_MSXML6 (class_version This))
  then (E_INVALIDARG, This)
  else
    let This := close_element_starttag This in
    let This := set_element_name This
                  (Some (match QName with Some q => q | None => emptyW end))
                  (match QName with Some _ => nQName | None => 0 end) in
    let b := write_output_buffer (buffer This) (Some (W "<")) 1 in
    let b := write_output_buffer b QName nQName in
    match attr with
    | None => (S_OK, set_buffer This b)
    | Some a =>
        let '(hr, length) := getLength a in
        if FAILED hr then (hr, set_buffer This b)
        else
          let '(hr, b) := write_attributes heap a (Z.to_nat length) 0 b in
          (hr, set_buffer This b)
    end.

Definition mxwriter_saxcontent_endElement (This : mxwriter)
    (namespaceUri : LPCWSTR) (nnamespaceUri : Z)
    (local_name : LPCWSTR) (nlocal_name : Z)
    (QName : LPCWSTR) (nQName : Z) : HRESULT * mxwriter :=
  if (is_null namespaceUri || is_null local_name || is_null QName)
     && negb (is_MSXML6 (class_version This))
  then (E_INVALIDARG, This)
  else
    let self_close :=
      match element This, QName with
      | Some e, Some q => strncmpW e q nQName =? 0
      | _, _ => false
      end in
    let b :=
      if self_close
      then write_output_buffer (buffer This) (Some (W "/>")) 2
      else
        let b := write_output_buffer (buffer This) (Some (W "</")) 2 in
        let b := write_output_buffer b QName nQName in
        write_output_buffer b (Some (W ">")) 1 in
    (S_OK, set_element_name (set_buffer This b) None 0).

Definition mxwriter_saxcontent_characters (This : mxwriter)
    (chars : LPCWSTR) (nchars : Z) : HRESULT * mxwriter :=
  match chars with
  | None => (E_INVALIDARG, This)
  | Some _ =>
      let This := close_element_starttag This in
      let This := set_element_name This None 0 in
      if negb (nchars =? 0)
      then (S_OK, set_buffer This (write_output_buffer (buffer This) chars nchars))
      else (S_OK, This)
  end.

(** *** Construction *)

Definition MXWriter_create (ver : MSXML_VERSION) : HRESULT * option mxwriter :=
  let encoding := xmlParseCharEncoding (W "UTF-16") in
  match alloc_output_buffer encoding with
  | (hr, Some b) =>
      (S_OK,
       Some {| class_version := ver;
               props := [VARIANT_TRUE; VARIANT_FALSE; VARIANT_FALSE;
                         VARIANT_FALSE; VARIANT_FALSE];
               prop_changed := false;
               encoding := encoding;
               version := SysAllocString (W "1.0");
               element := None;
               dest := None;
               dest_written := 0;
               buffer := b |})
  | (hr, None) => (hr, None)
  end.

End WithStream.

Arguments mxwriter S : clear implicits.
Arguments VARIANT S : clear implicits.

End Writer.
Import Writer.

(** ** Sequences of calls *)

Module Protocol.

(** [written] counts the bytes the buffer holds. *)
Definition counts_bytes (b : encoded_buffer) : Prop :=
  written b = Z.of_nat (length (data b)).

Definition sound (b : output_buffer) : Prop :=
  counts_bytes (utf16 b) /\ counts_bytes (encoded b).

(** The bytes held stay below the range of the 32-bit counters. *)
Definition fits (b : output_buffer) : Prop :=
  Z.of_nat (length (data (utf16 b))) < 2 ^ 32
  /\ Z.of_nat (length (data (encoded b))) < 2 ^ 32.

(** A text argument whose length lies within the text: the sentinel -1 or a
    count of units the text has; a NULL text comes with the length 0. *)
Definition text_ok (src : LPCWSTR) (len : Z) : Prop :=
  match src with
  | None => len = 0
  | Some l => len = -1 \/ 0 <= len <= Z.of_nat (length l)
  end.

(** An attribute value: a text with its count of units, short enough for
    its escaped form to have an int length. *)
Definition value_ok (src : LPCWSTR) (len : Z) : Prop :=
  match src with
  | None => False
  | Some l => 0 <= len <= Z.of_nat (length l) /\ 6 * len <= INT_MAX
  end.

Definition attributes_ok (attr : option ISAXAttributes) : Prop :=
  match attr with
  | None => True
  | Some a =>
      forall i, 0 <= i < snd (getLength a) ->
        text_ok (snd (fst (getQName a i))) (snd (getQName a i))
        /\ value_ok (snd (fst (getValue a i))) (snd (getValue a i))
  end.

(** One buffer holds all the bytes of the other from the start on. *)
Definition extends (b b' : encoded_buffer) : Prop :=
  exists more, data b' = data b ++ more.

Definition appended (b b' : output_buffer) : Prop :=
  extends (utf16 b) (utf16 b') /\ extends (encoded b) (encoded b')
  /\ code_page b' = code_page b.

Section WithStream.

Context {S : Type} `{IStream S}.

(** The calls that can change the writer.  The five boolean setters are
    [Call_put_property]; the getters other than get_output leave the writer
    as it is.  A startElement call comes with the content of the heap at the
    time it is made. *)
Inductive call :=
  | Call_put_output (dst : VARIANT S)
  | Call_get_output
  | Call_put_encoding (encoding : list WCHAR)
  | Call_put_property (property : MXWRITER_PROPS) (value : VARIANT_BOOL)
  | Call_put_version (ver : BSTR)
  | Call_flush
  | Call_startDocument
  | Call_endDocument
  | Call_startElement (namespaceUri : LPCWSTR) (nnamespaceUri : Z)
      (local_name : LPCWSTR) (nlocal_name : Z) (QName : LPCWSTR) (nQName : Z)
      (attr : option ISAXAttributes) (heap : Z -> WCHAR)
  | Call_endElement (namespaceUri : LPCWSTR) (nnamespaceUri : Z)
      (local_name : LPCWSTR) (nlocal_name : Z) (QName : LPCWSTR) (nQName : Z)
  | Call_characters (chars : LPCWSTR) (nchars : Z).

Definition run_call (c : call) (This : mxwriter S) : HRESULT * mxwriter S :=
  match c with
  | Call_put_output dst => mxwriter_put_output This dst
  | Call_get_output => fst (mxwriter_get_output This)
  | Call_put_encoding e => mxwriter_put_encoding This e
  | Call_put_property p v => writer_set_property This p v
  | Call_put_version v => mxwriter_put_version This v
  | Call_flush => mxwriter_flush This
  | Call_startDocument => mxwriter_saxcontent_startDocument This
  | Call_endDocument => mxwriter_saxcontent_endDocument This
  | Call_startElement ns nns ln nln q nq attr heap =>
      mxwriter_saxcontent_startElement This ns nns ln nln q nq attr heap
  | Call_endElement ns nns ln nln q nq =>
      mxwriter_saxcontent_endElement This ns nns ln nln q nq
  | Call_characters chars nchars =>
      mxwriter_saxcontent_characters This chars nchars
  end.

Fixpoint run_calls (cs : list call) (This : mxwriter S) : mxwriter S :=
  match cs with
  | [] => This
  | c :: rest => run_calls rest (snd (run_call c This))
  end.

(** The argument check of startElement and endElement. *)
Definition rejected (This : mxwriter S) (namespaceUri local_name QName : LPCWSTR)
  : bool :=
  (is_null namespaceUri || is_null local_name || is_null QName)
  && negb (is_MSXML6 (class_version This)).

(** A call is valid when the texts it passes come with lengths that lie
    within them; a call the argument check rejects reads no text. *)
Definition valid_call (This : mxwriter S) (c : call) : Prop :=
  match c with
  | Call_startElement ns _ ln _ q nq attr _ =>
      rejected This ns ln q = false -> text_ok q nq /\ attributes_ok attr
  | Call_endElement ns _ ln _ q nq =>
      rejected This ns ln q = false -> text_ok q nq
  | Call_characters chars nchars =>
      chars <> None -> text_ok chars nchars
  | _ => True
  end.

Definition buffers_sound (This : mxwriter S) : Prop := sound (buffer This).

(** The states of valid runs: a fresh writer, and what a valid call makes
    of a reachable state while the buffers stay within the range of their
    counters. *)
Inductive reachable : mxwriter S -> Prop :=
  | reach_create (ver : MSXML_VERSION) (This : mxwriter S) :
      MXWriter_create ver = (S_OK, Some This) -> reachable This
  | reach_call (This : mxwriter S) (c : call) :
      reachable This ->
      valid_call This c ->
      fits (buffer (snd (run_call c This))) ->
      reachable (snd (run_call c This)).

(** The sink offset lies within the written count of the chosen buffer. *)
Definition offset_ok (This : mxwriter S) : Prop :=
  0 <= dest_written This <= written (stream_buffer This).

End WithStream.

End Protocol.
Import Protocol.

(** ** The example document of the testable properties *)

Module Example.

(** An attribute list as an ISAXAttributes object. *)
Definition attrs_of_list (l : list (list WCHAR * list WCHAR)) : ISAXAttributes :=
  {| getLength := (S_OK, Z.of_nat (length l));
     getQName := fun i =>
       match nth_error l (Z.to_nat i) with
       | Some (q, _) => (S_OK, Some q, Z.of_nat (length q))
       | None => (E_INVALIDARG, None, 0)
       end;
     getValue := fun i =>
       match nth_error l (Z.to_nat i) with
       | Some (_, v) => (S_OK, Some v, Z.of_nat (length v))
       | None => (E_INVALIDARG, None, 0)
       end |}.

Definition Stream := list (list byte).

(** A new writer: UTF-16, standalone no, declaration not omitted, no sink. *)
Definition fresh_on (S : Type) : mxwriter S :=
  match MXWriter_create MSXML3 with
  | (_, Some w) => w
  | (_, None) =>
      mk_mxwriter MSXML3 [] false XML_CHAR_ENCODING_ERROR None None None 0
        (mk_output_buffer zero_encoded_buffer zero_encoded_buffer 0)
  end.

Definition fresh : mxwriter Stream := fresh_on Stream.

Definition uri : LPCWSTR := Some emptyW.

(** A heap whose free memory holds the unit [c] throughout. *)
Definition heap_of (c : WCHAR) : Z -> WCHAR := fun _ => c.

Definition start_a : call (S := Stream) :=
  Call_startElement uri 0 (Some (W "a")) 1 (Some (W "a")) 1
    (Some (attrs_of_list [(W "id", W "1")])) (heap_of 0).

Definition end_a : call (S := Stream) :=
  Call_endElement uri 0 (Some (W "a")) 1 (Some (W "a")) 1.

(** startDocument; startElement a, id=1; characters x<y; endElement a;
    endDocument. *)
Definition document : list (call (S := Stream)) :=
  [Call_startDocument; start_a; Call_characters (Some (W "x<y")) 3; end_a;
   Call_endDocument].

Definition output_of (cs : list (call (S := Stream))) : option (list WCHAR) :=
  snd (mxwriter_get_output (run_calls cs fresh)).

Definition prolog_text : list WCHAR :=
  W "<?xml version=" ++ dquote ++ W "1.0" ++ dquote
  ++ W " encoding=" ++ dquote ++ W "UTF-16" ++ dquote
  ++ W " standalone=" ++ dquote ++ W "no" ++ dquote ++ W "?>" ++ [13; 10].

(** What the testable property expects of [document]. *)
Definition expected_text : list WCHAR :=
  prolog_text ++ W "<a id=" ++ dquote ++ W "1" ++ dquote ++ W ">x&lt;y</a>".

(** The same with the character data as it was passed in. *)
Definition raw_text : list WCHAR :=
  prolog_text ++ W "<a id=" ++ dquote ++ W "1" ++ dquote ++ W ">x<y</a>".

(** A writer bound to an empty memory stream, with the declaration
    omitted. *)
Definition omitting : mxwriter Stream :=
  run_calls [Call_put_output (VT_UNKNOWN_stream []);
             Call_put_property MXWriter_OmitXmlDecl VARIANT_TRUE] fresh.

(** A writer bound to a memory stream with the text hi buffered. *)
Definition buffered : mxwriter Stream :=
  run_calls [Call_put_output (VT_UNKNOWN_stream []);
             Call_characters (Some (W "hi")) 2] fresh.

(** The same in UTF-8. *)
Definition buffered_utf8 : mxwriter Stream :=
  run_calls [Call_put_encoding (W "UTF-8");
             Call_put_output (VT_UNKNOWN_stream []);
             Call_characters (Some (W "hi")) 2] fresh.

(** The same on a stream that takes one byte per call. *)
Definition buffered_short : mxwriter short_stream :=
  run_calls [Call_put_output (VT_UNKNOWN_stream (ShortStream []));
             Call_characters (Some (W "hi")) 2] (fresh_on short_stream).

End Example.

(** ** Further notions used by the properties *)

Module Notions.

(** The four bytes kept free behind the write cursor for the terminator. *)
Definition headroom (b : encoded_buffer) : Prop :=
  0 <= written b /\ written b + 4 <= allocated b /\ allocated b < 2 ^ 32.

(** The markup characters an escaped text must not contain. *)
Definition markup_free (c : WCHAR) : Prop := c <> 60 /\ c <> 34 /\ c <> 62.

End Notions.
Import Notions.

Module Texts.

(** The XML declaration for a version, a standalone flag and an encoding
    name. *)
Definition prolog_units (ver : list WCHAR) (standalone : bool)
    (name : list WCHAR) : list WCHAR :=
  W "<?xml version=" ++ dquote ++ ver ++ dquote
  ++ W " encoding=" ++ dquote ++ name ++ dquote
  ++ W " standalone=" ++ dquote ++ (if standalone then W "yes" else W "no")
  ++ dquote ++ W "?>" ++ [13; 10].

(** The attributes of a start tag: a space, the name, the value in its
    escaped form up to its first NUL, between double quotes. *)
Definition attribute_units (a : list WCHAR * list WCHAR) : list WCHAR :=
  W " " ++ fst a ++ W "=" ++ dquote
  ++ flat_map escape_unit (c_str (snd a)) ++ dquote.

Definition attributes_units (l : list (list WCHAR * list WCHAR)) : list WCHAR :=
  flat_map attribute_units l.

(** Units that fit 16 bits. *)
Definition units16 (ws : list WCHAR) : Prop :=
  Forall (fun c => 0 <= c < 65536) ws.

(** The code page of the buffers is the one of the active encoding, and the
    encoding is one of the two the writer supports. *)
Definition code_page_ok {S : Type} (This : mxwriter S) : Prop :=
  (encoding This = XML_CHAR_ENCODING_UTF16LE
   /\ code_page (buffer This) = CP_NATIVE)
  \/ (encoding This = XML_CHAR_ENCODING_UTF8
      /\ code_page (buffer This) = CP_UTF8).

(** Without a sink nothing has been delivered. *)
Definition no_sink_no_offset {S : Type} (This : mxwriter S) : Prop :=
  dest This = None -> dest_written This = 0.

End Texts.
Import Texts.

(** A stream that refuses every Write and still reports a byte taken. *)
Inductive failing_stream := FailingStream.

#[export, refine] Instance failing_stream_IStream : IStream failing_stream := {
  IStream_Write := fun s bs => (E_FAIL, Z.of_nat (length (firstn 1 bs)), s)
}.
Proof.
  intros s bs. cbn [fst snd]. rewrite length_firstn. lia.
Defined.

(** * Properties *)

(** ** Machine integers and strings *)

Lemma u32_small (z : Z) : 0 <= z < 2 ^ 32 -> u32 z = z.
Proof. intros Hz. unfold u32. apply Z.mod_small. exact Hz. Qed.

Lemma u32_le (z : Z) : 0 <= z -> 0 <= u32 z <= z.
Proof.
  intros Hz. unfold u32. split.
  - apply Z.mod_pos_bound. lia.
  - apply Z.mod_le; lia.
Qed.

Lemma s32_small (z : Z) : - 2 ^ 31 <= z < 2 ^ 31 -> s32 z = z.
Proof.
  intros Hz. unfold s32. rewrite Z.mod_small; lia.
Qed.

Lemma c_str_app (s rest : list WCHAR) :
  Forall (fun c => c <> 0) s -> c_str (s ++ rest) = s ++ c_str rest.
Proof.
  induction 1 as [| c s Hc _ IH]; simpl; [reflexivity |].
  destruct (Z.eqb_spec c 0); [contradiction | now rewrite IH].
Qed.

Lemma c_str_nonzero (s : list WCHAR) :
  Forall (fun c => c <> 0) s -> c_str s = s.
Proof.
  intros Hs. rewrite <- (app_nil_r s) at 1.
  rewrite c_str_app by assumption. simpl. apply app_nil_r.
Qed.

Lemma c_str_length (s : list WCHAR) : (length (c_str s) <= length s)%nat.
Proof.
  induction s as [| c s IH]; simpl; [lia |].
  destruct (c =? 0); simpl; lia.
Qed.

(** ** The escaper *)

Section EscaperFacts.

Lemma escape_unit_other (c : WCHAR) :
  c <> 60 -> c <> 38 -> c <> 34 -> c <> 62 -> escape_unit c = [c].
Proof.
  intros H1 H2 H3 H4. unfold escape_unit.
  destruct (Z.eqb_spec c 60); [contradiction |].
  destruct (Z.eqb_spec c 38); [contradiction |].
  destruct (Z.eqb_spec c 34); [contradiction |].
  destruct (Z.eqb_spec c 62); [contradiction | reflexivity].
Qed.

Ltac count_occ_step :=
  repeat first
    [ rewrite count_occ_cons_eq by reflexivity
    | rewrite count_occ_cons_neq by congruence ].

Lemma flat_map_escape_length (s : list WCHAR) :
  Z.of_nat (length (flat_map escape_unit s)) = escaped_length s.
Proof.
  unfold escaped_length, occurrences, WCHAR in *.
  induction s as [| c s IH]; [reflexivity |].
  cbn [flat_map]. rewrite length_app, Nat2Z.inj_add, IH. cbn [length].
  unfold escape_unit.
  destruct (Z.eqb_spec c 60) as [-> |]; [count_occ_step; change (length ltW) with 4%nat; lia |].
  destruct (Z.eqb_spec c 38) as [-> |]; [count_occ_step; change (length ampW) with 5%nat; lia |].
  destruct (Z.eqb_spec c 34) as [-> |]; [count_occ_step; change (length quotW) with 6%nat; lia |].
  destruct (Z.eqb_spec c 62) as [-> |]; [count_occ_step; change (length gtW) with 4%nat; lia |].
  count_occ_step. cbn [length]. lia.
Qed.

(** With a length other than the sentinel the loop stops at the first NUL
    or after [p] units, whichever comes first. *)
Lemma escape_loop_counted (len : Z) (str : list WCHAR) :
  len <> -1 ->
  forall (p conv_len : Z) (out : list WCHAR),
  0 <= p < 2 ^ 31 ->
  let n := Nat.min (Z.to_nat p) (length (c_str str)) in
  e_out (escape_loop len str p conv_len out)
    = out ++ flat_map escape_unit (firstn n str)
  /\ e_str (escape_loop len str p conv_len out) = skipn n str.
Proof.
  intros Hlen. induction str as [| c str IH]; intros p conv_len out Hp n.
  - subst n. cbn. rewrite Nat.min_0_r. cbn. now rewrite app_nil_r.
  - subst n. cbn [escape_loop c_str].
    destruct (Z.eqb_spec c 0) as [Hc | Hc].
    + cbn. rewrite Nat.min_0_r. cbn. now rewrite app_nil_r.
    + destruct (Z.eqb_spec p 0) as [-> | Hp0].
      * cbn. now rewrite app_nil_r.
      * cbn [orb length].
        destruct (Z.eqb_spec len (-1)); [contradiction |].
        rewrite s32_small by lia.
        destruct (IH (p - 1) (if Z.of_nat (length out) >? conv_len - grow_thresh
                               then s32 (conv_len * 2) else conv_len)
                     (out ++ escape_unit c)) as [Ho Hs]; [lia |].
        rewrite Ho, Hs.
        replace (Z.to_nat p) with (Datatypes.S (Z.to_nat (p - 1))) by lia.
        rewrite <- Nat.succ_min_distr. cbn [firstn flat_map skipn].
        now rewrite <- app_assoc.
Qed.

Lemma escape_run_counted (str : list WCHAR) (len : Z) :
  0 <= len <= INT_MAX ->
  let n := Nat.min (Z.to_nat len) (length (c_str str)) in
  e_out (escape_run str len) = flat_map escape_unit (firstn n str)
  /\ e_str (escape_run str len) = skipn n str.
Proof.
  intros Hlen n. unfold escape_run.
  apply (escape_loop_counted len str ltac:(lia) len _ []).
  unfold INT_MAX in Hlen. lia.
Qed.

End EscaperFacts.

(** C3: for an input of [length s] units without NUL, passed with that
    length, every '<', '&', double quote and '>' is replaced by its entity,
    every other unit is copied, and the length returned is the input length
    plus 3 per '<', 4 per '&', 5 per double quote and 3 per '>'.  The
    memory returned holds the escaped units, then the unit the heap held and
    the NUL; the units the returned length counts are the escaped ones. *)
Theorem get_escaped_string_length (heap : WCHAR) (s rest : list WCHAR) :
  Forall (fun c => c <> 0) s ->
  escaped_length s <= INT_MAX ->
  get_escaped_string heap (s ++ rest) (Z.of_nat (length s))
    = (flat_map escape_unit s ++ [heap; 0], escaped_length s)
  /\ firstn (Z.to_nat (escaped_length s)) (flat_map escape_unit s ++ [heap; 0])
     = flat_map escape_unit s
  /\ escape_unit 60 = W "&lt;" /\ escape_unit 38 = W "&amp;"
  /\ escape_unit 34 = [38; 113; 117; 111; 116; 59] /\ escape_unit 62 = W "&gt;"
  /\ (forall c, c <> 60 -> c <> 38 -> c <> 34 -> c <> 62 -> escape_unit c = [c]).
Proof.
  intros Hs Hmax.
  assert (Hlen : 0 <= Z.of_nat (length s) <= INT_MAX).
  { unfold escaped_length, occurrences in Hmax. lia. }
  split; [| split; [| repeat split; try reflexivity; apply escape_unit_other]].
  - unfold get_escaped_string.
    destruct (escape_run_counted (s ++ rest) _ Hlen) as [Ho _].
    rewrite Ho, c_str_app, length_app, Nat2Z.id by assumption.
    rewrite Nat.min_l by lia.
    rewrite firstn_app, Nat.sub_diag, firstn_all. cbn [firstn].
    rewrite app_nil_r.
    destruct (Z.eqb_spec (Z.of_nat (length s)) (-1)); [lia |].
    rewrite flat_map_escape_length, s32_small; [reflexivity |].
    unfold INT_MAX in *. unfold escaped_length, occurrences in *. lia.
  - rewrite <- flat_map_escape_length, Nat2Z.id.
    rewrite firstn_app, Nat.sub_diag, firstn_all. cbn [firstn].
    apply app_nil_r.
Qed.

Lemma get_escaped_string_length_witness :
  get_escaped_string 63 (W "a<b&c>d" ++ [0; 120]) 7
    = (W "a&lt;b&amp;c&gt;d" ++ [63; 0], 17)
  /\ firstn 17 (W "a&lt;b&amp;c&gt;d" ++ [63; 0]) = W "a&lt;b&amp;c&gt;d".
Proof.
  destruct (get_escaped_string_length 63 (W "a<b&c>d") [0; 120])
    as (Hr & Hf & _).
  - repeat constructor; discriminate.
  - vm_compute. discriminate.
  - split; [exact Hr | exact Hf].
Defined.

(** C8, as stated, fails: with the length 3 supplied, the loop leaves the
    input [a NUL b] after one unit, at the embedded NUL, and returns the
    length 1. *)
Lemma get_escaped_string_stops_at_nul :
  escaped_consumed [97; 0; 98] 3 = 1%nat
  /\ escaped_consumed [97; 0; 98] 3 <> Z.to_nat 3
  /\ get_escaped_string 63 [97; 0; 98] 3 = ([97; 63; 0], 1).
Proof. repeat split. vm_compute. discriminate. Qed.

(** C8, amended: with a length supplied, the units consumed are that many
    or those before the first NUL, whichever is fewer, and the result is the
    escaped form of exactly these units; when no NUL lies among the first
    [len] units, exactly [len] units are consumed. *)
Theorem get_escaped_string_consumed (heap : WCHAR) (str : list WCHAR)
    (len : Z) :
  0 <= len <= Z.of_nat (length str) ->
  len <= INT_MAX ->
  let n := Nat.min (Z.to_nat len) (length (c_str str)) in
  escaped_consumed str len = n
  /\ fst (get_escaped_string heap str len)
     = flat_map escape_unit (firstn n str) ++ [heap; 0]
  /\ (Forall (fun c => c <> 0) (firstn (Z.to_nat len) str) -> n = Z.to_nat len).
Proof.
  intros Hlen Hmax n.
  destruct (escape_run_counted str len ltac:(lia)) as [Ho Hs].
  fold n in Ho, Hs. split; [| split].
  - unfold escaped_consumed. rewrite Hs, length_skipn.
    pose proof (c_str_length str). lia.
  - unfold get_escaped_string. cbn [fst]. now rewrite Ho.
  - intros Hnz. subst n.
    rewrite <- (firstn_skipn (Z.to_nat len) str) at 1.
    rewrite c_str_app, length_app, length_firstn by assumption. lia.
Qed.

Lemma get_escaped_string_consumed_witness :
  escaped_consumed (W "a<b" ++ [0]) 3 = 3%nat
  /\ fst (get_escaped_string 63 (W "a<b" ++ [0]) 3) = W "a&lt;b" ++ [63; 0].
Proof.
  destruct (get_escaped_string_consumed 63 (W "a<b" ++ [0]) 3) as (Hc & Ho & _).
  - vm_compute. split; discriminate.
  - vm_compute. discriminate.
  - split; [exact Hc | exact Ho].
Defined.

(** ** Comparisons *)

Lemma c_str_nil_iff (s : list WCHAR) : [] = c_str s <-> hd 0 s = 0.
Proof.
  destruct s as [| c s]; cbn; [tauto |].
  destruct (Z.eqb_spec c 0); split; congruence.
Qed.

(** strcmpW answers 0 exactly for equal NUL-terminated strings. *)
Lemma strcmpW_eq (str1 : list WCHAR) :
  forall str2, strcmpW str1 str2 = 0 <-> c_str str1 = c_str str2.
Proof.
  induction str1 as [| c1 r1 IH]; intros str2; cbn [strcmpW c_str].
  - rewrite c_str_nil_iff. lia.
  - destruct (Z.eqb_spec c1 0) as [-> | Hc1]; cbn [negb andb].
    + rewrite c_str_nil_iff. lia.
    + destruct str2 as [| c2 r2]; cbn [hd tl c_str].
      * destruct (Z.eqb_spec c1 0); [contradiction |].
        split; [lia | discriminate].
      * destruct (Z.eqb_spec c1 c2) as [-> | Hne].
        -- destruct (Z.eqb_spec c2 0); [contradiction |].
           rewrite IH. split; [congruence | now inversion 1].
        -- split; [lia |].
           destruct (Z.eqb_spec c2 0); [discriminate | congruence].
Qed.

(** Compared over [n] units, a name agrees with its own first [n] units. *)
Lemma strncmpW_loop_firstn (n : nat) :
  forall q, strncmpW_loop n (firstn (Datatypes.S n) q) q = 0.
Proof.
  induction n as [| n IH]; intros q.
  - destruct q; cbn; lia.
  - destruct q as [| c q]; [reflexivity |].
    cbn [strncmpW_loop firstn hd tl]. rewrite Z.eqb_refl.
    destruct (Z.eqb_spec c 0); cbn [negb andb]; [lia |].
    apply (IH q).
Qed.

Lemma strncmpW_firstn (q : list WCHAR) (n : Z) :
  strncmpW (firstn (Z.to_nat n) q) q n = 0.
Proof.
  unfold strncmpW. destruct (Z.leb_spec n 0); [reflexivity |].
  replace (Z.to_nat n) with (Datatypes.S (Z.to_nat (n - 1))) by lia.
  apply strncmpW_loop_firstn.
Qed.

(** Compared over the length of [q], a name that starts with [q] agrees
    with [q]. *)
Lemma strncmpW_loop_prefix (more : list WCHAR) (n : nat) :
  forall q, length q = Datatypes.S n -> strncmpW_loop n (q ++ more) q = 0.
Proof.
  induction n as [| n IH]; intros q Hq.
  - destruct q as [| c [| d q]]; try discriminate. cbn. lia.
  - destruct q as [| c q]; [discriminate |].
    cbn [strncmpW_loop app hd tl]. rewrite Z.eqb_refl.
    destruct (Z.eqb_spec c 0); cbn [negb andb]; [lia |].
    apply IH. cbn [length] in Hq. lia.
Qed.

Lemma strncmpW_prefix (q more : list WCHAR) :
  strncmpW (q ++ more) q (Z.of_nat (length q)) = 0.
Proof.
  unfold strncmpW. destruct (Z.leb_spec (Z.of_nat (length q)) 0); [reflexivity |].
  apply strncmpW_loop_prefix. lia.
Qed.

(** ** The writer's calls *)

Section WriterFacts.

Context {S : Type} `{IStream S}.

Implicit Types This : mxwriter S.

(** C9, amended: the version setter fails for a NULL value only, leaving the
    writer as it was; every other value, the empty string included, is
    accepted and replaces the stored version by its NUL-terminated text,
    which is the value itself when it holds no NUL. *)
Theorem put_version_null_only This :
  mxwriter_put_version This None = (E_INVALIDARG, This)
  /\ FAILED E_INVALIDARG = true
  /\ (forall v, mxwriter_put_version This (Some v)
                = (S_OK, set_version This (Some (c_str v))))
  /\ (forall v, Forall (fun c => c <> 0) v ->
        version (snd (mxwriter_put_version This (Some v))) = Some v).
Proof.
  repeat split. intros v Hv.
  unfold mxwriter_put_version, SysAllocString, set_version. cbn [snd version].
  now rewrite c_str_nonzero.
Qed.

(** The comparison that admits an encoding name. *)
Lemma put_encoding_gate (name : list WCHAR) :
  (strcmpW name utf16W =? 0) || (strcmpW name utf8W =? 0) = true
  <-> c_str name = utf16W \/ c_str name = utf8W.
Proof.
  rewrite orb_true_iff, !Z.eqb_eq, !strcmpW_eq. reflexivity.
Qed.

Lemma flush_no_dest This :
  dest This = None -> fst (flush_output_buffer This) = S_OK.
Proof.
  intros Hd. unfold flush_output_buffer, write_data_to_stream.
  replace (dest (set_element_name (close_element_starttag This) None 0))
    with (dest This); [now rewrite Hd |].
  unfold close_element_starttag. now destruct (element This).
Qed.

(** C4, amended: a name other than exactly UTF-8 or UTF-16, read up to its
    NUL, is refused with E_INVALIDARG and the writer is left as it was; for
    these two names the call succeeds when the flush before it does (as it
    always does without a sink), sets the encoding and resets the buffers
    and the sink offset. *)
Theorem put_encoding_exact This (name : list WCHAR) :
  (c_str name <> utf16W -> c_str name <> utf8W ->
     mxwriter_put_encoding This name = (E_INVALIDARG, This))
  /\ (c_str name = utf16W \/ c_str name = utf8W ->
      FAILED (fst (flush_output_buffer This)) = false ->
      let This' := snd (mxwriter_put_encoding This name) in
      fst (mxwriter_put_encoding This name) = S_OK
      /\ (c_str name = utf16W -> encoding This' = XML_CHAR_ENCODING_UTF16LE)
      /\ (c_str name = utf8W -> encoding This' = XML_CHAR_ENCODING_UTF8)
      /\ dest_written This' = 0
      /\ utf16 (buffer This') = init_encoded_buffer
      /\ encoded (buffer This') = init_encoded_buffer)
  /\ (dest This = None -> FAILED (fst (flush_output_buffer This)) = false).
Proof.
  split; [| split].
  - intros H16 H8. unfold mxwriter_put_encoding.
    destruct ((strcmpW name utf16W =? 0) || (strcmpW name utf8W =? 0)) eqn:Hg;
      [| reflexivity].
    apply put_encoding_gate in Hg. tauto.
  - intros Hname Hflush. cbn zeta. unfold mxwriter_put_encoding.
    rewrite (proj2 (put_encoding_gate name) Hname).
    destruct (flush_output_buffer This) as [hr This1]. cbn [fst] in Hflush.
    rewrite Hflush. unfold heap_strdupWtoA. cbn [fst snd].
    repeat split; intros Hn; rewrite Hn; reflexivity.
  - intros Hd. now rewrite flush_no_dest.
Qed.

(** C2: the comparison of endElement is bounded by the incoming length
    alone.  With the name [q ++ more] pending, an endElement call for the
    name [q] with its own length passes the argument check and writes the
    self-closing form, whatever [more] is: for a non-empty [more] the two
    names differ in length and the end tag the property asks for is not
    written.  The pending tag is cleared. *)
Theorem endElement_prefix_self_closes This (namespaceUri local_name : LPCWSTR)
    (nnamespaceUri nlocal_name : Z) (q more : list WCHAR) :
  element This = Some (q ++ more) ->
  rejected This namespaceUri local_name (Some q) = false ->
  let r := mxwriter_saxcontent_endElement This namespaceUri nnamespaceUri
             local_name nlocal_name (Some q) (Z.of_nat (length q)) in
  (more <> [] -> q ++ more <> q /\ length (q ++ more) <> length q)
  /\ strncmpW (q ++ more) q (Z.of_nat (length q)) = 0
  /\ fst r = S_OK
  /\ element (snd r) = None
  /\ buffer (snd r) = write_output_buffer (buffer This) (Some (W "/>")) 2.
Proof.
  intros He Hcheck r. subst r.
  unfold mxwriter_saxcontent_endElement. unfold rejected in Hcheck.
  rewrite Hcheck, He, strncmpW_prefix. cbn [fst snd Z.eqb].
  split; [| repeat split].
  intros Hmore.
  assert (Hlen : length (q ++ more) <> length q).
  { rewrite length_app. destruct more; [congruence | cbn [length]; lia]. }
  split; [| exact Hlen]. intros Heq. now rewrite Heq in Hlen.
Qed.

End WriterFacts.

(** C9, as stated, fails: the empty version string is accepted. *)
Lemma put_version_accepts_empty :
  mxwriter_put_version Example.fresh (Some emptyW)
    = (S_OK, set_version Example.fresh (Some []))
  /\ FAILED (fst (mxwriter_put_version Example.fresh (Some emptyW))) = false
  /\ version (snd (mxwriter_put_version Example.fresh (Some emptyW))) = Some [].
Proof. repeat split. Qed.

Lemma put_version_null_only_witness :
  version (snd (mxwriter_put_version Example.fresh (Some (W "1.1"))))
    = Some (W "1.1").
Proof.
  apply (put_version_null_only Example.fresh).
  repeat constructor; discriminate.
Defined.

(** C4, as stated, fails: utf-8 equals UTF-8 up to case and is refused. *)
Lemma put_encoding_case_sensitive :
  map toupper (W "utf-8") = utf8W
  /\ mxwriter_put_encoding Example.fresh (W "utf-8")
     = (E_INVALIDARG, Example.fresh)
  /\ FAILED (fst (mxwriter_put_encoding Example.fresh (W "utf-8"))) = true.
Proof. repeat split. Qed.

Lemma put_encoding_exact_witness :
  mxwriter_put_encoding Example.fresh (W "Shift-JIS")
    = (E_INVALIDARG, Example.fresh)
  /\ fst (mxwriter_put_encoding Example.fresh (W "UTF-8")) = S_OK
  /\ encoding (snd (mxwriter_put_encoding Example.fresh (W "UTF-8")))
     = XML_CHAR_ENCODING_UTF8.
Proof.
  destruct (put_encoding_exact Example.fresh (W "Shift-JIS")) as (Hbad & _ & _).
  destruct (put_encoding_exact Example.fresh (W "UTF-8")) as (_ & Hgood & Hflush).
  split; [apply Hbad; vm_compute; discriminate |].
  destruct Hgood as (Hok & _ & H8 & _).
  - right. reflexivity.
  - apply Hflush. reflexivity.
  - split; [exact Hok | apply H8; reflexivity].
Defined.

Lemma endElement_prefix_self_closes_witness :
  let opened :=
    run_calls [Call_startElement Example.uri 0 (Some (W "ab")) 2
                 (Some (W "ab")) 2 None (Example.heap_of 0)] Example.fresh in
  let closed :=
    snd (mxwriter_saxcontent_endElement opened
           Example.uri 0 (Some (W "a")) 1 (Some (W "a")) 1) in
  element opened = Some (W "ab")
  /\ W "ab" <> W "a"
  /\ element closed = None
  /\ utf16_text (buffer closed) = W "<ab/>"
  /\ W "<ab/>" <> W "<ab></a>".
Proof.
  cbv zeta.
  destruct (endElement_prefix_self_closes
              (run_calls [Call_startElement Example.uri 0 (Some (W "ab")) 2
                            (Some (W "ab")) 2 None (Example.heap_of 0)]
                 Example.fresh)
              Example.uri (Some (W "a")) 0 1 (W "a") (W "b"))
    as (Hne & _ & _ & He & Hb); [reflexivity | reflexivity |].
  split; [reflexivity |].
  split; [apply Hne; discriminate |].
  split; [exact He |].
  split; [| vm_compute; discriminate].
  change (Z.of_nat (length (W "a"))) with 1 in Hb. rewrite Hb. reflexivity.
Defined.

(** ** Appending to the buffers *)

Section BufferFacts.

Lemma extends_refl (b : encoded_buffer) : extends b b.
Proof. exists []. now rewrite app_nil_r. Qed.

Lemma extends_trans (a b c : encoded_buffer) :
  extends a b -> extends b c -> extends a c.
Proof.
  intros [x Hx] [y Hy]. exists (x ++ y). now rewrite Hy, Hx, app_assoc.
Qed.

Lemma extends_length (a b : encoded_buffer) :
  extends a b -> (length (data a) <= length (data b))%nat.
Proof. intros [x Hx]. rewrite Hx, length_app. lia. Qed.

Lemma appended_refl (b : output_buffer) : appended b b.
Proof. repeat split; apply extends_refl. Qed.

Lemma appended_trans (a b c : output_buffer) :
  appended a b -> appended b c -> appended a c.
Proof.
  intros (H1 & H2 & H3) (H4 & H5 & H6).
  repeat split; [eapply extends_trans; eassumption .. | congruence].
Qed.

Lemma grow_buffer_data (b : encoded_buffer) (len : Z) :
  data (grow_buffer b len) = data b /\ written (grow_buffer b len) = written b.
Proof.
  unfold grow_buffer.
  now destruct (allocated b <? u32 (written b + len + 4)).
Qed.

(** A write only ever adds bytes behind those already stored. *)
Lemma write_output_buffer_mode_appended (b : output_buffer) (mode : Z)
    (src : LPCWSTR) (len : Z) :
  appended b (write_output_buffer_mode b mode src len).
Proof.
  unfold write_output_buffer_mode.
  set (b1 := if _ && (code_page b =? CP_UTF8) then _ else b).
  assert (H1 : appended b b1).
  { subst b1. destruct (_ && _); [| apply appended_refl].
    split; [apply extends_refl | split; [| reflexivity]].
    eexists. cbn [encoded data]. now rewrite (proj1 (grow_buffer_data _ _)). }
  apply (appended_trans _ _ _ H1).
  destruct (negb (Z.land mode (Z.lor OutputBuffer_Native OutputBuffer_Both) =? 0));
    [| apply appended_refl].
  destruct ((if len =? -1 then strlenW (deref src) else len) =? 0);
    [apply appended_refl |].
  split; [| split; [apply extends_refl | reflexivity]].
  eexists. cbn [utf16 data]. now rewrite (proj1 (grow_buffer_data _ _)).
Qed.

Lemma write_output_buffer_appended (b : output_buffer) (src : LPCWSTR)
    (len : Z) :
  appended b (write_output_buffer b src len).
Proof. apply write_output_buffer_mode_appended. Qed.

End BufferFacts.

Ltac appended_chain :=
  repeat first
    [ apply appended_refl
    | eapply appended_trans;
      [| first [ apply write_output_buffer_appended
               | apply write_output_buffer_mode_appended ] ] ].

Section FrameFacts.

Context {S : Type} `{IStream S}.

Implicit Types This : mxwriter S.

Lemma write_prolog_buffer_appended This :
  exists b, write_prolog_buffer This = set_buffer This b
            /\ appended (buffer This) b.
Proof.
  unfold write_prolog_buffer. eexists. split; [reflexivity |].
  destruct (get_prop This MXWriter_Standalone =? VARIANT_TRUE); appended_chain.
Qed.

Lemma close_element_starttag_appended This :
  exists b, close_element_starttag This = set_buffer This b
            /\ appended (buffer This) b.
Proof.
  unfold close_element_starttag. destruct (element This).
  - eexists. split; [reflexivity | appended_chain].
  - exists (buffer This). split; [now destruct This | apply appended_refl].
Qed.

Lemma write_attributes_appended (heap : Z -> WCHAR) (attr : ISAXAttributes)
    (fuel : nat) :
  forall (i : Z) (b : output_buffer),
  appended b (snd (write_attributes heap attr fuel i b)).
Proof.
  induction fuel as [| fuel IH]; intros i b; cbn [write_attributes].
  - apply appended_refl.
  - destruct (getQName attr i) as [[hr str] len].
    destruct (FAILED hr); [apply appended_refl |].
    destruct (getValue attr i) as [[hr' str'] len'].
    destruct (FAILED hr'); [cbn [snd]; appended_chain |].
    destruct (get_escaped_string (heap i) (deref str') len') as [escaped len''].
    eapply appended_trans; [| apply IH]. appended_chain.
Qed.

End FrameFacts.

(** ** Properties, the changed flag and startDocument *)

Section PropertyFacts.

Context {S : Type} `{IStream S}.

Implicit Types This : mxwriter S.

Lemma nth_store_same (l : list VARIANT_BOOL) (v : VARIANT_BOOL) :
  forall i, (i < length l)%nat -> nth i (store i v l) 0 = v.
Proof.
  induction l as [| x l IH]; intros i Hi; cbn in Hi; [lia |].
  destruct i as [| i]; cbn; [reflexivity | apply IH; lia].
Qed.

Lemma nth_store_other (l : list VARIANT_BOOL) (v : VARIANT_BOOL) :
  forall i j, i <> j -> nth j (store i v l) 0 = nth j l 0.
Proof.
  induction l as [| x l IH]; intros i j Hij; [reflexivity |].
  destruct i as [| i], j as [| j]; cbn; try reflexivity; try congruence.
  apply IH. congruence.
Qed.

Lemma prop_index_inj (p q : MXWRITER_PROPS) :
  prop_index p = prop_index q -> p = q.
Proof. destruct p, q; cbn; congruence. Qed.

Lemma prop_index_bound (p : MXWRITER_PROPS) :
  (prop_index p < MXWriter_LastProp)%nat.
Proof. destruct p; cbn; unfold MXWriter_LastProp; lia. Qed.

(** startDocument without a pending reset only appends to the buffers and
    leaves the sink offset alone. *)
Lemma startDocument_unchanged_appends This :
  prop_changed This = false ->
  let This' := snd (mxwriter_saxcontent_startDocument This) in
  dest_written This' = dest_written This
  /\ encoding This' = encoding This
  /\ appended (buffer This) (buffer This').
Proof.
  intros Hc. cbn zeta. unfold mxwriter_saxcontent_startDocument. rewrite Hc.
  destruct (get_prop This MXWriter_OmitXmlDecl =? VARIANT_TRUE).
  - cbn [snd]. repeat split; apply extends_refl.
  - destruct (write_prolog_buffer_appended This) as (b & -> & Hb).
    cbn [dest set_buffer].
    destruct (dest This) as [d |]; [| now cbn].
    destruct (_ && _); now cbn.
Qed.

Lemma startDocument_clears_flag This :
  prop_changed (snd (mxwriter_saxcontent_startDocument This)) = false.
Proof.
  unfold mxwriter_saxcontent_startDocument.
  set (T := if prop_changed This then _ else This).
  assert (HT : prop_changed T = false).
  { subst T. now destruct (prop_changed This) eqn:Hc. }
  destruct (get_prop T MXWriter_OmitXmlDecl =? VARIANT_TRUE); [exact HT |].
  destruct (write_prolog_buffer_appended T) as (b & -> & _).
  cbn [dest set_buffer]. destruct (dest T); [| exact HT].
  destruct (_ && _); exact HT.
Qed.

(** C7: a property setter is writer_set_property; it stores the value and
    sets the changed flag and leaves the buffers, the sink offset and every
    other field alone.  The reset happens in startDocument: with the flag
    set it resets the buffers and the sink offset before anything else,
    without the flag it only appends; either way the flag is clear
    afterwards. *)
Theorem property_setters_defer_reset This (property : MXWRITER_PROPS)
    (value : VARIANT_BOOL) :
  length (props This) = MXWriter_LastProp ->
  let This' := snd (writer_set_property This property value) in
  (mxwriter_put_byteOrderMark This value
     = writer_set_property This MXWriter_BOM value
   /\ mxwriter_put_disableOutputEscaping This value
     = writer_set_property This MXWriter_DisableEscaping value
   /\ mxwriter_put_indent This value
     = writer_set_property This MXWriter_Indent value
   /\ mxwriter_put_omitXMLDeclaration This value
     = writer_set_property This MXWriter_OmitXmlDecl value
   /\ mxwriter_put_standalone This value
     = writer_set_property This MXWriter_Standalone value)
  /\ (fst (writer_set_property This property value) = S_OK
      /\ buffer This' = buffer This
      /\ dest_written This' = dest_written This
      /\ dest This' = dest This
      /\ element This' = element This
      /\ encoding This' = encoding This
      /\ version This' = version This
      /\ get_prop This' property = value
      /\ (forall q, q <> property -> get_prop This' q = get_prop This q)
      /\ prop_changed This' = true)
  /\ (let after := snd (mxwriter_saxcontent_startDocument This') in
      mxwriter_saxcontent_startDocument This'
        = mxwriter_saxcontent_startDocument
            (set_prop_changed (reset_output_buffer This') false)
      /\ utf16 (buffer (reset_output_buffer This')) = init_encoded_buffer
      /\ encoded (buffer (reset_output_buffer This')) = init_encoded_buffer
      /\ dest_written after = 0
      /\ prop_changed after = false)
  /\ (forall Other : mxwriter S,
      prop_changed Other = false ->
      let after := snd (mxwriter_saxcontent_startDocument Other) in
      dest_written after = dest_written Other
      /\ appended (buffer Other) (buffer after)
      /\ prop_changed after = false).
Proof.
  intros Hlen This'.
  split; [repeat split |]. split; [| split].
  - subst This'. unfold writer_set_property, get_prop. cbn.
    repeat split.
    + apply nth_store_same. rewrite Hlen. apply prop_index_bound.
    + intros q Hq. apply nth_store_other.
      intros Heq. apply Hq. symmetry. now apply prop_index_inj.
  - cbn zeta.
    assert (Hsame : mxwriter_saxcontent_startDocument This'
              = mxwriter_saxcontent_startDocument
                  (set_prop_changed (reset_output_buffer This') false))
      by reflexivity.
    split; [exact Hsame |]. split; [reflexivity |]. split; [reflexivity |].
    split; [| apply startDocument_clears_flag].
    rewrite Hsame.
    now destruct (startDocument_unchanged_appends
                    (set_prop_changed (reset_output_buffer This') false)
                    eq_refl) as (-> & _).
  - intros Other Hc after. subst after.
    destruct (startDocument_unchanged_appends Other Hc) as (Hd & _ & Ha).
    repeat split; [exact Hd | apply Ha .. | apply startDocument_clears_flag].
Qed.

(** C10: with the declaration omitted startDocument emits nothing: it
    succeeds, the sink is exactly as before, so no byte-order mark reaches
    it, and the writer is as before apart from the reset a changed property
    has left pending. *)
Theorem startDocument_omit_emits_nothing This :
  get_prop This MXWriter_OmitXmlDecl = VARIANT_TRUE ->
  let r := mxwriter_saxcontent_startDocument This in
  fst r = S_OK
  /\ dest (snd r) = dest This
  /\ snd r = (if prop_changed This
              then set_prop_changed (reset_output_buffer This) false
              else This)
  /\ (prop_changed This = false -> buffer (snd r) = buffer This)
  /\ (prop_changed This = true ->
      utf16 (buffer (snd r)) = init_encoded_buffer
      /\ encoded (buffer (snd r)) = init_encoded_buffer).
Proof.
  intros Homit. cbn zeta. unfold mxwriter_saxcontent_startDocument.
  set (T := if prop_changed This then _ else This).
  assert (HT : get_prop T MXWriter_OmitXmlDecl = VARIANT_TRUE).
  { subst T. now destruct (prop_changed This). }
  rewrite HT. cbn [fst snd]. subst T.
  destruct (prop_changed This); repeat split; congruence.
Qed.

End PropertyFacts.

Lemma property_setters_defer_reset_witness :
  let set := snd (mxwriter_put_standalone Example.buffered VARIANT_TRUE) in
  buffer set = buffer Example.buffered
  /\ dest_written set = dest_written Example.buffered
  /\ get_prop set MXWriter_Standalone = VARIANT_TRUE
  /\ prop_changed set = true.
Proof.
  destruct (property_setters_defer_reset Example.buffered MXWriter_Standalone
              VARIANT_TRUE eq_refl)
    as (_ & (_ & Hb & Hd & _ & _ & _ & _ & Hp & _ & Hc) & _).
  exact (conj Hb (conj Hd (conj Hp Hc))).
Defined.

Lemma startDocument_omit_emits_nothing_witness :
  dest Example.omitting = Some []
  /\ encoding Example.omitting = XML_CHAR_ENCODING_UTF16LE
  /\ get_prop Example.omitting MXWriter_BOM = VARIANT_TRUE
  /\ dest (snd (mxwriter_saxcontent_startDocument Example.omitting)) = Some []
  /\ utf16_text
       (buffer (snd (mxwriter_saxcontent_startDocument Example.omitting))) = [].
Proof.
  destruct (startDocument_omit_emits_nothing Example.omitting eq_refl)
    as (_ & Hd & Hs & _).
  split; [reflexivity |]. split; [reflexivity |]. split; [reflexivity |].
  split; [rewrite Hd | rewrite Hs]; reflexivity.
Defined.

(** ** Flushing *)

Section FlushFacts.

Context {S : Type} `{IStream S}.

Implicit Types This : mxwriter S.

Lemma set_element_same This : set_element This (element This) = This.
Proof. now destruct This. Qed.

Lemma flush_idle This :
  element This = None ->
  flush_output_buffer This = write_data_to_stream This.
Proof.
  intros He. unfold flush_output_buffer, close_element_starttag,
    set_element_name.
  rewrite He. rewrite <- He at 1. now rewrite set_element_same.
Qed.

(** What a flush leaves: no pending tag, a sink if there was one, and the
    buffers and encoding it found after closing the tag. *)
Lemma write_data_to_stream_frame This :
  let r := snd (write_data_to_stream This) in
  buffer r = buffer This /\ encoding r = encoding This
  /\ element r = element This
  /\ (dest This <> None -> dest r <> None).
Proof.
  cbn zeta. unfold write_data_to_stream.
  destruct (dest This) as [d |] eqn:Hd;
    [| cbn [snd]; repeat split; congruence].
  destruct (sanity_check_fails This);
    [cbn [snd]; repeat split; congruence |].
  destruct (_ && _); [cbn [snd]; repeat split; congruence |].
  destruct (IStream_Write d (pending_bytes This)) as [[hr taken] d'].
  destruct (FAILED hr); cbn; repeat split; discriminate.
Qed.

Lemma flush_frame This :
  let r := snd (flush_output_buffer This) in
  element r = None /\ encoding r = encoding This
  /\ appended (buffer This) (buffer r)
  /\ (dest This <> None -> dest r <> None).
Proof.
  cbn zeta. unfold flush_output_buffer.
  destruct (close_element_starttag_appended This) as (b & -> & Hb).
  destruct (write_data_to_stream_frame
              (set_element_name (set_buffer This b) None 0))
    as (Hbuf & Henc & Hel & Hdest).
  rewrite Hbuf, Henc, Hel. repeat split; try apply Hb. exact Hdest.
Qed.

(** With nothing pending and every buffered byte delivered, a flush offers
    the sink nothing, or nothing but an empty write for UTF-8. *)
Lemma flush_delivered This (d : S) :
  dest This = Some d ->
  element This = None ->
  dest_written This = written (stream_buffer This) ->
  pending_bytes This = []
  /\ snd (fst (IStream_Write d [])) = 0
  /\ (is_UTF8 (encoding This) = false ->
      flush_output_buffer This = (S_OK, This))
  /\ (is_UTF8 (encoding This) = true ->
      fst (flush_output_buffer This) = fst (fst (IStream_Write d []))
      /\ dest (snd (flush_output_buffer This)) = Some (snd (IStream_Write d []))).
Proof.
  intros Hd He Hw.
  assert (Hp : pending_bytes This = []).
  { unfold pending_bytes. rewrite Hw, Z.sub_diag. reflexivity. }
  split; [exact Hp |]. split.
  { pose proof (IStream_Write_bound d []) as Hb. cbn in Hb. lia. }
  rewrite (flush_idle This He). unfold write_data_to_stream, sanity_check_fails.
  rewrite Hd, Hp, Hw, Z.eqb_refl.
  rewrite Z.gtb_ltb, Z.ltb_irrefl.
  split; intros Hu; rewrite Hu; [reflexivity |]. cbn [andb negb].
  destruct (IStream_Write d []) as [[hr taken] d'].
  destruct (FAILED hr); now cbn.
Qed.

(** C5, amended: when a sink is attached and a flush has delivered every
    byte of the chosen buffer, a second flush, with nothing appended in
    between, transfers no byte: for an encoding other than UTF-8 it makes no
    Write call and leaves the writer and the sink as they are, for UTF-8 it
    makes one Write call with no bytes. *)
Theorem flush_twice This :
  dest This <> None ->
  let first := snd (flush_output_buffer This) in
  dest_written first = written (stream_buffer first) ->
  element first = None
  /\ buffer (snd (flush_output_buffer first)) = buffer first
  /\ (is_UTF8 (encoding first) = false ->
      flush_output_buffer first = (S_OK, first))
  /\ (is_UTF8 (encoding first) = true ->
      exists d, dest first = Some d
      /\ pending_bytes first = []
      /\ snd (fst (IStream_Write d [])) = 0
      /\ fst (flush_output_buffer first) = fst (fst (IStream_Write d []))
      /\ dest (snd (flush_output_buffer first))
         = Some (snd (IStream_Write d []))).
Proof.
  intros Hdest first Hw.
  destruct (flush_frame This) as (He & _ & _ & Hd). fold first in He, Hd.
  specialize (Hd Hdest). destruct (dest first) as [d |] eqn:Hd1; [| easy].
  destruct (flush_delivered first d Hd1 He Hw) as (Hp & Hz & H16 & H8).
  split; [exact He |]. split; [| split].
  - rewrite (flush_idle first He).
    apply (write_data_to_stream_frame first).
  - exact H16.
  - intros Hu. exists d. destruct (H8 Hu) as [Hr Hs]. now repeat split.
Qed.

End FlushFacts.

(** C5, as stated, fails: on a stream that takes one byte per call, the
    second of two flushes, with nothing appended in between and no tag
    pending, hands the UTF-16 sink another byte. *)
Lemma second_flush_after_short_write :
  let first := snd (flush_output_buffer Example.buffered_short) in
  let second := snd (flush_output_buffer first) in
  encoding first = XML_CHAR_ENCODING_UTF16LE
  /\ element first = None
  /\ buffer second = buffer first
  /\ dest first = Some (ShortStream [[104]])
  /\ dest second = Some (ShortStream [[104]; [0]])
  /\ dest_written first = 1
  /\ dest_written second = 2.
Proof. cbv zeta. repeat split. Qed.

Lemma flush_twice_witness :
  let first := snd (flush_output_buffer Example.buffered) in
  dest first = Some [[104; 0; 105; 0]]
  /\ flush_output_buffer first = (S_OK, first)
  /\ (let first8 := snd (flush_output_buffer Example.buffered_utf8) in
      dest first8 = Some [[104; 105]]
      /\ dest (snd (flush_output_buffer first8)) = Some [[104; 105]; []]).
Proof.
  cbv zeta. split; [reflexivity |]. split.
  - destruct (flush_twice Example.buffered) as (_ & _ & H16 & _);
      [discriminate | reflexivity |].
    apply H16. reflexivity.
  - split; [reflexivity |].
    destruct (flush_twice Example.buffered_utf8) as (_ & _ & _ & H8);
      [discriminate | reflexivity |].
    destruct (H8 eq_refl) as (d & Hd & _ & _ & _ & Hs).
    rewrite Hs. vm_compute in Hd. injection Hd as <-. reflexivity.
Defined.

(** ** Character data *)

Lemma write_output_buffer_utf16 (b : output_buffer) (src : LPCWSTR) (len : Z) :
  0 <= len ->
  data (utf16 (write_output_buffer b src len))
    = data (utf16 b) ++ wchars_bytes (firstn (Z.to_nat len) (deref src)).
Proof.
  intros Hlen. unfold write_output_buffer, write_output_buffer_mode.
  set (b1 := if _ && (code_page b =? CP_UTF8) then _ else b).
  assert (H1 : utf16 b1 = utf16 b) by (subst b1; now destruct (_ && _)).
  change (negb (Z.land OutputBuffer_Both
                  (Z.lor OutputBuffer_Native OutputBuffer_Both) =? 0))
    with true. cbv iota.
  destruct (Z.eqb_spec len (-1)); [lia |].
  destruct (Z.eqb_spec len 0) as [-> | Hn].
  - rewrite H1. cbn. now rewrite app_nil_r.
  - cbn [utf16 data]. now rewrite (proj1 (grow_buffer_data _ _)), H1.
Qed.

(** Character data reaches the native buffer unit for unit, whatever the
    disable-escaping property holds. *)
Lemma characters_writes_raw {S : Type} `{IStream S} (This : mxwriter S)
    (text : list WCHAR) (nchars : Z) :
  0 <= nchars ->
  data (utf16 (buffer (snd (mxwriter_saxcontent_characters This (Some text)
                              nchars))))
    = data (utf16 (buffer (close_element_starttag This)))
      ++ wchars_bytes (firstn (Z.to_nat nchars) text).
Proof.
  intros Hn. unfold mxwriter_saxcontent_characters.
  destruct (Z.eqb_spec nchars 0) as [-> | Hne]; cbn [negb snd].
  - cbn. now rewrite app_nil_r.
  - cbn [buffer set_buffer]. now rewrite write_output_buffer_utf16.
Qed.

(** C1: on the example document, with escaping not disabled, the writer
    hands back the character data as it came in, [x<y], where the testable
    property expects the escaped [x&lt;y] that get_escaped_string makes of
    it: the 6 units it returns for this text, whatever the heap holds. *)
Theorem characters_not_escaped :
  Example.output_of Example.document = Some Example.raw_text
  /\ Example.raw_text <> Example.expected_text
  /\ get_prop Example.fresh MXWriter_DisableEscaping = VARIANT_FALSE
  /\ (forall heap : WCHAR,
        get_escaped_string heap (W "x<y") 3 = (W "x&lt;y" ++ [heap; 0], 6)
        /\ firstn 6 (fst (get_escaped_string heap (W "x<y") 3)) = W "x&lt;y").
Proof.
  split; [reflexivity |].
  split; [vm_compute; discriminate |].
  split; [reflexivity |].
  intros heap. split; reflexivity.
Qed.

(** ** Writes within their texts keep the counters exact *)

Section CountFacts.

Lemma u32_s32 (a x : Z) : u32 (a + s32 x) = u32 (a + x).
Proof.
  unfold u32, s32.
  rewrite (Z.mod_eq (x + 2 ^ 31) (2 ^ 32)) by lia.
  replace (a + (x + 2 ^ 31 - 2 ^ 32 * ((x + 2 ^ 31) / 2 ^ 32) - 2 ^ 31))
    with (a + x + (- ((x + 2 ^ 31) / 2 ^ 32)) * 2 ^ 32) by lia.
  apply Z.mod_add. lia.
Qed.

Lemma wchars_bytes_length (ws : list WCHAR) :
  length (wchars_bytes ws) = (2 * length ws)%nat.
Proof.
  unfold wchars_bytes. induction ws as [| c ws IH]; cbn in *; lia.
Qed.

Lemma fits_appended (b b' : output_buffer) :
  appended b b' -> fits b' -> fits b.
Proof.
  intros (Hu & He & _) [Fu Fe].
  apply extends_length in Hu, He. unfold fits. lia.
Qed.

(** A write whose length lies within its text leaves both counters equal to
    the bytes stored, as long as these stay below the range of the
    counters. *)
Lemma write_output_buffer_mode_sound (b : output_buffer) (mode : Z)
    (src : LPCWSTR) (len : Z) :
  fits (write_output_buffer_mode b mode src len) ->
  text_ok src len ->
  (fits b -> sound b) ->
  sound (write_output_buffer_mode b mode src len).
Proof.
  intros Hfit Htext Hsound.
  destruct (Hsound (fits_appended _ _
              (write_output_buffer_mode_appended b mode src len) Hfit))
    as [Hu He].
  revert Hfit. unfold write_output_buffer_mode, sound, fits, counts_bytes in *.
  set (b1 := if _ && (code_page b =? CP_UTF8) then _ else b).
  assert (H1 : utf16 b1 = utf16 b) by (subst b1; now destruct (_ && _)).
  assert (E1 : Z.of_nat (length (data (encoded b1))) < 2 ^ 32 ->
               written (encoded b1) = Z.of_nat (length (data (encoded b1)))).
  { subst b1. destruct (_ && _); [| intros _; exact He].
    cbn [encoded data written].
    destruct (grow_buffer_data (encoded b)
                (Z.of_nat (length (WideCharToMultiByte src len))))
      as [-> ->].
    rewrite He, length_app, length_firstn. intros Hlt.
    assert (Hn : 0 <= (if len =? -1
                       then Z.of_nat (length (WideCharToMultiByte src len)) - 1
                       else Z.of_nat (length (WideCharToMultiByte src len)))
                   <= Z.of_nat (length (WideCharToMultiByte src len))).
    { destruct (Z.eqb_spec len (-1)) as [-> |]; [| lia].
      destruct src as [l |]; cbn in Htext; [| lia].
      cbn. rewrite length_app. cbn. lia. }
    rewrite u32_small; lia. }
  destruct (negb (Z.land mode (Z.lor OutputBuffer_Native OutputBuffer_Both) =? 0)).
  - set (units := if len =? -1 then strlenW (deref src) else len).
    assert (Hunits : 0 <= units <= Z.of_nat (length (deref src))).
    { subst units. unfold strlenW.
      pose proof (c_str_length (deref src)).
      destruct (Z.eqb_spec len (-1)); [lia |].
      destruct src as [l |]; cbn in Htext |- *; lia. }
    destruct (units =? 0).
    + rewrite H1. intros [_ Hlt]. split; [exact Hu | exact (E1 Hlt)].
    + cbn [utf16 encoded data written].
      destruct (grow_buffer_data (utf16 b1) (s32 (units * 2))) as [-> ->].
      rewrite H1, Hu, u32_s32, length_app, wchars_bytes_length, length_firstn.
      intros [Hlt Hlt']. split; [| exact (E1 Hlt')].
      rewrite u32_small; lia.
  - rewrite H1. intros [_ Hlt]. split; [exact Hu | exact (E1 Hlt)].
Qed.

Lemma write_output_buffer_sound (b : output_buffer) (src : LPCWSTR) (len : Z) :
  fits (write_output_buffer b src len) ->
  text_ok src len ->
  (fits b -> sound b) ->
  sound (write_output_buffer b src len).
Proof. apply write_output_buffer_mode_sound. Qed.

Lemma escape_unit_length (c : WCHAR) : (length (escape_unit c) <= 6)%nat.
Proof.
  unfold escape_unit.
  destruct (c =? 60); [cbn; lia |]. destruct (c =? 38); [cbn; lia |].
  destruct (c =? 34); [cbn; lia |]. destruct (c =? 62); cbn; lia.
Qed.

Lemma flat_map_escape_bound (s : list WCHAR) :
  (length (flat_map escape_unit s) <= 6 * length s)%nat.
Proof.
  induction s as [| c s IH]; cbn [flat_map length]; [lia |].
  rewrite length_app. pose proof (escape_unit_length c). lia.
Qed.

(** The escaped form of a valid attribute value comes back with its own
    length. *)
Lemma get_escaped_string_text_ok (heap : WCHAR) (src : LPCWSTR) (len : Z) :
  value_ok src len ->
  text_ok (Some (fst (get_escaped_string heap (deref src) len)))
          (snd (get_escaped_string heap (deref src) len)).
Proof.
  destruct src as [l |]; cbn [value_ok deref]; [| contradiction].
  intros [Hlen Hmax]. unfold get_escaped_string. cbn [fst snd text_ok].
  destruct (escape_run_counted l len ltac:(lia)) as [-> _].
  destruct (Z.eqb_spec len (-1)); [lia |]. right. rewrite length_app.
  pose proof (flat_map_escape_bound
                (firstn (Nat.min (Z.to_nat len) (length (c_str l))) l)) as Hb.
  rewrite length_firstn in Hb.
  rewrite s32_small; unfold INT_MAX in *; lia.
Qed.

End CountFacts.

(** Soundness of a chain of writes, from the last write back to a buffer
    known to be sound. *)
Ltac text_ok_const :=
  first [ assumption | left; reflexivity | right; cbn; lia ].

Ltac sound_chain :=
  lazymatch goal with
  | |- sound (write_output_buffer _ _ _) =>
      apply write_output_buffer_sound;
      [ assumption | text_ok_const | intros ?; sound_chain ]
  | |- sound (write_output_buffer_mode _ _ _ _) =>
      apply write_output_buffer_mode_sound;
      [ assumption | text_ok_const | intros ?; sound_chain ]
  | |- _ => solve [auto]
  end.

(** ** The sink offset never passes the written count *)

Ltac frame_simpl :=
  cbn [fst snd dest_written encoding buffer dest element version set_buffer
       set_element_name set_element set_dest set_dest_written
       set_prop_changed set_version set_encoding].

Section OffsetFacts.

Context {S : Type} `{IStream S}.

Implicit Types This : mxwriter S.

(** *** Soundness of the counters under valid calls *)

Lemma close_element_starttag_sound This :
  fits (buffer (close_element_starttag This)) ->
  (fits (buffer This) -> sound (buffer This)) ->
  sound (buffer (close_element_starttag This)).
Proof.
  unfold close_element_starttag.
  destruct (element This); frame_simpl; intros Hf Hs; [| exact (Hs Hf)].
  apply write_output_buffer_sound; [exact Hf | right; cbn; lia | exact Hs].
Qed.

Lemma flush_sound This :
  buffers_sound This ->
  fits (buffer (snd (flush_output_buffer This))) ->
  buffers_sound (snd (flush_output_buffer This)).
Proof.
  unfold buffers_sound, flush_output_buffer. intros Hs.
  destruct (write_data_to_stream_frame
              (set_element_name (close_element_starttag This) None 0))
    as (-> & _).
  frame_simpl. intros Hf.
  apply close_element_starttag_sound; [exact Hf | intros _; exact Hs].
Qed.

Lemma write_prolog_buffer_sound This (v : list WCHAR) :
  version This = Some v ->
  sound (buffer This) ->
  fits (buffer (write_prolog_buffer This)) ->
  sound (buffer (write_prolog_buffer This)).
Proof.
  intros Hv Hs. unfold write_prolog_buffer. frame_simpl. rewrite Hv.
  destruct (get_prop This MXWriter_Standalone =? VARIANT_TRUE);
    intros Hf; sound_chain.
Qed.

Lemma write_attributes_sound (heap : Z -> WCHAR) (a : ISAXAttributes)
    (fuel : nat) :
  forall (i : Z) (b : output_buffer),
  (forall j, i <= j < i + Z.of_nat fuel ->
     text_ok (snd (fst (getQName a j))) (snd (getQName a j))
     /\ value_ok (snd (fst (getValue a j))) (snd (getValue a j))) ->
  fits (snd (write_attributes heap a fuel i b)) ->
  (fits b -> sound b) ->
  sound (snd (write_attributes heap a fuel i b)).
Proof.
  induction fuel as [| fuel IH]; intros i b Hok; cbn [write_attributes].
  - intros Hf Hs. exact (Hs Hf).
  - destruct (Hok i ltac:(lia)) as [Hq Hv].
    pose proof (write_attributes_appended heap a fuel (i + 1)) as Happ.
    destruct (getQName a i) as [[hr str] len]. cbn [fst snd] in Hq.
    destruct (FAILED hr); [intros Hf Hs; exact (Hs Hf) |].
    apply (get_escaped_string_text_ok (heap i)) in Hv.
    destruct (getValue a i) as [[hr' str'] len']. cbn [fst snd] in Hv.
    destruct (FAILED hr'); [cbn [snd]; intros Hf Hs; sound_chain |].
    destruct (get_escaped_string (heap i) (deref str') len') as [escaped len''].
    cbn [fst snd] in Hv. intros Hf Hs.
    apply IH; [intros j Hj; apply Hok; lia | exact Hf |].
    intros Hf'. sound_chain.
Qed.

Lemma startElement_sound This ns nns ln nln q nq attr heap :
  buffers_sound This ->
  valid_call This (Call_startElement ns nns ln nln q nq attr heap) ->
  fits (buffer (snd (mxwriter_saxcontent_startElement This ns nns ln nln q nq
                       attr heap))) ->
  buffers_sound (snd (mxwriter_saxcontent_startElement This ns nns ln nln q
                        nq attr heap)).
Proof.
  unfold buffers_sound, valid_call, rejected, mxwriter_saxcontent_startElement.
  intros Hs Hv.
  destruct (_ && _); [intros _; exact Hs |].
  destruct (Hv eq_refl) as [Hq Ha]. frame_simpl.
  assert (Hc : fits (buffer (close_element_starttag This)) ->
               sound (buffer (close_element_starttag This))).
  { intros Hf. apply close_element_starttag_sound; [exact Hf | now intros _]. }
  destruct attr as [a |].
  - destruct (getLength a) as [hr len] eqn:Hlen.
    destruct (FAILED hr); frame_simpl; [intros Hf; sound_chain |].
    pose proof (write_attributes_sound heap a (Z.to_nat len) 0
                  (write_output_buffer
                     (write_output_buffer
                        (buffer (close_element_starttag This))
                        (Some (W "<")) 1) q nq)) as Hw.
    destruct (write_attributes heap a (Z.to_nat len) 0 _) as [hr' b'].
    frame_simpl. cbn [snd] in Hw. intros Hf. apply Hw; [| exact Hf |].
    + intros j Hj. apply Ha. rewrite Hlen. cbn [snd]. lia.
    + intros Hf'. sound_chain.
  - frame_simpl. intros Hf. sound_chain.
Qed.

Lemma endElement_sound This ns nns ln nln q nq :
  buffers_sound This ->
  valid_call This (Call_endElement ns nns ln nln q nq) ->
  fits (buffer (snd (mxwriter_saxcontent_endElement This ns nns ln nln q nq))) ->
  buffers_sound (snd (mxwriter_saxcontent_endElement This ns nns ln nln q nq)).
Proof.
  unfold buffers_sound, valid_call, rejected, mxwriter_saxcontent_endElement.
  intros Hs Hv.
  destruct (_ && _); [intros _; exact Hs |].
  specialize (Hv eq_refl). frame_simpl.
  destruct (match element This with Some _ => _ | None => _ end);
    intros Hf; sound_chain.
Qed.

Lemma characters_sound This chars nchars :
  buffers_sound This ->
  valid_call This (Call_characters chars nchars) ->
  fits (buffer (snd (mxwriter_saxcontent_characters This chars nchars))) ->
  buffers_sound (snd (mxwriter_saxcontent_characters This chars nchars)).
Proof.
  unfold buffers_sound, valid_call, mxwriter_saxcontent_characters.
  intros Hs Hv.
  destruct chars as [l |]; [| intros _; exact Hs].
  specialize (Hv ltac:(discriminate)).
  assert (Hc : fits (buffer (close_element_starttag This)) ->
               sound (buffer (close_element_starttag This))).
  { intros Hf. apply close_element_starttag_sound; [exact Hf | now intros _]. }
  destruct (negb (nchars =? 0)); frame_simpl; intros Hf;
    [sound_chain | exact (Hc Hf)].
Qed.

Lemma reset_sound This : buffers_sound (reset_output_buffer This).
Proof. split; reflexivity. Qed.

Lemma startDocument_sound This :
  buffers_sound This -> version This <> None ->
  fits (buffer (snd (mxwriter_saxcontent_startDocument This))) ->
  buffers_sound (snd (mxwriter_saxcontent_startDocument This)).
Proof.
  unfold buffers_sound, mxwriter_saxcontent_startDocument. intros Hs Hv.
  set (T := if prop_changed This then _ else This).
  assert (HT : sound (buffer T) /\ version T = version This).
  { subst T. destruct (prop_changed This); [| now split].
    split; [apply (reset_sound This) | reflexivity]. }
  destruct HT as [HsT HvT].
  destruct (get_prop T MXWriter_OmitXmlDecl =? VARIANT_TRUE);
    [intros _; exact HsT |].
  destruct (version T) as [v |] eqn:Hver; [| congruence].
  pose proof (write_prolog_buffer_sound T v Hver HsT) as Hp.
  destruct (write_prolog_buffer_appended T) as (b & Hb & _).
  rewrite Hb in *. frame_simpl. cbn [buffer set_buffer] in Hp.
  destruct (dest T); [| exact Hp].
  destruct (_ && _); exact Hp.
Qed.

(** Every valid call that leaves the buffers within range leaves the
    counters exact. *)
Lemma run_call_sound (c : call) This :
  buffers_sound This -> version This <> None ->
  valid_call This c ->
  fits (buffer (snd (run_call c This))) ->
  buffers_sound (snd (run_call c This)).
Proof.
  intros Hs Hver Hv.
  destruct c as [dst | | name | p v | ver | | | | ns nns ln nln q nq attr heap
                | ns nns ln nln q nq | chars nchars]; cbn [run_call].
  - unfold mxwriter_put_output.
    pose proof (flush_sound This Hs) as Hf.
    destruct (flush_output_buffer This) as [hr T]. cbn [snd] in Hf.
    destruct (FAILED hr); [exact Hf |].
    destruct dst; cbn [snd]; try exact Hf; intros _.
    + exact (reset_sound (set_dest T None)).
    + exact (reset_sound T).
  - unfold mxwriter_get_output.
    destruct (dest This); [intros _; exact Hs |].
    pose proof (flush_sound This Hs) as Hf.
    destruct (flush_output_buffer This) as [hr T]. cbn [snd] in Hf.
    destruct (FAILED hr); exact Hf.
  - unfold mxwriter_put_encoding.
    destruct (_ || _); [| intros _; exact Hs].
    pose proof (flush_sound This Hs) as Hf.
    destruct (flush_output_buffer This) as [hr T]. cbn [snd] in Hf.
    destruct (FAILED hr); [exact Hf |]. intros _. apply reset_sound.
  - intros _. exact Hs.
  - intros _. destruct ver; exact Hs.
  - exact (flush_sound This Hs).
  - exact (startDocument_sound This Hs Hver).
  - exact (flush_sound (set_prop_changed This false) Hs).
  - exact (startElement_sound This ns nns ln nln q nq attr heap Hs Hv).
  - exact (endElement_sound This ns nns ln nln q nq Hs Hv).
  - exact (characters_sound This chars nchars Hs Hv).
Qed.

(** *** The version string is never NULL *)

Lemma write_data_to_stream_version This :
  version (snd (write_data_to_stream This)) = version This.
Proof.
  unfold write_data_to_stream.
  destruct (dest This) as [d |]; [| reflexivity].
  destruct (sanity_check_fails This); [reflexivity |].
  destruct (_ && _); [reflexivity |].
  destruct (IStream_Write d (pending_bytes This)) as [[hr taken] d'].
  now destruct (FAILED hr).
Qed.

Lemma flush_version This :
  version (snd (flush_output_buffer This)) = version This.
Proof.
  unfold flush_output_buffer. rewrite write_data_to_stream_version.
  unfold close_element_starttag. now destruct (element This).
Qed.

Lemma run_call_version (c : call) This :
  version This <> None -> version (snd (run_call c This)) <> None.
Proof.
  intros Hver.
  destruct c as [dst | | name | p v | ver | | | | ns nns ln nln q nq attr heap
                | ns nns ln nln q nq | chars nchars]; cbn [run_call].
  - unfold mxwriter_put_output.
    pose proof (flush_version This) as Hf.
    destruct (flush_output_buffer This) as [hr T]. cbn [snd] in Hf.
    destruct (FAILED hr); [cbn [snd]; congruence |].
    destruct dst; frame_simpl; unfold reset_output_buffer, close_output_buffer;
      frame_simpl; congruence.
  - unfold mxwriter_get_output.
    destruct (dest This); [exact Hver |].
    pose proof (flush_version This) as Hf.
    destruct (flush_output_buffer This) as [hr T]. cbn [snd] in Hf.
    destruct (FAILED hr); cbn [fst snd]; congruence.
  - unfold mxwriter_put_encoding.
    destruct (_ || _); [| exact Hver].
    pose proof (flush_version This) as Hf.
    destruct (flush_output_buffer This) as [hr T]. cbn [snd] in Hf.
    destruct (FAILED hr); [cbn [snd]; congruence |].
    unfold reset_output_buffer, close_output_buffer. frame_simpl. congruence.
  - exact Hver.
  - destruct ver; [discriminate | exact Hver].
  - unfold mxwriter_flush. now rewrite flush_version.
  - unfold mxwriter_saxcontent_startDocument.
    set (T := if prop_changed This then _ else This).
    assert (HT : version T = version This)
      by (subst T; now destruct (prop_changed This)).
    destruct (get_prop T MXWriter_OmitXmlDecl =? VARIANT_TRUE);
      [cbn [snd]; congruence |].
    destruct (write_prolog_buffer_appended T) as (b & -> & _). frame_simpl.
    destruct (dest T); [destruct (_ && _) |]; frame_simpl; congruence.
  - unfold mxwriter_saxcontent_endDocument. now rewrite flush_version.
  - unfold mxwriter_saxcontent_startElement.
    destruct (_ && _); [exact Hver |].
    destruct (close_element_starttag_appended This) as (b & -> & _).
    destruct attr as [a |]; [| exact Hver].
    destruct (getLength a) as [hr len].
    destruct (FAILED hr); [exact Hver |].
    destruct (write_attributes heap a (Z.to_nat len) 0 _) as [hr' b'].
    exact Hver.
  - unfold mxwriter_saxcontent_endElement.
    destruct (_ && _); exact Hver.
  - unfold mxwriter_saxcontent_characters.
    destruct chars; [| exact Hver].
    destruct (close_element_starttag_appended This) as (b & -> & _).
    destruct (negb (nchars =? 0)); exact Hver.
Qed.

(** *** The offset *)

(** Appending keeps the offset within the written count, as long as the
    counters count the bytes. *)
Lemma appended_offset This This' :
  offset_ok This -> buffers_sound This -> buffers_sound This' ->
  appended (buffer This) (buffer This') ->
  encoding This' = encoding This ->
  dest_written This' = dest_written This ->
  offset_ok This'.
Proof.
  unfold offset_ok, buffers_sound, sound, counts_bytes, stream_buffer.
  intros Hok [Hu He] [Hu' He'] (Au & Ae & _) Henc Hdw.
  apply extends_length in Au, Ae. rewrite Henc, Hdw.
  destruct (negb (is_UTF16LE (encoding This))); lia.
Qed.

Lemma pending_bytes_length This :
  offset_ok This ->
  Z.of_nat (length (pending_bytes This))
    <= written (stream_buffer This) - dest_written This.
Proof.
  unfold offset_ok, pending_bytes. intros Hok. rewrite length_firstn.
  pose proof (u32_le (written (stream_buffer This) - dest_written This)).
  lia.
Qed.

(** The stream takes no more than it is offered, so the offset stays within
    the written count. *)
Lemma write_data_to_stream_offset This :
  offset_ok This -> offset_ok (snd (write_data_to_stream This)).
Proof.
  intros Hok. unfold write_data_to_stream.
  destruct (dest This) as [d |]; [| exact Hok].
  destruct (sanity_check_fails This); [exact Hok |].
  destruct (_ && _); [exact Hok |].
  pose proof (IStream_Write_bound d (pending_bytes This)) as Hb.
  pose proof (pending_bytes_length This Hok) as Hp.
  destruct (IStream_Write d (pending_bytes This)) as [[hr taken] d'].
  cbn [fst snd] in Hb.
  destruct (FAILED hr); cbn [snd]; [exact Hok |].
  unfold offset_ok in *.
  change (stream_buffer (set_dest_written (set_dest This (Some d')) _))
    with (stream_buffer This).
  cbn [dest_written set_dest_written].
  pose proof (u32_le (dest_written This + taken)). lia.
Qed.

Lemma flush_offset This :
  offset_ok This -> buffers_sound This ->
  buffers_sound (snd (flush_output_buffer This)) ->
  offset_ok (snd (flush_output_buffer This)).
Proof.
  intros Hok Hs Hs'. unfold flush_output_buffer in *.
  destruct (close_element_starttag_appended This) as (b & Hc & Hb).
  rewrite Hc in *.
  set (T := set_element_name (set_buffer This b) None 0) in *.
  destruct (write_data_to_stream_frame T) as (Hbuf & _).
  apply write_data_to_stream_offset.
  apply (appended_offset This T Hok Hs); try reflexivity; [| exact Hb].
  unfold buffers_sound in *. now rewrite <- Hbuf.
Qed.

Lemma reset_offset This : offset_ok (reset_output_buffer This).
Proof.
  unfold offset_ok, reset_output_buffer, stream_buffer. cbn.
  destruct (negb (is_UTF16LE (encoding This))); cbn; lia.
Qed.

(** The content calls only append. *)
Lemma startElement_appends This ns nns ln nln q nq attr heap :
  let r := snd (mxwriter_saxcontent_startElement This ns nns ln nln q nq attr
                  heap) in
  dest_written r = dest_written This /\ encoding r = encoding This
  /\ appended (buffer This) (buffer r).
Proof.
  cbn zeta. unfold mxwriter_saxcontent_startElement.
  destruct (_ && _); [frame_simpl; repeat split; apply extends_refl |].
  destruct (close_element_starttag_appended This) as (b & -> & Hb).
  frame_simpl.
  destruct attr as [a |].
  - destruct (getLength a) as [hr len].
    destruct (FAILED hr).
    + frame_simpl. split; [reflexivity | split; [reflexivity |]].
      eapply appended_trans; [exact Hb | appended_chain].
    + pose proof (write_attributes_appended heap a (Z.to_nat len) 0
                    (write_output_buffer
                       (write_output_buffer b (Some (W "<")) 1) q nq)) as Ha.
      destruct (write_attributes heap a (Z.to_nat len) 0 _) as [hr' b'].
      frame_simpl. cbn [snd] in Ha.
      split; [reflexivity | split; [reflexivity |]].
      eapply appended_trans; [| exact Ha].
      eapply appended_trans; [exact Hb | appended_chain].
  - frame_simpl. split; [reflexivity | split; [reflexivity |]].
    eapply appended_trans; [exact Hb | appended_chain].
Qed.

Lemma endElement_appends This ns nns ln nln q nq :
  let r := snd (mxwriter_saxcontent_endElement This ns nns ln nln q nq) in
  dest_written r = dest_written This /\ encoding r = encoding This
  /\ appended (buffer This) (buffer r).
Proof.
  cbn zeta. unfold mxwriter_saxcontent_endElement.
  destruct (_ && _); [frame_simpl; repeat split; apply extends_refl |].
  frame_simpl. split; [reflexivity | split; [reflexivity |]].
  destruct (match element This with Some _ => _ | None => _ end);
    appended_chain.
Qed.

Lemma characters_appends This chars nchars :
  let r := snd (mxwriter_saxcontent_characters This chars nchars) in
  dest_written r = dest_written This /\ encoding r = encoding This
  /\ appended (buffer This) (buffer r).
Proof.
  cbn zeta. unfold mxwriter_saxcontent_characters.
  destruct chars as [l |];
    [| frame_simpl; repeat split; apply extends_refl].
  destruct (close_element_starttag_appended This) as (b & -> & Hb).
  destruct (negb (nchars =? 0)); frame_simpl;
    (split; [reflexivity | split; [reflexivity |]]);
    [eapply appended_trans; [exact Hb | appended_chain] | exact Hb].
Qed.

Lemma create_offset (ver : MSXML_VERSION) This :
  MXWriter_create ver = (S_OK, Some This) ->
  offset_ok This /\ buffers_sound This /\ version This <> None.
Proof.
  intros Hc. vm_compute in Hc. injection Hc as <-.
  split; [split; vm_compute; discriminate |].
  split; [split; reflexivity | discriminate].
Qed.

(** Every call keeps the offset within the written count. *)
Lemma run_call_offset (c : call) This :
  offset_ok This -> buffers_sound This ->
  buffers_sound (snd (run_call c This)) ->
  offset_ok (snd (run_call c This)).
Proof.
  intros Hok Hs Hs'.
  destruct c as [dst | | name | p v | ver | | | | ns nns ln nln q nq attr heap
                | ns nns ln nln q nq | chars nchars]; cbn [run_call] in *.
  - (* put_output *)
    unfold mxwriter_put_output in *.
    pose proof (flush_offset This Hok Hs) as Hf.
    destruct (flush_output_buffer This) as [hr T]. cbn [snd] in Hf.
    destruct (FAILED hr); [exact (Hf Hs') |].
    destruct dst; cbn [snd] in *; try exact (Hf Hs').
    + exact (reset_offset (set_dest T None)).
    + exact (reset_offset T).
  - (* get_output *)
    unfold mxwriter_get_output in *.
    destruct (dest This); [exact Hok |].
    pose proof (flush_offset This Hok Hs) as Hf.
    destruct (flush_output_buffer This) as [hr T]. cbn [snd] in Hf.
    destruct (FAILED hr); exact (Hf Hs').
  - (* put_encoding *)
    unfold mxwriter_put_encoding in *.
    destruct (_ || _); [| exact Hok].
    pose proof (flush_offset This Hok Hs) as Hf.
    destruct (flush_output_buffer This) as [hr T]. cbn [snd] in Hf.
    destruct (FAILED hr); [exact (Hf Hs') |].
    apply reset_offset.
  - (* the property setters *) exact Hok.
  - (* put_version *) destruct ver; exact Hok.
  - (* flush *) exact (flush_offset This Hok Hs Hs').
  - (* startDocument *)
    destruct (prop_changed This) eqn:Hc.
    + assert (Heq : mxwriter_saxcontent_startDocument This
                = mxwriter_saxcontent_startDocument
                    (set_prop_changed (reset_output_buffer This) false)).
      { unfold mxwriter_saxcontent_startDocument. now rewrite Hc. }
      rewrite Heq in *.
      destruct (startDocument_unchanged_appends
                  (set_prop_changed (reset_output_buffer This) false) eq_refl)
        as (Hd & He & Ha).
      eapply appended_offset; [| | exact Hs' | exact Ha | exact He | exact Hd].
      * exact (reset_offset This).
      * exact (reset_sound This).
    + destruct (startDocument_unchanged_appends This Hc) as (Hd & He & Ha).
      exact (appended_offset This _ Hok Hs Hs' Ha He Hd).
  - (* endDocument *)
    exact (flush_offset (set_prop_changed This false) Hok Hs Hs').
  - (* startElement *)
    destruct (startElement_appends This ns nns ln nln q nq attr heap)
      as (Hd & He & Ha).
    exact (appended_offset This _ Hok Hs Hs' Ha He Hd).
  - (* endElement *)
    destruct (endElement_appends This ns nns ln nln q nq) as (Hd & He & Ha).
    exact (appended_offset This _ Hok Hs Hs' Ha He Hd).
  - (* characters *)
    destruct (characters_appends This chars nchars) as (Hd & He & Ha).
    exact (appended_offset This _ Hok Hs Hs' Ha He Hd).
Qed.

Lemma reachable_sound This :
  reachable This ->
  offset_ok This /\ buffers_sound This /\ version This <> None.
Proof.
  induction 1 as [ver This Hc | This c _ (Hok & Hs & Hver) Hv Hf].
  - exact (create_offset ver This Hc).
  - pose proof (run_call_sound c This Hs Hver Hv Hf) as Hs'.
    split; [exact (run_call_offset c This Hok Hs Hs') |].
    split; [exact Hs' | exact (run_call_version c This Hver)].
Qed.

(** C6: in every state reached from a new writer by valid calls (texts
    passed with lengths that lie within them, buffers within the range of
    their counters, a stream that takes no more than it is offered), the
    sink offset is at most the written count of the buffer chosen for the
    active encoding, so the failing branch of the sanity check is never
    taken. *)
Theorem offset_within_written This :
  reachable This ->
  dest_written This <= written (stream_buffer This)
  /\ sanity_check_fails This = false.
Proof.
  intros Hr. destruct (reachable_sound This Hr) as [[_ Hle] _].
  split; [exact Hle |].
  unfold sanity_check_fails. rewrite Z.gtb_ltb. apply Z.ltb_ge. exact Hle.
Qed.

End OffsetFacts.

Lemma offset_within_written_witness :
  reachable (snd (flush_output_buffer Example.buffered))
  /\ dest_written (snd (flush_output_buffer Example.buffered)) = 4
  /\ dest_written (snd (flush_output_buffer Example.buffered))
     <= written (stream_buffer (snd (flush_output_buffer Example.buffered))).
Proof.
  assert (Hr : reachable (snd (flush_output_buffer Example.buffered))).
  { apply (reach_call Example.buffered Call_flush);
      [| exact I | split; vm_compute; reflexivity].
    apply (reach_call
             (snd (run_call (Call_put_output (VT_UNKNOWN_stream []))
                     Example.fresh))
             (Call_characters (Some (W "hi")) 2));
      [| intros _; right; cbn; lia | split; vm_compute; reflexivity].
    apply (reach_call Example.fresh (Call_put_output (VT_UNKNOWN_stream [])));
      [| exact I | split; vm_compute; reflexivity].
    apply (reach_create MSXML3). reflexivity. }
  split; [exact Hr |]. split; [reflexivity |].
  apply (offset_within_written _ Hr).
Defined.

(** * Further properties of the buffers and the escaper *)

(** Arithmetic over lengths of lists whose element type is written as
    [WCHAR], [byte] or [Z]. *)
Ltac units_lia := unfold WCHAR, byte in *; lia.

Section MoreBufferFacts.

Lemma u32_of_s32 (x : Z) : u32 (s32 x) = u32 x.
Proof. exact (u32_s32 0 x). Qed.

(** Growing makes room: shared by the properties of grow_buffer and of the
    writes. *)
Lemma grow_buffer_makes_room (b : encoded_buffer) (len : Z) :
  0 <= len ->
  headroom b ->
  allocated b + len < 2 ^ 32 ->
  let b' := grow_buffer b len in
  written b' + len + 4 <= allocated b'
  /\ allocated b <= allocated b' < 2 ^ 32
  /\ data b' = data b /\ written b' = written b.
Proof.
  intros Hlen (Hw & Hroom & Ha) Hsum. cbn zeta. unfold grow_buffer.
  rewrite (u32_small (written b + len + 4)) by lia.
  destruct (Z.ltb_spec (allocated b) (written b + len + 4)) as [Hlt | Hge];
    cbn [allocated written data];
    [| repeat split; try reflexivity; lia].
  rewrite u32_of_s32.
  pose proof (Z.mod_pos_bound (2 * allocated b) (2 ^ 32) ltac:(lia)) as Hd.
  fold (u32 (2 * allocated b)) in Hd.
  rewrite (u32_small (allocated b + len)) by lia.
  rewrite u32_small by lia. repeat split; try reflexivity; lia.
Qed.

(** X1: on a buffer that has its four bytes of headroom (0 <= written,
    written + 4 <= allocated < 2^32), a request of len >= 0 bytes with
    allocated + len < 2^32 makes grow_buffer leave room for the bytes asked
    for and the four bytes of the terminator; it never shrinks the
    allocation and keeps the bytes and the cursor. *)
Theorem grow_buffer_room (b : encoded_buffer) (len : Z) :
  0 <= len ->
  headroom b ->
  allocated b + len < 2 ^ 32 ->
  let b' := grow_buffer b len in
  written b' + len + 4 <= allocated b'
  /\ allocated b <= allocated b' < 2 ^ 32
  /\ data b' = data b /\ written b' = written b.
Proof. exact (grow_buffer_makes_room b len). Qed.

Lemma grow_buffer_room_witness :
  let b := {| data := []; allocated := 8192; written := 8000 |} in
  allocated (grow_buffer b 500) = 16384
  /\ written (grow_buffer b 500) + 500 + 4 <= allocated (grow_buffer b 500).
Proof.
  cbv zeta. split; [reflexivity |].
  apply (grow_buffer_room {| data := []; allocated := 8192; written := 8000 |}
           500); [lia | | ]; unfold headroom; cbn; lia.
Defined.

Lemma utf8_encode_length_aux (n : nat) :
  forall ws, (length ws <= n)%nat ->
  (length (utf8_encode ws) <= 3 * length ws)%nat.
Proof.
  induction n as [| n IH]; intros ws Hn.
  - destruct ws; [cbn; lia | cbn in Hn; lia].
  - destruct ws as [| c rest]; [cbn; lia |].
    cbn [length] in Hn. cbn [utf8_encode].
    assert (Hrest : (length (utf8_encode rest) <= 3 * length rest)%nat)
      by (apply IH; lia).
    destruct (c <? 128); [cbn [length]; units_lia |].
    destruct (c <? 2048); [cbn [length]; units_lia |].
    destruct rest as [| d rest']; [cbn [length]; units_lia |].
    destruct (is_high_surrogate c && is_low_surrogate d).
    + rewrite length_app. cbn [length] in *.
      assert ((length (utf8_encode rest') <= 3 * length rest')%nat)
        by (apply IH; lia).
      units_lia.
    + rewrite length_app. cbn [length] in *. units_lia.
Qed.

Lemma utf8_encode_length (ws : list WCHAR) :
  (length (utf8_encode ws) <= 3 * length ws)%nat.
Proof. apply (utf8_encode_length_aux (length ws)). lia. Qed.

Lemma WideCharToMultiByte_length (src : LPCWSTR) (len : Z) :
  Z.of_nat (length (WideCharToMultiByte src len))
    <= 3 * Z.of_nat (length (deref src)) + 1.
Proof.
  destruct src as [l |]; cbn [WideCharToMultiByte deref]; [| cbn; lia].
  destruct (len <? 0).
  - rewrite length_app. cbn [length].
    pose proof (utf8_encode_length (c_str l)). pose proof (c_str_length l). lia.
  - pose proof (utf8_encode_length (firstn (Z.to_nat len) l)).
    rewrite length_firstn in *. lia.
Qed.

(** X2: a write whose length lies within its text keeps the four bytes of
    headroom behind the cursor of each buffer, as long as the allocation
    and the text together stay within the range of the size arithmetic. *)
Theorem write_output_buffer_mode_headroom (b : output_buffer) (mode : Z)
    (src : LPCWSTR) (len : Z) :
  text_ok src len ->
  let b' := write_output_buffer_mode b mode src len in
  (headroom (utf16 b) ->
   allocated (utf16 b) + 2 * Z.of_nat (length (deref src)) < 2 ^ 31 ->
   headroom (utf16 b'))
  /\ (headroom (encoded b) ->
      allocated (encoded b) + 3 * Z.of_nat (length (deref src)) + 1 < 2 ^ 32 ->
      headroom (encoded b')).
Proof.
  intros Htext. cbn zeta. unfold write_output_buffer_mode.
  set (b1 := if _ && (code_page b =? CP_UTF8) then _ else b).
  assert (H1 : utf16 b1 = utf16 b) by (subst b1; now destruct (_ && _)).
  assert (E1 : headroom (encoded b) ->
               allocated (encoded b) + 3 * Z.of_nat (length (deref src)) + 1
                 < 2 ^ 32 ->
               headroom (encoded b1)).
  { subst b1. destruct (_ && _); [| now intros].
    intros Hh Hb. cbn [encoded].
    pose proof (WideCharToMultiByte_length src len) as Hl.
    set (count := Z.of_nat (length (WideCharToMultiByte src len))) in *.
    pose proof Hh as (Hw0 & Hr0 & Ha0).
    destruct (grow_buffer_makes_room (encoded b) count ltac:(lia) Hh
                ltac:(units_lia))
      as (Hr & Ha & _ & Hw).
    assert (Hn : 0 <= (if len =? -1 then count - 1 else count) <= count).
    { subst count. destruct (Z.eqb_spec len (-1)) as [-> |]; [| lia].
      destruct src as [l |]; cbn in Htext; [| lia].
      cbn. rewrite length_app. cbn. lia. }
    unfold headroom. cbn [written allocated]. rewrite Hw in *.
    rewrite u32_small by units_lia. units_lia. }
  split.
  - intros Hh Hb.
    destruct (negb (Z.land mode (Z.lor OutputBuffer_Native OutputBuffer_Both) =? 0));
      [| now rewrite H1].
    set (units := if len =? -1 then strlenW (deref src) else len).
    assert (Hunits : 0 <= units <= Z.of_nat (length (deref src))).
    { subst units. unfold strlenW.
      pose proof (c_str_length (deref src)).
      destruct (Z.eqb_spec len (-1)); [lia |].
      destruct src as [l |]; cbn in Htext |- *; lia. }
    destruct (units =? 0); [now rewrite H1 |].
    pose proof Hh as (Hw0 & Hr0 & Ha0).
    cbn [utf16]. rewrite H1. rewrite (s32_small (units * 2)) by units_lia.
    destruct (grow_buffer_makes_room (utf16 b) (units * 2) ltac:(lia) Hh
                ltac:(units_lia))
      as (Hr & Ha & _ & Hw).
    unfold headroom. cbn [written allocated]. rewrite Hw in *.
    rewrite u32_small by units_lia. units_lia.
  - intros Hh Hb.
    destruct (negb (Z.land mode (Z.lor OutputBuffer_Native OutputBuffer_Both) =? 0));
      [| exact (E1 Hh Hb)].
    destruct ((if len =? -1 then strlenW (deref src) else len) =? 0);
      [exact (E1 Hh Hb) |].
    cbn [encoded]. exact (E1 Hh Hb).
Qed.

Lemma write_output_buffer_mode_headroom_witness :
  let b := {| utf16 := init_encoded_buffer; encoded := init_encoded_buffer;
              code_page := CP_UTF8 |} in
  headroom (utf16 (write_output_buffer b (Some (W "hello")) 5))
  /\ headroom (encoded (write_output_buffer b (Some (W "hello")) 5)).
Proof.
  cbv zeta.
  destruct (write_output_buffer_mode_headroom
              {| utf16 := init_encoded_buffer; encoded := init_encoded_buffer;
                 code_page := CP_UTF8 |}
              OutputBuffer_Both (Some (W "hello")) 5) as [Hu He].
  - right. cbn. lia.
  - split; [apply Hu | apply He];
      repeat split; vm_compute; first [reflexivity | discriminate].
Defined.

(** X3: the mode selects the buffers a write touches: a native write
    leaves the encoded buffer alone, an encoded write the native one, and
    without the UTF-8 code page no write touches the encoded buffer. *)
Theorem write_output_buffer_mode_selects (b : output_buffer)
    (src : LPCWSTR) (len : Z) :
  encoded (write_output_buffer_mode b OutputBuffer_Native src len) = encoded b
  /\ utf16 (write_output_buffer_mode b OutputBuffer_Encoded src len) = utf16 b
  /\ (forall mode, code_page b <> CP_UTF8 ->
        encoded (write_output_buffer_mode b mode src len) = encoded b)
  /\ (forall mode,
        code_page (write_output_buffer_mode b mode src len) = code_page b).
Proof.
  repeat split.
  - unfold write_output_buffer_mode.
    change (negb (Z.land OutputBuffer_Native
                    (Z.lor OutputBuffer_Encoded OutputBuffer_Both) =? 0))
      with false. cbn [andb].
    destruct (negb _); [| reflexivity]. now destruct (_ =? 0).
  - unfold write_output_buffer_mode.
    change (negb (Z.land OutputBuffer_Encoded
                    (Z.lor OutputBuffer_Native OutputBuffer_Both) =? 0))
      with false. cbv iota.
    now destruct (_ && _).
  - intros mode Hcp. unfold write_output_buffer_mode.
    destruct (Z.eqb_spec (code_page b) CP_UTF8); [contradiction |].
    rewrite andb_false_r.
    destruct (negb _); [| reflexivity]. now destruct (_ =? 0).
  - intros mode. exact (proj2 (proj2 (write_output_buffer_mode_appended b mode src len))).
Qed.

Lemma firstn_c_str (l : list WCHAR) : firstn (length (c_str l)) l = c_str l.
Proof.
  induction l as [| c l IH]; [reflexivity |]. cbn [c_str].
  destruct (c =? 0); [reflexivity |]. cbn [length firstn]. now rewrite IH.
Qed.

(** X4: with a text that is not NULL, the sentinel length -1 stores the
    same bytes and counts as the explicit length of the NUL-terminated
    text. *)
Theorem write_output_buffer_sentinel (b : output_buffer) (l : list WCHAR) :
  let b1 := write_output_buffer b (Some l) (-1) in
  let b2 := write_output_buffer b (Some l) (strlenW l) in
  data (utf16 b1) = data (utf16 b2) /\ written (utf16 b1) = written (utf16 b2)
  /\ data (encoded b1) = data (encoded b2)
  /\ written (encoded b1) = written (encoded b2)
  /\ data (utf16 b1)
     = data (utf16 b) ++ wchars_bytes (c_str l).
Proof.
  cbn zeta. unfold write_output_buffer, write_output_buffer_mode.
  change (negb (Z.land OutputBuffer_Both
                  (Z.lor OutputBuffer_Encoded OutputBuffer_Both) =? 0))
    with true.
  change (negb (Z.land OutputBuffer_Both
                  (Z.lor OutputBuffer_Native OutputBuffer_Both) =? 0))
    with true.
  cbn [andb]. cbv iota.
  assert (Hs : 0 <= strlenW l) by (unfold strlenW; lia).
  assert (Hf : firstn (Z.to_nat (strlenW l)) l = c_str l)
    by (unfold strlenW; rewrite Nat2Z.id; apply firstn_c_str).
  destruct (Z.eqb_spec (strlenW l) (-1)); [lia |].
  change (-1 =? -1) with true. cbv iota. cbn [deref].
  assert (Hu : length (firstn
                 (Z.to_nat (Z.of_nat (length (utf8_encode (c_str l) ++ [0])) - 1))
                 (utf8_encode (c_str l) ++ [0]))
               = length (utf8_encode (c_str l))
               /\ firstn
                 (Z.to_nat (Z.of_nat (length (utf8_encode (c_str l) ++ [0])) - 1))
                 (utf8_encode (c_str l) ++ [0]) = utf8_encode (c_str l)).
  { rewrite length_app. cbn [length].
    replace (Z.to_nat (Z.of_nat (length (utf8_encode (c_str l)) + 1) - 1))
      with (length (utf8_encode (c_str l)) + 0)%nat by lia.
    rewrite firstn_app_2. cbn. rewrite app_nil_r. split; reflexivity. }
  destruct Hu as [_ Hu].
  cbn [WideCharToMultiByte]. change (-1 <? 0) with true. cbv iota.
  destruct (Z.ltb_spec (strlenW l) 0); [lia |]. rewrite Hf.
  assert (Hnil : strlenW l = 0 -> c_str l = []).
  { unfold strlenW. destruct (c_str l); [reflexivity | cbn; lia]. }
  destruct (code_page b =? CP_UTF8);
    destruct (Z.eqb_spec (strlenW l) 0) as [H0 | H0];
    cbn [utf16 encoded data written];
    rewrite ?Hu, ?(proj1 (grow_buffer_data _ _)),
      ?(proj2 (grow_buffer_data _ _)), ?length_app, ?Nat2Z.id, ?firstn_all;
    cbn [length];
    try (rewrite (Hnil H0); cbn [wchars_bytes flat_map]; rewrite ?app_nil_r);
    repeat split; try reflexivity; f_equal; lia.
Qed.

End MoreBufferFacts.

Lemma write_output_buffer_mode_selects_witness :
  let b := {| utf16 := init_encoded_buffer; encoded := zero_encoded_buffer;
              code_page := CP_NATIVE |} in
  encoded (write_output_buffer b (Some (W "hello")) 5) = zero_encoded_buffer.
Proof.
  cbv zeta.
  destruct (write_output_buffer_mode_selects
              {| utf16 := init_encoded_buffer; encoded := zero_encoded_buffer;
                 code_page := CP_NATIVE |} (Some (W "hello")) 5)
    as (_ & _ & Hcp & _).
  apply (Hcp OutputBuffer_Both). vm_compute. discriminate.
Defined.

Section MoreEscaperFacts.

(** The allocation always leaves four units behind the cursor. *)
Lemma escape_loop_room (len : Z) (str : list WCHAR) :
  forall (p conv_len start : Z) (out : list WCHAR),
  100 <= conv_len ->
  Z.of_nat (length out) + 4 <= conv_len ->
  conv_len <= Z.max start (2 * Z.of_nat (length out) + 20) ->
  Z.max start (2 * (Z.of_nat (length out) + 6 * Z.of_nat (length str)) + 20)
    <= INT_MAX ->
  let st := escape_loop len str p conv_len out in
  Z.of_nat (length (e_out st)) + 4 <= e_conv_len st
  /\ 100 <= e_conv_len st <= INT_MAX.
Proof.
  unfold INT_MAX.
  induction str as [| c str IH]; intros p conv_len start out H100 Hroom Hcl Hmax;
    cbn [escape_loop].
  - cbn [e_out e_conv_len length] in *. lia.
  - destruct ((c =? 0) || (p =? 0)); [cbn [e_out e_conv_len length] in *; lia |].
    pose proof (escape_unit_length c) as Hu.
    cbn [length] in Hmax.
    apply (IH _ _ start); rewrite ?length_app; unfold grow_thresh.
    + destruct (Z.gtb_spec (Z.of_nat (length out)) (conv_len - 10));
        [rewrite s32_small |]; units_lia.
    + destruct (Z.gtb_spec (Z.of_nat (length out)) (conv_len - 10));
        [rewrite s32_small |]; units_lia.
    + destruct (Z.gtb_spec (Z.of_nat (length out)) (conv_len - 10));
        [rewrite s32_small |]; units_lia.
    + units_lia.
Qed.

(** X5: the buffer get_escaped_string allocates and doubles always has
    room: when the loop ends, at least four units lie between the cursor
    and the end of the allocation, so the terminator stored one unit past
    the cursor is inside it. *)
Theorem get_escaped_string_room (str : list WCHAR) (len : Z) :
  -1 <= len -> 2 * len <= INT_MAX ->
  12 * Z.of_nat (length str) + 20 <= INT_MAX ->
  let st := escape_run str len in
  Z.of_nat (length (e_out st)) + 4 <= e_conv_len st
  /\ 100 <= e_conv_len st <= INT_MAX.
Proof.
  intros Hlo Hlen Hstr. unfold escape_run, default_alloc.
  set (conv_len := if len =? -1 then 100 else Z.max (s32 (2 * len)) 100).
  assert (Hc : 100 <= conv_len <= INT_MAX).
  { subst conv_len. unfold INT_MAX in *.
    destruct (len =? -1); [lia |]. rewrite s32_small; lia. }
  apply (escape_loop_room len str len conv_len conv_len []);
    cbn [length]; unfold INT_MAX in *; lia.
Qed.

Lemma get_escaped_string_room_witness :
  Z.of_nat (length (e_out (escape_run (W "<<<<<<<<<<<<<<<<<<<<<<<<<<<<<<") 30)))
    + 4 <= e_conv_len (escape_run (W "<<<<<<<<<<<<<<<<<<<<<<<<<<<<<<") 30)
  /\ e_conv_len (escape_run (W "<<<<<<<<<<<<<<<<<<<<<<<<<<<<<<") 30) = 200.
Proof.
  split; [| reflexivity].
  apply (get_escaped_string_room (W "<<<<<<<<<<<<<<<<<<<<<<<<<<<<<<") 30);
    vm_compute; discriminate.
Defined.

Lemma escape_loop_sentinel (str : list WCHAR) :
  forall (conv_len : Z) (out : list WCHAR),
  e_out (escape_loop (-1) str (-1) conv_len out)
    = out ++ flat_map escape_unit (c_str str)
  /\ e_str (escape_loop (-1) str (-1) conv_len out)
     = skipn (length (c_str str)) str
  /\ e_p (escape_loop (-1) str (-1) conv_len out) = -1.
Proof.
  induction str as [| c str IH]; intros conv_len out;
    cbn [escape_loop c_str].
  - cbn. now rewrite app_nil_r.
  - destruct (Z.eqb_spec c 0).
    + cbn. now rewrite app_nil_r.
    + change (-1 =? 0) with false. change (-1 =? -1) with true.
      cbn [orb]. cbv iota.
      destruct (IH (if Z.of_nat (length out) >? conv_len - grow_thresh
                    then s32 (conv_len * 2) else conv_len)
                   (out ++ escape_unit c)) as (-> & -> & ->).
      cbn [flat_map length skipn]. now rewrite <- app_assoc.
Qed.

Lemma c_str_no_nul (s : list WCHAR) : Forall (fun c => c <> 0) (c_str s).
Proof.
  induction s as [| c s IH]; cbn [c_str]; [constructor |].
  destruct (Z.eqb_spec c 0); [constructor | now constructor].
Qed.

Lemma escape_unit_no_nul (c : WCHAR) :
  c <> 0 -> Forall (fun u => u <> 0) (escape_unit c).
Proof.
  intros Hc. unfold escape_unit.
  destruct (c =? 60); [repeat constructor; discriminate |].
  destruct (c =? 38); [repeat constructor; discriminate |].
  destruct (c =? 34); [repeat constructor; discriminate |].
  destruct (c =? 62); [repeat constructor; discriminate |].
  repeat constructor. exact Hc.
Qed.

Lemma flat_map_escape_no_nul (s : list WCHAR) :
  Forall (fun c => c <> 0) s ->
  Forall (fun c => c <> 0) (flat_map escape_unit s).
Proof.
  induction 1 as [| c s Hc _ IH]; cbn [flat_map]; [constructor |].
  apply Forall_app. split; [now apply escape_unit_no_nul | exact IH].
Qed.

(** What a NUL-terminated read makes of escaped units followed by the unit
    of the heap and the NUL. *)
Lemma c_str_escaped_memory (heap : WCHAR) (s : list WCHAR) :
  Forall (fun c => c <> 0) s ->
  c_str (flat_map escape_unit s ++ [heap; 0])
  = flat_map escape_unit s ++ (if heap =? 0 then [] else [heap]).
Proof.
  intros Hs. rewrite c_str_app by now apply flat_map_escape_no_nul.
  reflexivity.
Qed.

Lemma get_escaped_string_sentinel_memory (heap : WCHAR) (str : list WCHAR) :
  get_escaped_string heap str (-1)
  = (flat_map escape_unit (c_str str) ++ [heap; 0], -1).
Proof.
  unfold get_escaped_string, escape_run.
  change (-1 =? -1) with true. cbv iota.
  now destruct (escape_loop_sentinel str default_alloc []) as (-> & _ & _).
Qed.

(** X6: with the sentinel length -1 the escaper reads up to the first NUL
    whatever follows it and leaves the length at -1.  The memory it returns
    holds the escaped form of these units, then the unit the heap held at
    the cursor, then the NUL: the terminator is stored one unit too far.
    Read up to the NUL, as the caller does with the length -1, the result is
    the escaped form followed by the unit of the heap, unless that unit
    is 0. *)
Theorem get_escaped_string_sentinel (heap : WCHAR) (str : list WCHAR) :
  get_escaped_string heap str (-1)
    = (flat_map escape_unit (c_str str) ++ [heap; 0], -1)
  /\ escaped_consumed str (-1) = length (c_str str)
  /\ c_str (fst (get_escaped_string heap str (-1)))
     = flat_map escape_unit (c_str str) ++ (if heap =? 0 then [] else [heap]).
Proof.
  rewrite get_escaped_string_sentinel_memory. cbn [fst].
  split; [reflexivity | split].
  - unfold escaped_consumed, escape_run.
    change (-1 =? -1) with true. cbv iota.
    destruct (escape_loop_sentinel str default_alloc []) as (_ & -> & _).
    rewrite length_skipn. pose proof (c_str_length str). lia.
  - apply c_str_escaped_memory, c_str_no_nul.
Qed.

Lemma markup_free_escape_unit (c : WCHAR) :
  Forall markup_free (escape_unit c).
Proof.
  unfold escape_unit, markup_free.
  destruct (Z.eqb_spec c 60);
    [repeat constructor; discriminate |].
  destruct (Z.eqb_spec c 38); [repeat constructor; discriminate |].
  destruct (Z.eqb_spec c 34); [repeat constructor; discriminate |].
  destruct (Z.eqb_spec c 62); [repeat constructor; discriminate |].
  repeat constructor; assumption.
Qed.

Lemma markup_free_escape_loop (len : Z) (str : list WCHAR) :
  forall (p conv_len : Z) (out : list WCHAR),
  Forall markup_free out ->
  Forall markup_free (e_out (escape_loop len str p conv_len out)).
Proof.
  induction str as [| c str IH]; intros p conv_len out Hout;
    cbn [escape_loop]; [exact Hout |].
  destruct ((c =? 0) || (p =? 0)); [exact Hout |].
  apply IH. apply Forall_app. split; [exact Hout |].
  apply markup_free_escape_unit.
Qed.

Lemma s32_le (z : Z) : 0 <= z -> s32 z <= z.
Proof.
  intros Hz. unfold s32.
  pose proof (Z.mod_le (z + 2 ^ 31) (2 ^ 32)). lia.
Qed.

Lemma Forall_firstn_app {A : Type} (P : A -> Prop) (n : nat) (l more : list A) :
  (n <= length l)%nat -> Forall P l -> Forall P (firstn n (l ++ more)).
Proof.
  intros Hn Hl. rewrite firstn_app.
  replace (n - length l)%nat with 0%nat by lia.
  cbn [firstn]. rewrite app_nil_r.
  rewrite <- (firstn_skipn n l) in Hl. apply Forall_app in Hl. tauto.
Qed.

(** X7: the units the escaper stores hold no '<', no '>' and no double
    quote.  With a length passed in, these are the units the returned length
    counts, so the text the caller writes is free of markup.  With the
    sentinel -1 the caller reads up to the NUL, and that text is free of
    markup exactly when the unit the heap held at the cursor is. *)
Theorem get_escaped_string_markup_free (heap : WCHAR) (str : list WCHAR)
    (len : Z) :
  let r := get_escaped_string heap str len in
  (len <> -1 -> Forall markup_free (firstn (Z.to_nat (snd r)) (fst r)))
  /\ (len = -1 -> (Forall markup_free (c_str (fst r)) <-> markup_free heap)).
Proof.
  cbv zeta. split.
  - intros Hlen. unfold get_escaped_string. cbn [fst snd].
    destruct (Z.eqb_spec len (-1)); [contradiction |].
    apply Forall_firstn_app.
    + pose proof (s32_le (Z.of_nat (length (e_out (escape_run str len))))).
      lia.
    + unfold escape_run. apply markup_free_escape_loop. constructor.
  - intros ->. rewrite get_escaped_string_sentinel_memory. cbn [fst].
    rewrite c_str_escaped_memory by apply c_str_no_nul.
    assert (He : Forall markup_free (flat_map escape_unit (c_str str))).
    { pose proof (markup_free_escape_loop (-1) str (-1) default_alloc []
                    (Forall_nil _)) as Hm.
      now destruct (escape_loop_sentinel str default_alloc []) as (-> & _ & _)
        in Hm. }
    split.
    + intros Hall. apply Forall_app in Hall. destruct Hall as [_ Hheap].
      destruct (Z.eqb_spec heap 0) as [-> | _].
      * unfold markup_free. lia.
      * now inversion Hheap.
    + intros Hheap. apply Forall_app. split; [exact He |].
      destruct (heap =? 0); [constructor |].
      constructor; [exact Hheap | constructor].
Qed.

End MoreEscaperFacts.

Lemma get_escaped_string_markup_free_witness :
  Forall markup_free
    (firstn (Z.to_nat (snd (get_escaped_string 60 (W "a<b") 3)))
            (fst (get_escaped_string 60 (W "a<b") 3)))
  /\ ~ Forall markup_free (c_str (fst (get_escaped_string 60 (W "a<b") (-1))))
  /\ c_str (fst (get_escaped_string 60 (W "a<b") (-1))) = W "a&lt;b<".
Proof.
  split; [| split; [| reflexivity]].
  - apply (get_escaped_string_markup_free 60 (W "a<b") 3). discriminate.
  - intros Hall.
    apply (proj2 (get_escaped_string_markup_free 60 (W "a<b") (-1)) eq_refl)
      in Hall.
    destruct Hall as [Hlt _]. now apply Hlt.
Defined.

(** * Further properties of the writer *)

Section WriteDataFacts.

Lemma wchars_bytes_app (a b : list WCHAR) :
  wchars_bytes (a ++ b) = wchars_bytes a ++ wchars_bytes b.
Proof. unfold wchars_bytes. apply flat_map_app. Qed.

(** The bytes a write adds to the native buffer. *)
Lemma write_output_buffer_mode_utf16_data (b : output_buffer) (mode : Z)
    (src : LPCWSTR) (len : Z) :
  data (utf16 (write_output_buffer_mode b mode src len))
  = data (utf16 b)
    ++ (if negb (Z.land mode (Z.lor OutputBuffer_Native OutputBuffer_Both) =? 0)
        then wchars_bytes
               (firstn (Z.to_nat (if len =? -1 then strlenW (deref src) else len))
                  (deref src))
        else []).
Proof.
  unfold write_output_buffer_mode.
  set (b1 := if _ && (code_page b =? CP_UTF8) then _ else b).
  assert (H1 : utf16 b1 = utf16 b) by (subst b1; now destruct (_ && _)).
  destruct (negb (Z.land mode (Z.lor OutputBuffer_Native OutputBuffer_Both) =? 0));
    [| now rewrite H1, app_nil_r].
  destruct (Z.eqb_spec (if len =? -1 then strlenW (deref src) else len) 0)
    as [-> | Hn].
  - rewrite H1. cbn. now rewrite app_nil_r.
  - cbn [utf16 data]. now rewrite (proj1 (grow_buffer_data _ _)), H1.
Qed.

(** The bytes a write adds to the encoded buffer. *)
Lemma write_output_buffer_mode_encoded_data (b : output_buffer) (mode : Z)
    (src : LPCWSTR) (len : Z) :
  data (encoded (write_output_buffer_mode b mode src len))
  = data (encoded b)
    ++ (if negb (Z.land mode (Z.lor OutputBuffer_Encoded OutputBuffer_Both) =? 0)
           && (code_page b =? CP_UTF8)
        then
          let bytes := WideCharToMultiByte src len in
          firstn (Z.to_nat (if len =? -1
                            then Z.of_nat (length bytes) - 1
                            else Z.of_nat (length bytes))) bytes
        else []).
Proof.
  unfold write_output_buffer_mode.
  set (b1 := if _ && (code_page b =? CP_UTF8) then _ else b).
  assert (H1 : data (encoded b1)
               = data (encoded b)
                 ++ (if negb (Z.land mode
                                (Z.lor OutputBuffer_Encoded OutputBuffer_Both) =? 0)
                        && (code_page b =? CP_UTF8)
                     then
                       let bytes := WideCharToMultiByte src len in
                       firstn (Z.to_nat (if len =? -1
                                         then Z.of_nat (length bytes) - 1
                                         else Z.of_nat (length bytes))) bytes
                     else [])).
  { subst b1. destruct (_ && _); [| now rewrite app_nil_r].
    cbn [encoded data]. now rewrite (proj1 (grow_buffer_data _ _)). }
  destruct (negb (Z.land mode (Z.lor OutputBuffer_Native OutputBuffer_Both) =? 0));
    [| exact H1].
  destruct ((if len =? -1 then strlenW (deref src) else len) =? 0); exact H1.
Qed.

(** The bytes the conversion keeps, for a text and a length within it. *)
Lemma encoded_bytes_counted (l : list WCHAR) (len : Z) :
  0 <= len ->
  (let bytes := WideCharToMultiByte (Some l) len in
   firstn (Z.to_nat (if len =? -1
                     then Z.of_nat (length bytes) - 1
                     else Z.of_nat (length bytes))) bytes)
  = utf8_encode (firstn (Z.to_nat len) l).
Proof.
  intros Hlen. cbn zeta. cbn [WideCharToMultiByte].
  destruct (Z.ltb_spec len 0); [lia |].
  destruct (Z.eqb_spec len (-1)); [lia |].
  now rewrite Nat2Z.id, firstn_all.
Qed.

Lemma encoded_bytes_sentinel (l : list WCHAR) :
  (let bytes := WideCharToMultiByte (Some l) (-1) in
   firstn (Z.to_nat (if -1 =? -1
                     then Z.of_nat (length bytes) - 1
                     else Z.of_nat (length bytes))) bytes)
  = utf8_encode (c_str l).
Proof.
  cbn zeta. cbn [WideCharToMultiByte].
  change (-1 <? 0) with true. change (-1 =? -1) with true. cbv iota.
  rewrite length_app. cbn [length].
  replace (Z.to_nat (Z.of_nat (length (utf8_encode (c_str l)) + 1) - 1))
    with (length (utf8_encode (c_str l)) + 0)%nat by lia.
  rewrite firstn_app_2. cbn. apply app_nil_r.
Qed.

End WriteDataFacts.

(** The tests of the mode bits, evaluated. *)
Ltac mode_bits :=
  change (negb (Z.land OutputBuffer_Both
                  (Z.lor OutputBuffer_Native OutputBuffer_Both) =? 0))
    with true in *;
  change (negb (Z.land OutputBuffer_Both
                  (Z.lor OutputBuffer_Encoded OutputBuffer_Both) =? 0))
    with true in *;
  change (negb (Z.land OutputBuffer_Native
                  (Z.lor OutputBuffer_Native OutputBuffer_Both) =? 0))
    with true in *;
  change (negb (Z.land OutputBuffer_Native
                  (Z.lor OutputBuffer_Encoded OutputBuffer_Both) =? 0))
    with false in *;
  change (negb (Z.land OutputBuffer_Encoded
                  (Z.lor OutputBuffer_Native OutputBuffer_Both) =? 0))
    with false in *;
  change (negb (Z.land OutputBuffer_Encoded
                  (Z.lor OutputBuffer_Encoded OutputBuffer_Both) =? 0))
    with true in *.

Section PrologFacts.

Context {S : Type} `{IStream S}.

Implicit Types This : mxwriter S.

Lemma firstn_strlenW (l : list WCHAR) :
  firstn (Z.to_nat (strlenW l)) l = c_str l.
Proof. unfold strlenW. rewrite Nat2Z.id. apply firstn_c_str. Qed.

(** X8: whatever the active encoding, the declaration written to the
    native buffer carries the stored version up to its NUL, names the
    encoding UTF-16, and says standalone yes exactly when the property is
    VARIANT_TRUE. *)
Theorem write_prolog_buffer_native This (v : list WCHAR) :
  version This = Some v ->
  data (utf16 (buffer (write_prolog_buffer This)))
  = data (utf16 (buffer This))
    ++ wchars_bytes
         (prolog_units (c_str v)
            (get_prop This MXWriter_Standalone =? VARIANT_TRUE) utf16W).
Proof.
  intros Hv. unfold write_prolog_buffer, write_output_buffer, prolog_units.
  cbn [buffer set_buffer]. rewrite Hv.
  destruct (get_prop This MXWriter_Standalone =? VARIANT_TRUE);
    rewrite !write_output_buffer_mode_utf16_data;
    cbn [deref];
    mode_bits; change (-1 =? -1) with true; cbv iota;
    rewrite firstn_strlenW, app_nil_r;
    rewrite <- !app_assoc, <- !wchars_bytes_app;
    reflexivity.
Qed.

Lemma utf8_encode_encoding_name (e : xmlCharEncoding) :
  utf8_encode (c_str (get_encoding_name e)) = get_encoding_name e.
Proof. destruct e; reflexivity. Qed.

(** X9: with the UTF-8 code page, the declaration written to the encoded
    buffer is the UTF-8 form of the same text, except that it names the
    active encoding. *)
Theorem write_prolog_buffer_encoded This (v : list WCHAR) :
  version This = Some v ->
  code_page (buffer This) = CP_UTF8 ->
  data (encoded (buffer (write_prolog_buffer This)))
  = data (encoded (buffer This))
    ++ W "<?xml version=" ++ dquote ++ utf8_encode (c_str v) ++ dquote
    ++ W " encoding=" ++ dquote ++ get_encoding_name (encoding This) ++ dquote
    ++ W " standalone=" ++ dquote
    ++ (if get_prop This MXWriter_Standalone =? VARIANT_TRUE
        then W "yes" else W "no")
    ++ dquote ++ W "?>" ++ [13; 10].
Proof.
  intros Hv Hcp. unfold write_prolog_buffer, write_output_buffer.
  cbn [buffer set_buffer]. rewrite Hv.
  destruct (get_prop This MXWriter_Standalone =? VARIANT_TRUE);
    rewrite !write_output_buffer_mode_encoded_data;
    rewrite ?(proj2 (proj2 (write_output_buffer_mode_appended _ _ _ _)));
    rewrite Hcp, Z.eqb_refl; mode_bits; cbn [andb]; cbv iota;
    rewrite !encoded_bytes_sentinel, utf8_encode_encoding_name;
    rewrite <- !app_assoc; reflexivity.
Qed.

End PrologFacts.

Lemma write_prolog_buffer_native_witness :
  data (utf16 (buffer (write_prolog_buffer Example.fresh)))
  = wchars_bytes Example.prolog_text.
Proof.
  rewrite (write_prolog_buffer_native Example.fresh (W "1.0") eq_refl).
  reflexivity.
Defined.

Lemma write_prolog_buffer_encoded_witness :
  let utf8 := snd (mxwriter_put_encoding Example.fresh (W "UTF-8")) in
  data (encoded (buffer (write_prolog_buffer utf8)))
  = W "<?xml version=" ++ dquote ++ W "1.0" ++ dquote ++ W " encoding="
    ++ dquote ++ W "UTF-8" ++ dquote ++ W " standalone=" ++ dquote ++ W "no"
    ++ dquote ++ W "?>" ++ [13; 10].
Proof.
  cbv zeta.
  rewrite (write_prolog_buffer_encoded
             (snd (mxwriter_put_encoding Example.fresh (W "UTF-8")))
             (W "1.0") eq_refl eq_refl).
  reflexivity.
Defined.

Section ElementFacts.

Context {S : Type} `{IStream S}.

Implicit Types This : mxwriter S.

(** The native bytes of a write with a length that is not the sentinel. *)
Lemma write_output_buffer_utf16_units (b : output_buffer) (src : LPCWSTR)
    (len : Z) :
  len <> -1 ->
  data (utf16 (write_output_buffer b src len))
  = data (utf16 b) ++ wchars_bytes (firstn (Z.to_nat len) (deref src)).
Proof.
  intros Hlen. unfold write_output_buffer.
  rewrite write_output_buffer_mode_utf16_data. mode_bits.
  now destruct (Z.eqb_spec len (-1)).
Qed.

Lemma close_element_starttag_data This :
  data (utf16 (buffer (close_element_starttag This)))
  = data (utf16 (buffer This))
    ++ wchars_bytes (match element This with Some _ => W ">" | None => [] end).
Proof.
  unfold close_element_starttag. destruct (element This).
  - cbn [buffer set_buffer].
    now rewrite write_output_buffer_utf16_units by discriminate.
  - cbn. now rewrite app_nil_r.
Qed.

Lemma firstn_length_app {A : Type} (l more : list A) :
  firstn (length l) (l ++ more) = l.
Proof.
  rewrite firstn_app, Nat.sub_diag, firstn_all. cbn [firstn].
  apply app_nil_r.
Qed.

(** The escaped form of a value passed with its own length. *)
Lemma get_escaped_string_value (heap : WCHAR) (v : list WCHAR) :
  6 * Z.of_nat (length v) <= INT_MAX ->
  get_escaped_string heap v (Z.of_nat (length v))
  = (flat_map escape_unit (c_str v) ++ [heap; 0],
     Z.of_nat (length (flat_map escape_unit (c_str v)))).
Proof.
  intros Hmax. unfold get_escaped_string.
  destruct (escape_run_counted v (Z.of_nat (length v))) as [-> _];
    [unfold INT_MAX in *; lia |].
  rewrite Nat2Z.id, Nat.min_r by apply c_str_length.
  rewrite firstn_c_str.
  destruct (Z.eqb_spec (Z.of_nat (length v)) (-1)); [lia |].
  rewrite s32_small; [reflexivity |].
  pose proof (flat_map_escape_bound (c_str v)).
  pose proof (c_str_length v). unfold INT_MAX in *. units_lia.
Qed.

(** The attribute loop over a list-backed attribute object, started at the
    index where the rest of the list begins. *)
Lemma write_attributes_list (heap : Z -> WCHAR)
    (l : list (list WCHAR * list WCHAR)) :
  forall (pre : list (list WCHAR * list WCHAR)) (b : output_buffer),
  Forall (fun a => 6 * Z.of_nat (length (snd a)) <= INT_MAX) l ->
  fst (write_attributes heap (Example.attrs_of_list (pre ++ l)) (length l)
         (Z.of_nat (length pre)) b) = S_OK
  /\ data (utf16 (snd (write_attributes heap (Example.attrs_of_list (pre ++ l))
                         (length l) (Z.of_nat (length pre)) b)))
     = data (utf16 b) ++ wchars_bytes (attributes_units l).
Proof.
  induction l as [| [n v] l IH]; intros pre b Hl.
  - cbn. now rewrite app_nil_r.
  - inversion Hl as [| ? ? Hv Hl']; subst. cbn [snd] in Hv.
    cbn [length write_attributes Example.attrs_of_list getQName getValue].
    rewrite Nat2Z.id, nth_error_app2, Nat.sub_diag by lia.
    cbn [nth_error]. change (FAILED S_OK) with false. cbv iota. cbn [deref].
    rewrite (get_escaped_string_value (heap (Z.of_nat (length pre))) v Hv).
    specialize (IH (pre ++ [(n, v)])).
    rewrite <- app_assoc in IH. cbn [app] in IH.
    rewrite length_app in IH. cbn [length] in IH.
    replace (Z.of_nat (length pre + 1)) with (Z.of_nat (length pre) + 1) in IH
      by lia.
    match goal with
    | |- context [write_attributes _ _ _ _ ?b'] =>
        destruct (IH b' Hl') as [Hhr Hdata]
    end.
    split; [exact Hhr |]. rewrite Hdata.
    rewrite !write_output_buffer_utf16_units by lia.
    cbn [deref]. rewrite !Nat2Z.id, firstn_length_app, !firstn_all.
    unfold attributes_units, attribute_units. cbn [flat_map fst snd].
    rewrite !wchars_bytes_app, <- !app_assoc. reflexivity.
Qed.

(** X10: for an attribute object backed by a list, an accepted
    startElement closes the pending start tag, if any, and writes '<', the
    first nQName units of the name and, for each attribute in order, a
    space, its name, '=' and its value between double quotes, the value in
    its escaped form up to its first NUL; it leaves the element pending
    under the name it wrote. *)
Theorem startElement_writes_attributes This (ns ln : LPCWSTR) (nns nln : Z)
    (q : list WCHAR) (nq : Z) (l : list (list WCHAR * list WCHAR))
    (heap : Z -> WCHAR) :
  rejected This ns ln (Some q) = false ->
  0 <= nq <= Z.of_nat (length q) ->
  Forall (fun a => 6 * Z.of_nat (length (snd a)) <= INT_MAX) l ->
  let r := mxwriter_saxcontent_startElement This ns nns ln nln (Some q) nq
             (Some (Example.attrs_of_list l)) heap in
  fst r = S_OK
  /\ element (snd r) = Some (firstn (Z.to_nat nq) q)
  /\ data (utf16 (buffer (snd r)))
     = data (utf16 (buffer This))
       ++ wchars_bytes
            ((match element This with Some _ => W ">" | None => [] end)
             ++ W "<" ++ firstn (Z.to_nat nq) q ++ attributes_units l).
Proof.
  intros Hrej Hnq Hl. cbn zeta.
  unfold mxwriter_saxcontent_startElement. unfold rejected in Hrej.
  rewrite Hrej. cbn [Example.attrs_of_list getLength].
  change (FAILED S_OK) with false. cbv iota.
  rewrite Nat2Z.id.
  match goal with
  | |- context [write_attributes _ _ _ 0 ?b'] =>
      destruct (write_attributes_list heap l [] b' Hl) as [Hhr Hdata];
      cbn [app length Z.of_nat] in Hhr, Hdata;
      destruct (write_attributes heap (Example.attrs_of_list l) (length l) 0 b')
        as [hr b'']
  end.
  cbn [fst snd] in *. frame_simpl. split; [exact Hhr |].
  split; [reflexivity |].
  rewrite Hdata, !write_output_buffer_utf16_units by lia.
  frame_simpl. rewrite close_element_starttag_data. cbn [deref].
  rewrite !wchars_bytes_app, <- !app_assoc. reflexivity.
Qed.

Lemma rejected_frame This This' ns ln q :
  class_version This' = class_version This ->
  rejected This' ns ln q = rejected This ns ln q.
Proof. unfold rejected. now intros ->. Qed.

Lemma startElement_element This ns nns ln nln (q : list WCHAR) nq attr heap :
  rejected This ns ln (Some q) = false ->
  let r := snd (mxwriter_saxcontent_startElement This ns nns ln nln (Some q)
                  nq attr heap) in
  element r = Some (firstn (Z.to_nat nq) q)
  /\ class_version r = class_version This.
Proof.
  intros Hrej. cbn zeta. unfold mxwriter_saxcontent_startElement.
  unfold rejected in Hrej. rewrite Hrej.
  destruct (close_element_starttag_appended This) as (b & -> & _).
  destruct attr as [a |]; [| now split].
  destruct (getLength a) as [hr len]. destruct (FAILED hr); [now split |].
  destruct (write_attributes heap a (Z.to_nat len) 0 _) as [hr' b']. now split.
Qed.

(** X11: an endElement that follows an accepted startElement at once, with
    the same name and length, writes the self-closing '/>' and clears the
    pending tag, whatever the attributes were. *)
Theorem startElement_endElement_self_closes This (ns ln : LPCWSTR)
    (nns nln : Z) (q : list WCHAR) (nq : Z) (attr : option ISAXAttributes)
    (heap : Z -> WCHAR) :
  rejected This ns ln (Some q) = false ->
  0 <= nq <= Z.of_nat (length q) ->
  let opened := snd (mxwriter_saxcontent_startElement This ns nns ln nln
                       (Some q) nq attr heap) in
  let r := mxwriter_saxcontent_endElement opened ns nns ln nln (Some q) nq in
  fst r = S_OK
  /\ element (snd r) = None
  /\ data (utf16 (buffer (snd r)))
     = data (utf16 (buffer opened)) ++ wchars_bytes (W "/>").
Proof.
  intros Hrej Hnq opened r.
  destruct (startElement_element This ns nns ln nln q nq attr heap Hrej)
    as [He Hv]. fold opened in He, Hv.
  subst r. unfold mxwriter_saxcontent_endElement.
  pose proof (rejected_frame This opened ns ln (Some q) Hv) as Hr.
  unfold rejected in Hr, Hrej. rewrite Hr, Hrej, He, strncmpW_firstn.
  cbn [Z.eqb fst snd]. frame_simpl.
  split; [reflexivity |]. split; [reflexivity |].
  now rewrite write_output_buffer_utf16_units by discriminate.
Qed.

(** X12: an accepted characters call closes the pending start tag even for
    a text of length 0, so that an endElement after it writes the full end
    tag and never the self-closing form. *)
Theorem characters_then_endElement This (text : list WCHAR) (nchars : Z)
    (ns ln q : LPCWSTR) (nns nln nq : Z) :
  rejected This ns ln q = false ->
  text_ok (Some text) nchars ->
  text_ok q nq -> 0 <= nq ->
  let filled := snd (mxwriter_saxcontent_characters This (Some text) nchars) in
  let r := mxwriter_saxcontent_endElement filled ns nns ln nln q nq in
  element filled = None
  /\ (nchars = 0 ->
      data (utf16 (buffer filled))
      = data (utf16 (buffer This))
        ++ wchars_bytes
             (match element This with Some _ => W ">" | None => [] end))
  /\ fst r = S_OK
  /\ data (utf16 (buffer (snd r)))
     = data (utf16 (buffer filled))
       ++ wchars_bytes (W "</" ++ firstn (Z.to_nat nq) (deref q) ++ W ">").
Proof.
  intros Hrej Htext Hq Hnq filled r.
  assert (Hf : element filled = None /\ class_version filled = class_version This).
  { subst filled. unfold mxwriter_saxcontent_characters.
    destruct (close_element_starttag_appended This) as (b & -> & _).
    now destruct (negb (nchars =? 0)). }
  destruct Hf as [He Hv]. split; [exact He |]. split.
  - intros ->. subst filled. unfold mxwriter_saxcontent_characters.
    cbn [Z.eqb negb snd]. frame_simpl. apply close_element_starttag_data.
  - subst r. unfold mxwriter_saxcontent_endElement.
    pose proof (rejected_frame This filled ns ln q Hv) as Hr.
    unfold rejected in Hr, Hrej. rewrite Hr, Hrej, He.
    cbn [fst snd]. frame_simpl. split; [reflexivity |].
    rewrite !write_output_buffer_utf16_units by lia.
    cbn [deref]. rewrite !wchars_bytes_app, <- !app_assoc. reflexivity.
Qed.

(** The bytes a write with the sentinel length adds to the native buffer:
    the units before the first NUL. *)
Lemma write_output_buffer_utf16_sentinel (b : output_buffer) (l : list WCHAR) :
  data (utf16 (write_output_buffer b (Some l) (-1)))
  = data (utf16 b) ++ wchars_bytes (c_str l).
Proof.
  unfold write_output_buffer.
  rewrite write_output_buffer_mode_utf16_data. mode_bits.
  change (-1 =? -1) with true. cbv iota. cbn [deref].
  now rewrite firstn_strlenW.
Qed.

(** X23: an attribute value that comes with the length -1 is escaped up to
    its first NUL, and the escaped text is written as a NUL-terminated
    string.  Its terminator lies one unit too far, so the unit the heap held
    at the cursor of the escape buffer is written after the value, inside
    the quotes, unless that unit is 0.  Here for an attribute object with
    one attribute; the names come with lengths that lie within them. *)
Theorem startElement_sentinel_value This (ns ln : LPCWSTR) (nns nln : Z)
    (q : list WCHAR) (nq : Z) (a : ISAXAttributes) (name value : list WCHAR)
    (nname : Z) (heap : Z -> WCHAR) :
  rejected This ns ln (Some q) = false ->
  0 <= nq <= Z.of_nat (length q) ->
  0 <= nname <= Z.of_nat (length name) ->
  getLength a = (S_OK, 1) ->
  getQName a 0 = (S_OK, Some name, nname) ->
  getValue a 0 = (S_OK, Some value, -1) ->
  let r := mxwriter_saxcontent_startElement This ns nns ln nln (Some q) nq
             (Some a) heap in
  fst r = S_OK
  /\ data (utf16 (buffer (snd r)))
     = data (utf16 (buffer This))
       ++ wchars_bytes
            ((match element This with Some _ => W ">" | None => [] end)
             ++ W "<" ++ firstn (Z.to_nat nq) q
             ++ W " " ++ firstn (Z.to_nat nname) name ++ W "=" ++ dquote
             ++ flat_map escape_unit (c_str value)
             ++ (if heap 0 =? 0 then [] else [heap 0])
             ++ dquote).
Proof.
  intros Hrej Hnq Hnname Hlen Hname Hvalue. cbn zeta.
  unfold mxwriter_saxcontent_startElement. unfold rejected in Hrej.
  rewrite Hrej, Hlen. change (FAILED S_OK) with false. cbv iota.
  change (Z.to_nat 1) with 1%nat. cbn [write_attributes].
  rewrite Hname, Hvalue. change (FAILED S_OK) with false. cbv iota.
  cbn [deref]. rewrite get_escaped_string_sentinel_memory.
  frame_simpl. split; [reflexivity |].
  rewrite write_output_buffer_utf16_units by discriminate.
  rewrite write_output_buffer_utf16_sentinel.
  rewrite c_str_escaped_memory by apply c_str_no_nul.
  rewrite !write_output_buffer_utf16_units by lia.
  rewrite close_element_starttag_data. cbn [deref].
  rewrite !wchars_bytes_app, <- !app_assoc. reflexivity.
Qed.

End ElementFacts.

Lemma startElement_sentinel_value_witness :
  let attr := {| getLength := (S_OK, 1);
                 getQName := fun _ => (S_OK, Some (W "t"), 1);
                 getValue := fun _ => (S_OK, Some (W "x<y"), -1) |} in
  utf16_text
    (buffer (snd (mxwriter_saxcontent_startElement Example.fresh Example.uri 0
                    (Some (W "a")) 1 (Some (W "a")) 1 (Some attr)
                    (Example.heap_of 60))))
  = W "<a t=" ++ dquote ++ W "x&lt;y<" ++ dquote.
Proof.
  cbv zeta.
  destruct (startElement_sentinel_value Example.fresh Example.uri
              (Some (W "a")) 0 1 (W "a") 1
              {| getLength := (S_OK, 1);
                 getQName := fun _ => (S_OK, Some (W "t"), 1);
                 getValue := fun _ => (S_OK, Some (W "x<y"), -1) |}
              (W "t") (W "x<y") 1 (Example.heap_of 60))
    as (_ & Hd).
  - reflexivity.
  - cbn. lia.
  - cbn. lia.
  - reflexivity.
  - reflexivity.
  - reflexivity.
  - unfold utf16_text. rewrite Hd. reflexivity.
Defined.

Lemma startElement_writes_attributes_witness :
  utf16_text
    (buffer (snd (mxwriter_saxcontent_startElement Example.fresh Example.uri 0
                    (Some (W "a")) 1 (Some (W "a")) 1
                    (Some (Example.attrs_of_list [(W "t", W "x<y&z")]))
                    (Example.heap_of 60))))
  = W "<a t=" ++ dquote ++ W "x&lt;y&amp;z" ++ dquote.
Proof.
  destruct (startElement_writes_attributes Example.fresh Example.uri
              (Some (W "a")) 0 1 (W "a") 1 [(W "t", W "x<y&z")]
              (Example.heap_of 60))
    as (_ & _ & Hd).
  - reflexivity.
  - cbn. lia.
  - repeat constructor. vm_compute. discriminate.
  - unfold utf16_text. rewrite Hd. reflexivity.
Defined.

Lemma startElement_endElement_self_closes_witness :
  utf16_text
    (buffer (snd (mxwriter_saxcontent_endElement
                    (snd (mxwriter_saxcontent_startElement Example.fresh
                            Example.uri 0 (Some (W "br")) 2 (Some (W "br")) 2
                            None (Example.heap_of 0)))
                    Example.uri 0 (Some (W "br")) 2 (Some (W "br")) 2)))
  = W "<br/>".
Proof.
  destruct (startElement_endElement_self_closes Example.fresh Example.uri
              (Some (W "br")) 0 2 (W "br") 2 None (Example.heap_of 0))
    as (_ & _ & Hd).
  - reflexivity.
  - cbn. lia.
  - unfold utf16_text. rewrite Hd. reflexivity.
Defined.

Lemma characters_then_endElement_witness :
  let opened := snd (mxwriter_saxcontent_startElement Example.fresh
                       Example.uri 0 (Some (W "p")) 1 (Some (W "p")) 1 None
                       (Example.heap_of 0)) in
  utf16_text
    (buffer (snd (mxwriter_saxcontent_endElement
                    (snd (mxwriter_saxcontent_characters opened (Some []) 0))
                    Example.uri 0 (Some (W "p")) 1 (Some (W "p")) 1)))
  = W "<p></p>".
Proof.
  cbv zeta.
  destruct (characters_then_endElement
              (snd (mxwriter_saxcontent_startElement Example.fresh
                      Example.uri 0 (Some (W "p")) 1 (Some (W "p")) 1 None
                      (Example.heap_of 0)))
              [] 0 Example.uri (Some (W "p")) (Some (W "p")) 0 1 1)
    as (_ & H0 & _ & Hd).
  - reflexivity.
  - right. cbn. lia.
  - right. cbn. lia.
  - lia.
  - unfold utf16_text. rewrite Hd, (H0 eq_refl). reflexivity.
Defined.

Section DocumentFacts.

Context {S : Type} `{IStream S}.

Implicit Types This : mxwriter S.

(** X13: when the declaration is not omitted and a sink is attached,
    startDocument hands the two bytes of the byte-order mark straight to the
    sink, exactly when the encoding is UTF-16LE and the byte-order-mark
    property is VARIANT_TRUE; the mark is not counted in the sink offset and
    does not enter the buffers, which receive the declaration only. *)
Theorem startDocument_byte_order_mark This (d : S) :
  (get_prop This MXWriter_OmitXmlDecl =? VARIANT_TRUE) = false ->
  dest This = Some d ->
  let start := if prop_changed This
               then set_prop_changed (reset_output_buffer This) false
               else This in
  let r := mxwriter_saxcontent_startDocument This in
  fst r = S_OK
  /\ dest (snd r)
     = Some (if is_UTF16LE (encoding This)
                && (get_prop This MXWriter_BOM =? VARIANT_TRUE)
             then snd (IStream_Write d utf16BOM) else d)
  /\ dest_written (snd r) = (if prop_changed This then 0 else dest_written This)
  /\ buffer (snd r) = buffer (write_prolog_buffer start).
Proof.
  intros Homit Hd start r. subst r. unfold mxwriter_saxcontent_startDocument.
  fold start.
  assert (Hs : get_prop start MXWriter_OmitXmlDecl
               = get_prop This MXWriter_OmitXmlDecl
               /\ get_prop start MXWriter_BOM = get_prop This MXWriter_BOM
               /\ dest start = Some d /\ encoding start = encoding This
               /\ dest_written start
                  = (if prop_changed This then 0 else dest_written This)).
  { subst start. destruct (prop_changed This); repeat split; assumption. }
  destruct Hs as (Ho & Hb & Hds & He & Hw). rewrite Ho, Homit.
  destruct (write_prolog_buffer_appended start) as (b & Hp & _).
  rewrite Hp. frame_simpl. rewrite Hds, He.
  replace (get_prop (set_buffer start b) MXWriter_BOM)
    with (get_prop This MXWriter_BOM) by (now rewrite <- Hb).
  destruct (is_UTF16LE (encoding This)
            && (get_prop This MXWriter_BOM =? VARIANT_TRUE));
    frame_simpl; repeat split; assumption.
Qed.

Lemma flush_prop_changed This :
  prop_changed (snd (flush_output_buffer This)) = prop_changed This.
Proof.
  unfold flush_output_buffer, write_data_to_stream.
  destruct (close_element_starttag_appended This) as (b & -> & _).
  frame_simpl. destruct (dest This) as [d |]; [| reflexivity].
  destruct (sanity_check_fails _); [reflexivity |].
  destruct (_ && _); [reflexivity |].
  destruct (IStream_Write d _) as [[hr taken] d']. now destruct (FAILED hr).
Qed.

(** X14: endDocument clears the changed flag, so a property set before it
    does not make the next startDocument reset: that startDocument only
    appends to what the buffers hold and keeps the sink offset. *)
Theorem endDocument_forgets_property_change This (property : MXWRITER_PROPS)
    (value : VARIANT_BOOL) :
  let ended := snd (mxwriter_saxcontent_endDocument
                      (snd (writer_set_property This property value))) in
  let next := snd (mxwriter_saxcontent_startDocument ended) in
  prop_changed (snd (writer_set_property This property value)) = true
  /\ prop_changed ended = false
  /\ appended (buffer ended) (buffer next)
  /\ dest_written next = dest_written ended.
Proof.
  cbn zeta. split; [reflexivity |].
  assert (Hc : prop_changed
                 (snd (mxwriter_saxcontent_endDocument
                         (snd (writer_set_property This property value))))
               = false).
  { unfold mxwriter_saxcontent_endDocument. now rewrite flush_prop_changed. }
  split; [exact Hc |].
  destruct (startDocument_unchanged_appends _ Hc) as (Hd & _ & Ha).
  split; [exact Ha | exact Hd].
Qed.

(** X15: put_output flushes first; if the flush fails nothing else
    happens; an empty destination or a stream then discards what the
    buffers hold, zeroes the sink offset and binds the new destination,
    which has received nothing; any other destination is refused with
    E_NOTIMPL after the flush, and the old destination stays. *)
Theorem put_output_rebinds This (dst : VARIANT S) :
  let flushed := snd (flush_output_buffer This) in
  let r := mxwriter_put_output This dst in
  (FAILED (fst (flush_output_buffer This)) = true ->
   r = flush_output_buffer This)
  /\ (FAILED (fst (flush_output_buffer This)) = false ->
      match dst with
      | VT_EMPTY | VT_UNKNOWN_stream _ =>
          fst r = S_OK
          /\ dest (snd r) = match dst with
                            | VT_UNKNOWN_stream stream => Some stream
                            | _ => None
                            end
          /\ utf16 (buffer (snd r)) = init_encoded_buffer
          /\ encoded (buffer (snd r)) = init_encoded_buffer
          /\ dest_written (snd r) = 0
          /\ element (snd r) = None
          /\ encoding (snd r) = encoding This
      | _ => r = (E_NOTIMPL, flushed)
      end).
Proof.
  cbn zeta. unfold mxwriter_put_output.
  destruct (flush_frame This) as (He & Henc & _).
  destruct (flush_output_buffer This) as [hr T]. cbn [fst snd] in *.
  split; intros Hf; rewrite Hf; [reflexivity |].
  destruct dst; cbn [fst snd]; try reflexivity;
    unfold reset_output_buffer, close_output_buffer; frame_simpl;
    repeat split; assumption.
Qed.

Lemma set_dest_written_same This :
  set_dest_written This (dest_written This) = This.
Proof. now destruct This. Qed.

Lemma pending_bytes_all This :
  offset_ok This -> buffers_sound This -> fits (buffer This) ->
  pending_bytes This
  = skipn (Z.to_nat (dest_written This)) (data (stream_buffer This))
  /\ Z.of_nat (length (pending_bytes This))
     = written (stream_buffer This) - dest_written This
  /\ written (stream_buffer This) < 2 ^ 32.
Proof.
  unfold offset_ok, buffers_sound, sound, counts_bytes, fits, pending_bytes,
    stream_buffer.
  intros Hok [Hu He] [Fu Fe].
  destruct (negb (is_UTF16LE (encoding This)));
    (rewrite u32_small by lia);
    (rewrite firstn_all2 by (rewrite length_skipn; lia));
    rewrite length_skipn; repeat split; lia.
Qed.

(** X16: in a state without a pending tag, a flush offers the sink exactly
    the bytes of the chosen buffer behind the sink offset; when the sink
    takes them all, the offset equals the written count afterwards and
    nothing is left to deliver. *)
Theorem flush_delivers_all This (d d' : S) (hr : HRESULT) :
  dest This = Some d -> element This = None ->
  offset_ok This -> buffers_sound This -> fits (buffer This) ->
  dest_written This < written (stream_buffer This)
    \/ is_UTF8 (encoding This) = true ->
  IStream_Write d (pending_bytes This)
    = (hr, Z.of_nat (length (pending_bytes This)), d') ->
  FAILED hr = false ->
  pending_bytes This
  = skipn (Z.to_nat (dest_written This)) (data (stream_buffer This))
  /\ flush_output_buffer This
     = (hr, set_dest_written (set_dest This (Some d'))
              (written (stream_buffer This)))
  /\ pending_bytes (snd (flush_output_buffer This)) = [].
Proof.
  intros Hd He Hok Hs Hf Hgo Hw Hhr.
  destruct (pending_bytes_all This Hok Hs Hf) as (Hp & Hl & Hlt).
  split; [exact Hp |].
  assert (Hflush : flush_output_buffer This
                   = (hr, set_dest_written (set_dest This (Some d'))
                            (written (stream_buffer This)))).
  { rewrite (flush_idle This He).
    unfold write_data_to_stream, sanity_check_fails. rewrite Hd.
    destruct Hok as [H0 Hle].
    destruct (Z.gtb_spec (dest_written This) (written (stream_buffer This)));
      [lia |].
    replace ((dest_written This =? written (stream_buffer This))
             && negb (is_UTF8 (encoding This))) with false.
    - rewrite Hw, Hhr, Hl. f_equal. f_equal. rewrite u32_small; lia.
    - symmetry. destruct Hgo as [Hlt' | ->]; [| apply andb_false_r].
      destruct (Z.eqb_spec (dest_written This) (written (stream_buffer This)));
        [lia | reflexivity]. }
  split; [exact Hflush |]. rewrite Hflush. cbn [snd].
  unfold pending_bytes.
  change (stream_buffer (set_dest_written (set_dest This (Some d')) _))
    with (stream_buffer This).
  cbn [dest_written set_dest_written]. now rewrite Z.sub_diag.
Qed.

(** X17: when the Write call of a flush fails, the flush returns its
    HRESULT and leaves the sink offset where it was, whatever count the
    stream reports, so the next flush offers the same bytes again. *)
Theorem flush_failed_write_keeps_offset This (d d' : S) (hr : HRESULT)
    (taken : Z) :
  dest This = Some d -> element This = None ->
  sanity_check_fails This = false ->
  dest_written This <> written (stream_buffer This)
    \/ is_UTF8 (encoding This) = true ->
  IStream_Write d (pending_bytes This) = (hr, taken, d') ->
  FAILED hr = true ->
  flush_output_buffer This = (hr, set_dest This (Some d'))
  /\ dest_written (snd (flush_output_buffer This)) = dest_written This
  /\ pending_bytes (snd (flush_output_buffer This)) = pending_bytes This.
Proof.
  intros Hd He Hsane Hgo Hw Hhr.
  assert (Hflush : flush_output_buffer This = (hr, set_dest This (Some d'))).
  { rewrite (flush_idle This He). unfold write_data_to_stream.
    rewrite Hd, Hsane.
    replace ((dest_written This =? written (stream_buffer This))
             && negb (is_UTF8 (encoding This))) with false.
    - now rewrite Hw, Hhr.
    - symmetry. destruct Hgo as [Hne | ->]; [| apply andb_false_r].
      now destruct (Z.eqb_spec (dest_written This)
                      (written (stream_buffer This))). }
  rewrite Hflush. repeat split.
Qed.

(** X18: after a successful put_encoding, get_encoding answers with the
    name that was set, read up to its NUL. *)
Theorem put_encoding_get_encoding This (name : list WCHAR) :
  fst (mxwriter_put_encoding This name) = S_OK ->
  mxwriter_get_encoding (snd (mxwriter_put_encoding This name))
  = (S_OK, Some (c_str name)).
Proof.
  unfold mxwriter_put_encoding, mxwriter_get_encoding.
  destruct ((strcmpW name utf16W =? 0) || (strcmpW name utf8W =? 0)) eqn:Hg;
    [| discriminate].
  apply put_encoding_gate in Hg.
  destruct (flush_output_buffer This) as [hr T].
  destruct (FAILED hr) eqn:Hf.
  - cbn [fst]. intros ->. discriminate.
  - intros _. cbn [snd]. unfold reset_output_buffer, close_output_buffer.
    frame_simpl. unfold heap_strdupWtoA.
    destruct Hg as [-> | ->]; reflexivity.
Qed.

End DocumentFacts.

Lemma startDocument_byte_order_mark_witness :
  let bound := snd (mxwriter_put_output Example.fresh (VT_UNKNOWN_stream [])) in
  dest (snd (mxwriter_saxcontent_startDocument bound)) = Some [[255; 254]]
  /\ dest_written (snd (mxwriter_saxcontent_startDocument bound)) = 0.
Proof.
  cbv zeta.
  destruct (startDocument_byte_order_mark
              (snd (mxwriter_put_output Example.fresh (VT_UNKNOWN_stream [])))
              [] eq_refl eq_refl) as (_ & Hd & Hw & _).
  rewrite Hd, Hw. split; reflexivity.
Defined.

Lemma flush_delivers_all_witness :
  pending_bytes Example.buffered = [104; 0; 105; 0]
  /\ dest_written (snd (flush_output_buffer Example.buffered)) = 4
  /\ pending_bytes (snd (flush_output_buffer Example.buffered)) = [].
Proof.
  destruct (flush_delivers_all Example.buffered [] [[104; 0; 105; 0]] S_OK
              eq_refl eq_refl)
    as (Hp & Hf & He).
  - split; vm_compute; discriminate.
  - split; reflexivity.
  - split; vm_compute; reflexivity.
  - left. vm_compute. reflexivity.
  - reflexivity.
  - reflexivity.
  - split; [rewrite Hp; reflexivity |].
    split; [rewrite Hf; reflexivity | exact He].
Defined.

Lemma flush_failed_write_keeps_offset_witness :
  let This : mxwriter failing_stream :=
    run_calls [Call_put_output (VT_UNKNOWN_stream FailingStream);
               Call_characters (Some (W "hi")) 2]
      (Example.fresh_on failing_stream) in
  fst (flush_output_buffer This) = E_FAIL
  /\ dest_written (snd (flush_output_buffer This)) = 0
  /\ pending_bytes (snd (flush_output_buffer This)) = [104; 0; 105; 0].
Proof.
  intros This.
  destruct (flush_failed_write_keeps_offset This FailingStream FailingStream
              E_FAIL 1 eq_refl eq_refl eq_refl)
    as (Hf & Hw & Hp).
  - left. vm_compute. discriminate.
  - reflexivity.
  - reflexivity.
  - rewrite Hw, Hp, Hf. repeat split.
Defined.

Lemma put_encoding_get_encoding_witness :
  mxwriter_get_encoding (snd (mxwriter_put_encoding Example.fresh (W "UTF-8")))
  = (S_OK, Some (W "UTF-8")).
Proof.
  apply (put_encoding_get_encoding Example.fresh (W "UTF-8")). reflexivity.
Defined.

Lemma put_output_rebinds_witness :
  let r := mxwriter_put_output Example.buffered VT_EMPTY in
  fst r = S_OK /\ dest (snd r) = None /\ dest_written (snd r) = 0
  /\ utf16_text (buffer (snd r)) = [].
Proof.
  cbv zeta.
  destruct (put_output_rebinds Example.buffered VT_EMPTY) as [_ Hok].
  destruct (Hok eq_refl) as (Hr & Hd & Hu & _ & Hw & _).
  unfold utf16_text. rewrite Hr, Hd, Hu, Hw. repeat split.
Defined.

Section RoundTripFacts.

Context {S : Type} `{IStream S}.

Implicit Types This : mxwriter S.

Lemma wchar_bytes_round (c : WCHAR) :
  0 <= c < 65536 ->
  Z.lor (Z.land c 255) (Z.shiftl (Z.land (Z.shiftr c 8) 255) 8) = c.
Proof.
  intros Hc. change 255 with (Z.ones 8). apply Z.bits_inj'. intros n Hn.
  rewrite Z.lor_spec, Z.land_spec, Z.testbit_ones_nonneg by lia.
  destruct (Z.ltb_spec n 8).
  - rewrite Z.shiftl_spec_low by lia. now rewrite andb_true_r, orb_false_r.
  - rewrite Z.shiftl_spec, Z.land_spec, Z.shiftr_spec,
      Z.testbit_ones_nonneg by lia.
    replace (n - 8 + 8) with n by lia. rewrite andb_false_r. cbn [orb].
    destruct (Z.ltb_spec (n - 8) 8); [apply andb_true_r |].
    rewrite andb_false_r. symmetry.
    destruct (Z.eq_dec c 0) as [-> | Hne]; [apply Z.testbit_0_l |].
    apply Z.bits_above_log2; [lia |].
    assert (Z.log2 c < 16) by (apply Z.log2_lt_pow2; lia). lia.
Qed.

Lemma bytes_wchars_wchars_bytes (ws : list WCHAR) :
  units16 ws -> bytes_wchars (wchars_bytes ws) = ws.
Proof.
  induction 1 as [| c ws Hc _ IH]; [reflexivity |].
  cbn [wchars_bytes flat_map app bytes_wchars].
  fold (wchars_bytes ws). now rewrite IH, wchar_bytes_round.
Qed.

Lemma units16_firstn (n : nat) (ws : list WCHAR) :
  units16 ws -> units16 (firstn n ws).
Proof.
  unfold units16. intros Hw. rewrite <- (firstn_skipn n ws) in Hw.
  now apply Forall_app in Hw.
Qed.

(** X19: without a sink, get_output hands back, up to the first NUL, the
    text the native buffer held, then '>' if a start tag was pending, then
    the character data just written, unit for unit: what characters stores
    is what get_output reads. *)
Theorem characters_get_output_round_trip This (ws text : list WCHAR)
    (nchars : Z) :
  dest This = None ->
  data (utf16 (buffer This)) = wchars_bytes ws ->
  units16 ws -> units16 text ->
  0 <= nchars <= Z.of_nat (length text) ->
  let r := mxwriter_get_output
             (snd (mxwriter_saxcontent_characters This (Some text) nchars)) in
  fst (fst r) = S_OK
  /\ snd r
     = Some (c_str (ws
                    ++ (match element This with Some _ => W ">" | None => [] end)
                    ++ firstn (Z.to_nat nchars) text)).
Proof.
  intros Hd Hdata Hws Htext Hn.
  set (filled := snd (mxwriter_saxcontent_characters This (Some text) nchars)).
  assert (Hf : dest filled = None /\ element filled = None).
  { subst filled. unfold mxwriter_saxcontent_characters.
    destruct (close_element_starttag_appended This) as (b & -> & _).
    now destruct (negb (nchars =? 0)). }
  destruct Hf as [Hfd Hfe].
  assert (Hbytes : data (utf16 (buffer filled))
            = wchars_bytes
                (ws ++ (match element This with Some _ => W ">" | None => [] end)
                 ++ firstn (Z.to_nat nchars) text)).
  { subst filled. rewrite characters_writes_raw by lia.
    rewrite close_element_starttag_data, Hdata.
    now rewrite !wchars_bytes_app, <- app_assoc. }
  cbn zeta. unfold mxwriter_get_output. rewrite Hfd.
  rewrite (flush_idle filled Hfe). unfold write_data_to_stream. rewrite Hfd.
  change (FAILED S_OK) with false. cbv iota. cbn [fst snd].
  split; [reflexivity |]. unfold utf16_text. rewrite Hbytes.
  rewrite bytes_wchars_wchars_bytes; [reflexivity |].
  apply Forall_app. split; [exact Hws |]. apply Forall_app. split.
  - destruct (element This); repeat constructor; lia.
  - now apply units16_firstn.
Qed.

End RoundTripFacts.

Lemma characters_get_output_round_trip_witness :
  snd (mxwriter_get_output
         (snd (mxwriter_saxcontent_characters Example.fresh
                 (Some (W "caf" ++ [233])) 4)))
  = Some (W "caf" ++ [233]).
Proof.
  destruct (characters_get_output_round_trip Example.fresh []
              (W "caf" ++ [233]) 4 eq_refl eq_refl)
    as [_ Hr].
  - constructor.
  - repeat constructor; vm_compute; discriminate.
  - cbn. lia.
  - rewrite Hr. reflexivity.
Defined.

(** * Invariants of every run of calls *)

Section RunFacts.

Context {S : Type} `{IStream S}.

Implicit Types This : mxwriter S.

Lemma run_calls_invariant (P : mxwriter S -> Prop) :
  (forall c This, P This -> P (snd (run_call c This))) ->
  forall cs This, P This -> P (run_calls cs This).
Proof.
  intros Hstep cs. induction cs as [| c cs IH]; intros This HP; cbn;
    [exact HP | apply IH, Hstep, HP].
Qed.

Lemma set_shape_same This :
  set_element (set_buffer This (buffer This)) (element This) = This.
Proof. now destruct This. Qed.

(** A content call changes the buffers, by appending, and the pending
    element, and nothing else. *)
Lemma content_call_shape (c : call) This :
  match c with
  | Call_startElement _ _ _ _ _ _ _ _ | Call_endElement _ _ _ _ _ _
  | Call_characters _ _ => True
  | _ => False
  end ->
  exists b e, snd (run_call c This) = set_element (set_buffer This b) e
              /\ appended (buffer This) b.
Proof.
  assert (Hsame : exists b e, This = set_element (set_buffer This b) e
                              /\ appended (buffer This) b).
  { exists (buffer This), (element This). split;
      [symmetry; apply set_shape_same | apply appended_refl]. }
  destruct c as [dst | | name | p v | ver | | | | ns nns ln nln q nq attr heap
                | ns nns ln nln q nq | chars nchars]; try contradiction;
    intros _; cbn [run_call].
  - destruct (startElement_appends This ns nns ln nln q nq attr heap) as (_ & _ & Ha).
    revert Ha. unfold mxwriter_saxcontent_startElement.
    destruct (_ && _); [intros _; exact Hsame |].
    destruct (close_element_starttag_appended This) as (b & -> & _).
    destruct attr as [a |].
    + destruct (getLength a) as [hr len].
      destruct (FAILED hr); [intros Ha; eexists _, _; split; [reflexivity | exact Ha] |].
      destruct (write_attributes heap a (Z.to_nat len) 0 _) as [hr' b'].
      intros Ha. eexists _, _. split; [reflexivity | exact Ha].
    + intros Ha. eexists _, _. split; [reflexivity | exact Ha].
  - destruct (endElement_appends This ns nns ln nln q nq) as (_ & _ & Ha).
    revert Ha. unfold mxwriter_saxcontent_endElement.
    destruct (_ && _); [intros _; exact Hsame |].
    intros Ha. eexists _, _. split; [reflexivity | exact Ha].
  - destruct (characters_appends This chars nchars) as (_ & _ & Ha).
    revert Ha. unfold mxwriter_saxcontent_characters.
    destruct chars; [| intros _; exact Hsame].
    destruct (close_element_starttag_appended This) as (b & -> & _).
    destruct (negb (nchars =? 0)); intros Ha; eexists _, _;
      (split; [reflexivity | exact Ha]).
Qed.

Lemma code_page_ok_frame This This' :
  encoding This' = encoding This ->
  code_page (buffer This') = code_page (buffer This) ->
  code_page_ok This -> code_page_ok This'.
Proof. unfold code_page_ok. now intros -> ->. Qed.

Lemma reset_code_page_ok This :
  encoding This = XML_CHAR_ENCODING_UTF16LE
    \/ encoding This = XML_CHAR_ENCODING_UTF8 ->
  code_page_ok (reset_output_buffer This).
Proof.
  unfold code_page_ok, reset_output_buffer, close_output_buffer. frame_simpl.
  intros [He | He]; rewrite He; [left | right]; now split.
Qed.

Lemma code_page_ok_encoding This :
  code_page_ok This ->
  encoding This = XML_CHAR_ENCODING_UTF16LE
    \/ encoding This = XML_CHAR_ENCODING_UTF8.
Proof. unfold code_page_ok. tauto. Qed.

Lemma flush_code_page_ok This :
  code_page_ok This -> code_page_ok (snd (flush_output_buffer This)).
Proof.
  destruct (flush_frame This) as (_ & He & (_ & _ & Hc) & _).
  now apply code_page_ok_frame.
Qed.

Lemma startDocument_code_page_ok This :
  code_page_ok This ->
  code_page_ok (snd (mxwriter_saxcontent_startDocument This)).
Proof.
  intros Hok. destruct (prop_changed This) eqn:Hc.
  - assert (Heq : mxwriter_saxcontent_startDocument This
                = mxwriter_saxcontent_startDocument
                    (set_prop_changed (reset_output_buffer This) false)).
    { unfold mxwriter_saxcontent_startDocument. now rewrite Hc. }
    rewrite Heq.
    destruct (startDocument_unchanged_appends
                (set_prop_changed (reset_output_buffer This) false) eq_refl)
      as (_ & He & (_ & _ & Hcp)).
    apply (code_page_ok_frame (reset_output_buffer This)); [exact He | exact Hcp |].
    apply reset_code_page_ok, code_page_ok_encoding, Hok.
  - destruct (startDocument_unchanged_appends This Hc) as (_ & He & (_ & _ & Hcp)).
    now apply (code_page_ok_frame This).
Qed.

Lemma run_call_code_page_ok (c : call) This :
  code_page_ok This -> code_page_ok (snd (run_call c This)).
Proof.
  intros Hok.
  destruct c as [dst | | name | p v | ver | | | | ns nns ln nln q nq attr heap
                | ns nns ln nln q nq | chars nchars];
    try (match goal with
         | |- context [run_call ?c This] =>
             destruct (content_call_shape c This I)
               as (b & e & -> & (_ & _ & Hcp))
         end;
         now apply (code_page_ok_frame This));
    cbn [run_call].
  - unfold mxwriter_put_output.
    pose proof (flush_code_page_ok This Hok) as Hf.
    destruct (flush_output_buffer This) as [hr T]. cbn [snd] in Hf.
    destruct (FAILED hr); [exact Hf |].
    destruct dst; cbn [snd]; try exact Hf.
    + apply (code_page_ok_frame (reset_output_buffer T)); try reflexivity.
      apply reset_code_page_ok, code_page_ok_encoding, Hf.
    + apply (code_page_ok_frame (reset_output_buffer T)); try reflexivity.
      apply reset_code_page_ok, code_page_ok_encoding, Hf.
  - unfold mxwriter_get_output.
    destruct (dest This); [exact Hok |].
    pose proof (flush_code_page_ok This Hok) as Hf.
    destruct (flush_output_buffer This) as [hr T]. cbn [snd] in Hf.
    destruct (FAILED hr); exact Hf.
  - unfold mxwriter_put_encoding.
    destruct ((strcmpW name utf16W =? 0) || (strcmpW name utf8W =? 0)) eqn:Hg;
      [| exact Hok].
    apply put_encoding_gate in Hg.
    pose proof (flush_code_page_ok This Hok) as Hf.
    destruct (flush_output_buffer This) as [hr T]. cbn [snd] in Hf.
    destruct (FAILED hr); [exact Hf |]. cbn [snd].
    apply reset_code_page_ok. unfold heap_strdupWtoA. frame_simpl.
    destruct Hg as [-> | ->]; [left | right]; reflexivity.
  - exact Hok.
  - destruct ver; exact Hok.
  - exact (flush_code_page_ok This Hok).
  - exact (startDocument_code_page_ok This Hok).
  - exact (flush_code_page_ok (set_prop_changed This false) Hok).
Qed.

(** X20: whatever calls are made on a new writer, the active encoding is
    UTF-16LE or UTF-8 and the code page of the buffers is the one of that
    encoding: the two change together, in put_encoding, and a reset
    resolves the code page again. *)
Theorem run_calls_code_page_ok (ver : MSXML_VERSION) This (cs : list call) :
  MXWriter_create ver = (S_OK, Some This) ->
  code_page_ok (run_calls cs This).
Proof.
  intros Hc. apply (run_calls_invariant code_page_ok).
  - exact run_call_code_page_ok.
  - vm_compute in Hc. injection Hc as <-. left. split; reflexivity.
Qed.

Lemma flush_no_sink_no_offset This :
  no_sink_no_offset This -> no_sink_no_offset (snd (flush_output_buffer This)).
Proof.
  unfold no_sink_no_offset, flush_output_buffer. intros Hn.
  destruct (close_element_starttag_appended This) as (b & -> & _).
  set (T := set_element_name (set_buffer This b) None 0).
  assert (HT : dest T = dest This /\ dest_written T = dest_written This)
    by now split.
  destruct HT as [Hd Hw]. unfold write_data_to_stream.
  destruct (dest T) as [d |] eqn:HdT.
  - destruct (sanity_check_fails T); [cbn [snd]; congruence |].
    destruct (_ && _); [cbn [snd]; congruence |].
    destruct (IStream_Write d (pending_bytes T)) as [[hr taken] d'].
    destruct (FAILED hr); cbn; discriminate.
  - cbn [snd]. intros _. rewrite Hw. apply Hn. congruence.
Qed.

Lemma run_call_no_sink_no_offset (c : call) This :
  no_sink_no_offset This -> no_sink_no_offset (snd (run_call c This)).
Proof.
  intros Hn.
  destruct c as [dst | | name | p v | ver | | | | ns nns ln nln q nq attr heap
                | ns nns ln nln q nq | chars nchars];
    try (match goal with
         | |- context [run_call ?c This] =>
             destruct (content_call_shape c This I) as (b & e & -> & _)
         end;
         exact Hn);
    cbn [run_call].
  - unfold mxwriter_put_output.
    pose proof (flush_no_sink_no_offset This Hn) as Hf.
    destruct (flush_output_buffer This) as [hr T]. cbn [snd] in Hf.
    destruct (FAILED hr); [exact Hf |].
    destruct dst; cbn [snd]; try exact Hf; intros _; reflexivity.
  - unfold mxwriter_get_output.
    destruct (dest This) eqn:Hd; [exact Hn |].
    pose proof (flush_no_sink_no_offset This Hn) as Hf.
    destruct (flush_output_buffer This) as [hr T]. cbn [snd] in Hf.
    destruct (FAILED hr); exact Hf.
  - unfold mxwriter_put_encoding.
    destruct (_ || _); [| exact Hn].
    pose proof (flush_no_sink_no_offset This Hn) as Hf.
    destruct (flush_output_buffer This) as [hr T]. cbn [snd] in Hf.
    destruct (FAILED hr); [exact Hf |]. intros _. reflexivity.
  - exact Hn.
  - destruct ver; exact Hn.
  - exact (flush_no_sink_no_offset This Hn).
  - unfold no_sink_no_offset in *. intros Hd.
    destruct (prop_changed This) eqn:Hc.
    + assert (Heq : mxwriter_saxcontent_startDocument This
                  = mxwriter_saxcontent_startDocument
                      (set_prop_changed (reset_output_buffer This) false)).
      { unfold mxwriter_saxcontent_startDocument. now rewrite Hc. }
      rewrite Heq.
      now destruct (startDocument_unchanged_appends
                      (set_prop_changed (reset_output_buffer This) false)
                      eq_refl) as (-> & _).
    + destruct (startDocument_unchanged_appends This Hc) as (Hw & _).
      rewrite Hw. apply Hn. revert Hd.
      unfold mxwriter_saxcontent_startDocument. rewrite Hc.
      destruct (get_prop This MXWriter_OmitXmlDecl =? VARIANT_TRUE);
        [exact (fun x => x) |].
      destruct (write_prolog_buffer_appended This) as (b & -> & _).
      frame_simpl. destruct (dest This) eqn:Hd0; [| intros _; reflexivity].
      destruct (_ && _); frame_simpl; congruence.
  - exact (flush_no_sink_no_offset (set_prop_changed This false) Hn).
Qed.

(** X21: whatever calls are made on a new writer, the sink offset is 0
    whenever no sink is attached: only a Write call advances it, and
    detaching the sink resets it. *)
Theorem run_calls_no_sink_no_offset (ver : MSXML_VERSION) This
    (cs : list call) :
  MXWriter_create ver = (S_OK, Some This) ->
  dest (run_calls cs This) = None ->
  dest_written (run_calls cs This) = 0.
Proof.
  intros Hc. apply (run_calls_invariant no_sink_no_offset).
  - exact run_call_no_sink_no_offset.
  - vm_compute in Hc. injection Hc as <-. intros _. reflexivity.
Qed.

(** X22: whatever calls are made on a new writer, the stored version is
    never NULL: put_version refuses NULL and nothing else replaces it, so
    the declaration always has a version string to read. *)
Theorem run_calls_version_not_null (ver : MSXML_VERSION) This
    (cs : list call) :
  MXWriter_create ver = (S_OK, Some This) ->
  version (run_calls cs This) <> None.
Proof.
  intros Hc.
  apply (run_calls_invariant (fun T => version T <> None)).
  - exact run_call_version.
  - vm_compute in Hc. injection Hc as <-. discriminate.
Qed.

End RunFacts.

Lemma run_calls_code_page_ok_witness :
  code_page_ok (run_calls [Call_put_encoding (W "UTF-8"); Call_startDocument]
                  Example.fresh)
  /\ encoding (run_calls [Call_put_encoding (W "UTF-8"); Call_startDocument]
                 Example.fresh) = XML_CHAR_ENCODING_UTF8.
Proof.
  split; [| reflexivity].
  apply (run_calls_code_page_ok MSXML3). reflexivity.
Defined.

Lemma run_calls_no_sink_no_offset_witness :
  dest_written
    (run_calls [Call_put_output (VT_UNKNOWN_stream []);
                Call_characters (Some (W "hi")) 2; Call_flush;
                Call_put_output VT_EMPTY] Example.fresh) = 0.
Proof.
  apply (run_calls_no_sink_no_offset MSXML3); reflexivity.
Defined.

Lemma run_calls_version_not_null_witness :
  version (run_calls [Call_put_version None; Call_put_version (Some (W "1.1"))]
             Example.fresh) <> None.
Proof.
  apply (run_calls_version_not_null MSXML3). reflexivity.
Defined.
